(** * CSV to CFONB120 converter: a shallow embedding and its properties

    The development follows [csv_to_cfonb120final.py] (the Decimal based
    converter with sign overpunch) and the string helpers of
    [csv_to_cfonb120.py].  Python strings are sequences of code points,
    [decimal.Decimal] values are sign / coefficient / exponent triples under
    the default context (28 digits, ROUND_HALF_EVEN), exceptions are values of
    [exn] carried by the [result] monad. *)

From Stdlib Require Import String Ascii.
From Stdlib Require Import ZArith NArith List Bool Lia.
From Stdlib Require Import QArith Qround Qabs Qpower.
From Stdlib Require Import Sorted Permutation.
Import ListNotations.

Close Scope Q_scope.
Local Open Scope nat_scope.

(** ** Exceptions and the result monad *)

Definition char := N.
Definition pystr := list char.

Inductive exn : Type :=
| ValueError_InvalidAmount (raw : pystr)
| ValueError_AmountTooLarge (width : Z) (digits : pystr)
| ValueError_strptime (text : pystr)
| ValueError_LineLength (len : nat)
| ValueError_NaN_to_int
| OverflowError_Inf_to_int
| TypeError_Decimal_float
| InvalidOperation
| Overflow
| KeyError (key : char)
| IndexError
| SystemExit_NoTransactions
| UnicodeEncodeError.

Inductive result (A : Type) : Type :=
| Ok (a : A)
| Raise (e : exn).

Arguments Ok {A} a.
Arguments Raise {A} e.

Definition bind {A B} (r : result A) (k : A -> result B) : result B :=
  match r with
  | Ok a => k a
  | Raise e => Raise e
  end.

Notation "x <- r ;; k" := (bind r (fun x => k))
  (at level 61, r at next level, right associativity).

Definition is_ok {A} (r : result A) : bool :=
  match r with Ok _ => true | Raise _ => false end.

(** ** Strings *)

Definition chr (a : ascii) : char := N_of_ascii a.
Definition lit (s : string) : pystr := map N_of_ascii (list_ascii_of_string s).

Definition char_eqb (a b : char) : bool := N.eqb a b.

Fixpoint str_eqb (a b : pystr) : bool :=
  match a, b with
  | [], [] => true
  | x :: a', y :: b' => char_eqb x y && str_eqb a' b'
  | _, _ => false
  end.

Definition len (s : pystr) : Z := Z.of_nat (length s).

(** [s[:n]] for an arbitrary integer [n]: a negative bound counts from the
    end. *)
Definition slice_to (s : pystr) (n : Z) : pystr :=
  if (n <? 0)%Z then firstn (Z.to_nat (len s + n)) s else firstn (Z.to_nat n) s.

(** [s[a:b]] for non-negative literal bounds. *)
Definition slice (s : pystr) (a b : nat) : pystr := skipn a (firstn b s).

(** [s[a:]] for a non-negative literal bound. *)
Definition slice_from (s : pystr) (a : nat) : pystr := skipn a s.

Definition ljust (s : pystr) (width : Z) (fill : char) : pystr :=
  s ++ repeat fill (Z.to_nat (width - len s)).

Definition rjust (s : pystr) (width : Z) (fill : char) : pystr :=
  repeat fill (Z.to_nat (width - len s)) ++ s.

(** [str.replace(old, "")] for a one-character [old]. *)
Definition remove_char (c : char) (s : pystr) : pystr :=
  filter (fun x => negb (char_eqb x c)) s.

(** [str.replace(old, new)] for one-character [old] and [new]. *)
Definition replace_char (old new : char) (s : pystr) : pystr :=
  map (fun x => if char_eqb x old then new else x) s.

(** [str.isspace] on one code point (Unicode 14, the set used by
    [str.strip()] and [str.split()] without argument). *)
Definition isspace (c : char) : bool :=
  ((9 <=? c) && (c <=? 13) || (28 <=? c) && (c <=? 32) ||
   (c =? 133) || (c =? 160) || (c =? 5760) ||
   (8192 <=? c) && (c <=? 8202) || (c =? 8232) || (c =? 8233) ||
   (c =? 8239) || (c =? 8287) || (c =? 12288))%N.

Fixpoint lstrip (s : pystr) : pystr :=
  match s with
  | c :: s' => if isspace c then lstrip s' else s
  | [] => []
  end.

Definition rstrip (s : pystr) : pystr := rev (lstrip (rev s)).

Definition strip (s : pystr) : pystr := rstrip (lstrip s).

(** [str.split()] without argument: the maximal runs of non-space characters.
    [cur] is the word being read, reversed. *)
Fixpoint split_ws (cur : pystr) (s : pystr) : list pystr :=
  match s with
  | [] => match cur with [] => [] | _ => [rev cur] end
  | c :: s' =>
      if isspace c
      then match cur with [] => split_ws [] s' | _ => rev cur :: split_ws [] s' end
      else split_ws (c :: cur) s'
  end.

Definition split (s : pystr) : list pystr := split_ws [] s.

(** [sep.join(parts)]. *)
Fixpoint join (sep : pystr) (parts : list pystr) : pystr :=
  match parts with
  | [] => []
  | [p] => p
  | p :: rest => p ++ sep ++ join sep rest
  end.

(** Decimal rendering of a natural number, most significant digit first. *)
Fixpoint digits_fuel (fuel : nat) (n : N) (acc : pystr) : pystr :=
  match fuel with
  | O => acc
  | S f =>
      let acc' := (48 + n mod 10)%N :: acc in
      if (n <? 10)%N then acc' else digits_fuel f (n / 10)%N acc'
  end.

Definition str_of_N (n : N) : pystr :=
  digits_fuel (S (N.to_nat (N.log2 n))) n [].

(** [f"{z:d}"] *)
Definition format_d (z : Z) : pystr :=
  if (z <? 0)%Z then chr "-" :: str_of_N (Z.to_N (- z)) else str_of_N (Z.to_N z).

(** ** [decimal.Decimal] under the default context

    A finite value is [(-1)^sign * coef * 10^exp].  NaN payloads are left out:
    no operation of the converter reads them.  The arithmetic below is the
    library's specified result (the exact result, then [_fix] to the context),
    written on numbers where the library works on digit strings. *)

Inductive Decimal : Type :=
| Fin (sign : bool) (coef : N) (exp : Z)
| Inf (sign : bool)
| NaN (sign : bool) (signaling : bool).

Definition prec : Z := 28.
Definition Emax : Z := 999999.
Definition Emin : Z := -999999.
Definition Etiny : Z := Emin - prec + 1.
Definition Etop : Z := Emax - prec + 1.

(** [len(self._int)] *)
Definition ndigits (c : N) : Z := len (str_of_N c).

(** [self.adjusted()] of a finite value. *)
Definition adjusted (c : N) (e : Z) : Z := (e + ndigits c - 1)%Z.

(** ROUND_HALF_EVEN when the [k] low digits of [c] are dropped ([0 < k]);
    the boolean tells whether the kept digits were incremented. *)
Definition round_half_even (c : N) (k : Z) : N * bool :=
  let p := (10 ^ Z.to_N k)%N in
  let q := (c / p)%N in
  let r := (c mod p)%N in
  match (2 * r ?= p)%N with
  | Gt => ((q + 1)%N, true)
  | Eq => if N.even q then (q, false) else ((q + 1)%N, true)
  | Lt => (q, false)
  end.

(** [Decimal._fix]: round to the context precision and exponent range. *)
Definition fix_ (d : Decimal) : result Decimal :=
  match d with
  | Fin s 0%N e => Ok (Fin s 0 (Z.min (Z.max e Etiny) Emax))
  | Fin s c e =>
      let exp_min := (ndigits c + e - prec)%Z in
      if (Etop <? exp_min)%Z then Raise Overflow
      else
        let exp_min := Z.max exp_min Etiny in
        if (e <? exp_min)%Z then
          let '(coeff, changed) := round_half_even c (exp_min - e) in
          let '(coeff, exp_min) :=
            if changed && (prec <? ndigits coeff)%Z
            then ((coeff / 10)%N, (exp_min + 1)%Z) else (coeff, exp_min) in
          if (Etop <? exp_min)%Z then Raise Overflow
          else Ok (Fin s coeff exp_min)
        else Ok d
  | _ => Ok d
  end.

(** [Decimal._rescale(exp, ROUND_HALF_EVEN)] *)
Definition rescale (d : Decimal) (exp : Z) : Decimal :=
  match d with
  | Fin s 0%N _ => Fin s 0 exp
  | Fin s c e =>
      if (exp <=? e)%Z then Fin s (c * 10 ^ Z.to_N (e - exp))%N exp
      else Fin s (fst (round_half_even c (exp - e))) exp
  | _ => d
  end.

(** [Decimal(n)] for a Python int. *)
Definition Decimal_of_int (z : Z) : Decimal :=
  Fin (z <? 0)%Z (Z.abs_N z) 0.

Definition dsign (d : Decimal) : bool :=
  match d with Fin s _ _ | Inf s | NaN s _ => s end.

Definition is_zero (d : Decimal) : bool :=
  match d with Fin _ 0%N _ => true | _ => false end.

(** [self._check_nans(other)]: a signaling NaN raises, a quiet NaN is the
    result. *)
Definition check_nans (a b : Decimal) : result (option Decimal) :=
  match a, b with
  | NaN _ true, _ => Raise InvalidOperation
  | _, NaN _ true => Raise InvalidOperation
  | NaN _ false, _ => Ok (Some a)
  | _, NaN _ false => Ok (Some b)
  | _, _ => Ok None
  end.

(** [self >= other] with [other = 0]: an ordering comparison with a NaN
    raises. *)
Definition ge_zero (d : Decimal) : result bool :=
  match d with
  | NaN _ _ => Raise InvalidOperation
  | Inf s => Ok (negb s)
  | Fin s c _ => Ok (negb s || (c =? 0)%N)
  end.

(** [abs(self)] *)
Definition dabs (d : Decimal) : result Decimal :=
  match d with
  | NaN _ true => Raise InvalidOperation
  | NaN _ false => Ok d
  | Inf _ => Ok (Inf false)
  | Fin _ c e => fix_ (Fin false c e)
  end.

(** [self * other] *)
Definition dmul (a b : Decimal) : result Decimal :=
  n <- check_nans a b ;;
  match n with
  | Some r => Ok r
  | None =>
      let s := xorb (dsign a) (dsign b) in
      match a, b with
      | Fin _ c e, Fin _ c' e' => fix_ (Fin s (c * c')%N (e + e')%Z)
      | Inf _, _ => if is_zero b then Raise InvalidOperation else Ok (Inf s)
      | _, _ => if is_zero a then Raise InvalidOperation else Ok (Inf s)
      end
  end.

(** Signed coefficient of a finite value at the exponent [e], which is at most
    the value's own. *)
Definition signed_at (s : bool) (c : N) (exp e : Z) : Z :=
  let m := (Z.of_N c * 10 ^ (exp - e))%Z in if s then (- m)%Z else m.

(** [self + other] *)
Definition dadd (a b : Decimal) : result Decimal :=
  n <- check_nans a b ;;
  match n with
  | Some r => Ok r
  | None =>
      match a, b with
      | Inf s, Inf t => if eqb s t then Ok a else Raise InvalidOperation
      | Inf _, _ => Ok a
      | _, Inf _ => Ok b
      | Fin s c e, Fin t c' e' =>
          let exp := Z.min e e' in
          let total := (signed_at s c e exp + signed_at t c' e' exp)%Z in
          let sign :=
            if (total =? 0)%Z
            then match c, c' with 0%N, 0%N => andb s t | _, _ => false end
            else (total <? 0)%Z in
          fix_ (Fin sign (Z.abs_N total) exp)
      | _, _ => Ok a
      end
  end.

Definition copy_negate (d : Decimal) : Decimal :=
  match d with
  | Fin s c e => Fin (negb s) c e
  | Inf s => Inf (negb s)
  | NaN s g => NaN (negb s) g
  end.

(** [self - other] *)
Definition dsub (a b : Decimal) : result Decimal :=
  n <- check_nans a b ;;
  match n with
  | Some r => Ok r
  | None => dadd a (copy_negate b)
  end.

(** [self.quantize(exp)] for a finite [exp]; only its exponent matters. *)
Definition quantize (d : Decimal) (exp : Z) : result Decimal :=
  match d with
  | NaN _ true => Raise InvalidOperation
  | NaN _ false => Ok d
  | Inf _ => Raise InvalidOperation
  | Fin s c e =>
      if ((exp <? Etiny) || (Emax <? exp))%Z then Raise InvalidOperation
      else if (c =? 0)%N then fix_ (Fin s 0 exp)
      else if (Emax <? adjusted c e)%Z then Raise InvalidOperation
      else if (prec <? adjusted c e - exp + 1)%Z then Raise InvalidOperation
      else
        match rescale d exp with
        | Fin s' c' e' =>
            if (Emax <? adjusted c' e')%Z then Raise InvalidOperation
            else if (prec <? ndigits c')%Z then Raise InvalidOperation
            else fix_ (Fin s' c' e')
        | other => Ok other
        end
  end.

(** [int(self)]: truncation towards zero. *)
Definition to_int (d : Decimal) : result Z :=
  match d with
  | NaN _ _ => Raise ValueError_NaN_to_int
  | Inf _ => Raise OverflowError_Inf_to_int
  | Fin s c e =>
      let m := if (0 <=? e)%Z then (Z.of_N c * 10 ^ e)%Z
               else (Z.of_N c / 10 ^ (- e))%Z in
      Ok (if s then (- m)%Z else m)
  end.

(** The exact value of a finite Decimal. *)
Definition dvalue (d : Decimal) : Q :=
  match d with
  | Fin s c e =>
      let m := (inject_Z (Z.of_N c) * Qpower (inject_Z 10) e)%Q in
      if s then Qopp m else m
  | _ => 0%Q
  end.

Definition is_finite (d : Decimal) : bool :=
  match d with Fin _ _ _ => true | _ => false end.

(** ** The sign-overpunch amount encoder *)

(** A Python dict with one-character keys and values, in insertion order. *)
Definition dict := list (char * char).

Fixpoint lookup (m : dict) (k : char) : result char :=
  match m with
  | [] => Raise (KeyError k)
  | (k', v) :: m' => if char_eqb k' k then Ok v else lookup m' k
  end.

Definition CREDIT_MAP : dict :=
  combine (lit "0123456789") (lit "{ABCDEFGHI").

Definition DEBIT_MAP : dict :=
  combine (lit "0123456789") (lit "}JKLMNOPQR").

Definition CFONB_WIDTH : nat := 120.
Definition AMOUNT_WIDTH : Z := 14.

(** [s[-1]] *)
Definition last_char (s : pystr) : result char :=
  match s with
  | [] => Raise IndexError
  | _ => Ok (last s 0%N)
  end.

(** [10 ** decimals]: an int for a non-negative exponent, a float otherwise,
    and [Decimal * float] raises TypeError. *)
Definition pow10 (decimals : Z) : result Decimal :=
  if (decimals <? 0)%Z then Raise TypeError_Decimal_float
  else Ok (Decimal_of_int (10 ^ decimals)).

(** [int(scaled)] as computed on the way to the digit string. *)
Definition scaled_int (amount : Decimal) (decimals : Z) : result Z :=
  a <- dabs amount ;;
  p <- pow10 decimals ;;
  m <- dmul a p ;;
  scaled <- quantize m 0 ;;
  to_int scaled.

Definition cfonb_encode_amount (amount : Decimal) (decimals : Z) (width : Z)
  : result pystr :=
  nonneg <- ge_zero amount ;;
  let sign := if nonneg then 1%Z else (-1)%Z in
  n <- scaled_int amount decimals ;;
  let digits := format_d n in
  if (width <? len digits)%Z then Raise (ValueError_AmountTooLarge width digits)
  else
    let digits := rjust digits width (chr "0") in
    last_digit <- last_char digits ;;
    encoded_last <- (if (0 <=? sign)%Z then lookup CREDIT_MAP last_digit
                     else lookup DEBIT_MAP last_digit) ;;
    Ok (removelast digits ++ [encoded_last]).

(** Decoding the last character of an amount field: inverse lookup across both
    substitution tables; the boolean is [true] for a credit. *)
Fixpoint inverse_lookup (m : dict) (v : char) : option char :=
  match m with
  | [] => None
  | (k, v') :: m' => if char_eqb v' v then Some k else inverse_lookup m' v
  end.

Definition overpunch_decode (c : char) : option (char * bool) :=
  match inverse_lookup CREDIT_MAP c with
  | Some d => Some (d, true)
  | None =>
      match inverse_lookup DEBIT_MAP c with
      | Some d => Some (d, false)
      | None => None
      end
  end.

Definition is_ascii_digit (c : char) : bool := ((48 <=? c) && (c <=? 57))%N.

(** The number a digit string denotes. *)
Definition N_of_digits (s : pystr) : N :=
  fold_left (fun a c => (10 * a + (c - 48))%N) s 0%N.

(** The substitution table of a sign: [true] is a credit. *)
Definition table (credit : bool) : dict :=
  if credit then CREDIT_MAP else DEBIT_MAP.


(** ** Rounding of exact values, as the specification words it *)

(** Nearest integer, a tie going to the even neighbour. *)
Definition Qround_half_even (q : Q) : Z :=
  let f := Qfloor q in
  match Qcompare (q - inject_Z f) (1 # 2) with
  | Lt => f
  | Gt => (f + 1)%Z
  | Eq => if Z.even f then f else (f + 1)%Z
  end.

(** Nearest integer, a tie going up (away from zero on a magnitude). *)
Definition Qround_half_up (q : Q) : Z := Qfloor (q + (1 # 2)).

(** The exact magnitude of an amount scaled by [10^decimals]. *)
Definition scaled_value (amount : Decimal) (decimals : Z) : Q :=
  (Qabs (dvalue amount) * Qpower (inject_Z 10) decimals)%Q.

(** ** Unicode data (Unicode 14.0)

    The code points of category Nd, which the regular expression class
    [\d] and [int()] accept, as runs of consecutive digits: first code point
    and length.  Within a run the digit value is the offset modulo 10. *)
Definition decimal_runs : list (N * N) :=
  [(48, 10); (1632, 10); (1776, 10); (1984, 10); (2406, 10); (2534, 10);
   (2662, 10); (2790, 10); (2918, 10); (3046, 10); (3174, 10); (3302, 10);
   (3430, 10); (3558, 10); (3664, 10); (3792, 10); (3872, 10); (4160, 10);
   (4240, 10); (6112, 10); (6160, 10); (6470, 10); (6608, 10); (6784, 10);
   (6800, 10); (6992, 10); (7088, 10); (7232, 10); (7248, 10); (42528, 10);
   (43216, 10); (43264, 10); (43472, 10); (43504, 10); (43600, 10);
   (44016, 10); (65296, 10); (66720, 10); (68912, 10); (69734, 10);
   (69872, 10); (69942, 10); (70096, 10); (70384, 10); (70736, 10);
   (70864, 10); (71248, 10); (71360, 10); (71472, 10); (71904, 10);
   (72016, 10); (72784, 10); (73040, 10); (73120, 10); (92768, 10);
   (92864, 10); (93008, 10); (120782, 50); (123200, 10); (123632, 10);
   (125264, 10); (130032, 10)]%N.

(** The code points that [str.upper()] changes, each with its uppercase
    mapping (one to three code points). *)
Definition upper_table : list (N * list N) :=
  [(97, [65]); (98, [66]); (99, [67]); (100, [68]); (101, [69]); (102, [70]);
   (103, [71]); (104, [72]); (105, [73]); (106, [74]); (107, [75]);
   (108, [76]); (109, [77]); (110, [78]); (111, [79]); (112, [80]);
   (113, [81]); (114, [82]); (115, [83]); (116, [84]); (117, [85]);
   (118, [86]); (119, [87]); (120, [88]); (121, [89]); (122, [90]);
   (181, [924]); (223, [83; 83]); (224, [192]); (225, [193]); (226, [194]);
   (227, [195]); (228, [196]); (229, [197]); (230, [198]); (231, [199]);
   (232, [200]); (233, [201]); (234, [202]); (235, [203]); (236, [204]);
   (237, [205]); (238, [206]); (239, [207]); (240, [208]); (241, [209]);
   (242, [210]); (243, [211]); (244, [212]); (245, [213]); (246, [214]);
   (248, [216]); (249, [217]); (250, [218]); (251, [219]); (252, [220]);
   (253, [221]); (254, [222]); (255, [376]); (257, [256]); (259, [258]);
   (261, [260]); (263, [262]); (265, [264]); (267, [266]); (269, [268]);
   (271, [270]); (273, [272]); (275, [274]); (277, [276]); (279, [278]);
   (281, [280]); (283, [282]); (285, [284]); (287, [286]); (289, [288]);
   (291, [290]); (293, [292]); (295, [294]); (297, [296]); (299, [298]);
   (301, [300]); (303, [302]); (305, [73]); (307, [306]); (309, [308]);
   (311, [310]); (314, [313]); (316, [315]); (318, [317]); (320, [319]);
   (322, [321]); (324, [323]); (326, [325]); (328, [327]); (329, [700; 78]);
   (331, [330]); (333, [332]); (335, [334]); (337, [336]); (339, [338]);
   (341, [340]); (343, [342]); (345, [344]); (347, [346]); (349, [348]);
   (351, [350]); (353, [352]); (355, [354]); (357, [356]); (359, [358]);
   (361, [360]); (363, [362]); (365, [364]); (367, [366]); (369, [368]);
   (371, [370]); (373, [372]); (375, [374]); (378, [377]); (380, [379]);
   (382, [381]); (383, [83]); (384, [579]); (387, [386]); (389, [388]);
   (392, [391]); (396, [395]); (402, [401]); (405, [502]); (409, [408]);
   (410, [573]); (414, [544]); (417, [416]); (419, [418]); (421, [420]);
   (424, [423]); (429, [428]); (432, [431]); (436, [435]); (438, [437]);
   (441, [440]); (445, [444]); (447, [503]); (453, [452]); (454, [452]);
   (456, [455]); (457, [455]); (459, [458]); (460, [458]); (462, [461]);
   (464, [463]); (466, [465]); (468, [467]); (470, [469]); (472, [471]);
   (474, [473]); (476, [475]); (477, [398]); (479, [478]); (481, [480]);
   (483, [482]); (485, [484]); (487, [486]); (489, [488]); (491, [490]);
   (493, [492]); (495, [494]); (496, [74; 780]); (498, [497]); (499, [497]);
   (501, [500]); (505, [504]); (507, [506]); (509, [508]); (511, [510]);
   (513, [512]); (515, [514]); (517, [516]); (519, [518]); (521, [520]);
   (523, [522]); (525, [524]); (527, [526]); (529, [528]); (531, [530]);
   (533, [532]); (535, [534]); (537, [536]); (539, [538]); (541, [540]);
   (543, [542]); (547, [546]); (549, [548]); (551, [550]); (553, [552]);
   (555, [554]); (557, [556]); (559, [558]); (561, [560]); (563, [562]);
   (572, [571]); (575, [11390]); (576, [11391]); (578, [577]); (583, [582]);
   (585, [584]); (587, [586]); (589, [588]); (591, [590]); (592, [11375]);
   (593, [11373]); (594, [11376]); (595, [385]); (596, [390]); (598, [393]);
   (599, [394]); (601, [399]); (603, [400]); (604, [42923]); (608, [403]);
   (609, [42924]); (611, [404]); (613, [42893]); (614, [42922]);
   (616, [407]); (617, [406]); (618, [42926]); (619, [11362]);
   (620, [42925]); (623, [412]); (625, [11374]); (626, [413]); (629, [415]);
   (637, [11364]); (640, [422]); (642, [42949]); (643, [425]);
   (647, [42929]); (648, [430]); (649, [580]); (650, [433]); (651, [434]);
   (652, [581]); (658, [439]); (669, [42930]); (670, [42928]); (837, [921]);
   (881, [880]); (883, [882]); (887, [886]); (891, [1021]); (892, [1022]);
   (893, [1023]); (912, [921; 776; 769]); (940, [902]); (941, [904]);
   (942, [905]); (943, [906]); (944, [933; 776; 769]); (945, [913]);
   (946, [914]); (947, [915]); (948, [916]); (949, [917]); (950, [918]);
   (951, [919]); (952, [920]); (953, [921]); (954, [922]); (955, [923]);
   (956, [924]); (957, [925]); (958, [926]); (959, [927]); (960, [928]);
   (961, [929]); (962, [931]); (963, [931]); (964, [932]); (965, [933]);
   (966, [934]); (967, [935]); (968, [936]); (969, [937]); (970, [938]);
   (971, [939]); (972, [908]); (973, [910]); (974, [911]); (976, [914]);
   (977, [920]); (981, [934]); (982, [928]); (983, [975]); (985, [984]);
   (987, [986]); (989, [988]); (991, [990]); (993, [992]); (995, [994]);
   (997, [996]); (999, [998]); (1001, [1000]); (1003, [1002]);
   (1005, [1004]); (1007, [1006]); (1008, [922]); (1009, [929]);
   (1010, [1017]); (1011, [895]); (1013, [917]); (1016, [1015]);
   (1019, [1018]); (1072, [1040]); (1073, [1041]); (1074, [1042]);
   (1075, [1043]); (1076, [1044]); (1077, [1045]); (1078, [1046]);
   (1079, [1047]); (1080, [1048]); (1081, [1049]); (1082, [1050]);
   (1083, [1051]); (1084, [1052]); (1085, [1053]); (1086, [1054]);
   (1087, [1055]); (1088, [1056]); (1089, [1057]); (1090, [1058]);
   (1091, [1059]); (1092, [1060]); (1093, [1061]); (1094, [1062]);
   (1095, [1063]); (1096, [1064]); (1097, [1065]); (1098, [1066]);
   (1099, [1067]); (1100, [1068]); (1101, [1069]); (1102, [1070]);
   (1103, [1071]); (1104, [1024]); (1105, [1025]); (1106, [1026]);
   (1107, [1027]); (1108, [1028]); (1109, [1029]); (1110, [1030]);
   (1111, [1031]); (1112, [1032]); (1113, [1033]); (1114, [1034]);
   (1115, [1035]); (1116, [1036]); (1117, [1037]); (1118, [1038]);
   (1119, [1039]); (1121, [1120]); (1123, [1122]); (1125, [1124]);
   (1127, [1126]); (1129, [1128]); (1131, [1130]); (1133, [1132]);
   (1135, [1134]); (1137, [1136]); (1139, [1138]); (1141, [1140]);
   (1143, [1142]); (1145, [1144]); (1147, [1146]); (1149, [1148]);
   (1151, [1150]); (1153, [1152]); (1163, [1162]); (1165, [1164]);
   (1167, [1166]); (1169, [1168]); (1171, [1170]); (1173, [1172]);
   (1175, [1174]); (1177, [1176]); (1179, [1178]); (1181, [1180]);
   (1183, [1182]); (1185, [1184]); (1187, [1186]); (1189, [1188]);
   (1191, [1190]); (1193, [1192]); (1195, [1194]); (1197, [1196]);
   (1199, [1198]); (1201, [1200]); (1203, [1202]); (1205, [1204]);
   (1207, [1206]); (1209, [1208]); (1211, [1210]); (1213, [1212]);
   (1215, [1214]); (1218, [1217]); (1220, [1219]); (1222, [1221]);
   (1224, [1223]); (1226, [1225]); (1228, [1227]); (1230, [1229]);
   (1231, [1216]); (1233, [1232]); (1235, [1234]); (1237, [1236]);
   (1239, [1238]); (1241, [1240]); (1243, [1242]); (1245, [1244]);
   (1247, [1246]); (1249, [1248]); (1251, [1250]); (1253, [1252]);
   (1255, [1254]); (1257, [1256]); (1259, [1258]); (1261, [1260]);
   (1263, [1262]); (1265, [1264]); (1267, [1266]); (1269, [1268]);
   (1271, [1270]); (1273, [1272]); (1275, [1274]); (1277, [1276]);
   (1279, [1278]); (1281, [1280]); (1283, [1282]); (1285, [1284]);
   (1287, [1286]); (1289, [1288]); (1291, [1290]); (1293, [1292]);
   (1295, [1294]); (1297, [1296]); (1299, [1298]); (1301, [1300]);
   (1303, [1302]); (1305, [1304]); (1307, [1306]); (1309, [1308]);
   (1311, [1310]); (1313, [1312]); (1315, [1314]); (1317, [1316]);
   (1319, [1318]); (1321, [1320]); (1323, [1322]); (1325, [1324]);
   (1327, [1326]); (1377, [1329]); (1378, [1330]); (1379, [1331]);
   (1380, [1332]); (1381, [1333]); (1382, [1334]); (1383, [1335]);
   (1384, [1336]); (1385, [1337]); (1386, [1338]); (1387, [1339]);
   (1388, [1340]); (1389, [1341]); (1390, [1342]); (1391, [1343]);
   (1392, [1344]); (1393, [1345]); (1394, [1346]); (1395, [1347]);
   (1396, [1348]); (1397, [1349]); (1398, [1350]); (1399, [1351]);
   (1400, [1352]); (1401, [1353]); (1402, [1354]); (1403, [1355]);
   (1404, [1356]); (1405, [1357]); (1406, [1358]); (1407, [1359]);
   (1408, [1360]); (1409, [1361]); (1410, [1362]); (1411, [1363]);
   (1412, [1364]); (1413, [1365]); (1414, [1366]); (1415, [1333; 1362]);
   (4304, [7312]); (4305, [7313]); (4306, [7314]); (4307, [7315]);
   (4308, [7316]); (4309, [7317]); (4310, [7318]); (4311, [7319]);
   (4312, [7320]); (4313, [7321]); (4314, [7322]); (4315, [7323]);
   (4316, [7324]); (4317, [7325]); (4318, [7326]); (4319, [7327]);
   (4320, [7328]); (4321, [7329]); (4322, [7330]); (4323, [7331]);
   (4324, [7332]); (4325, [7333]); (4326, [7334]); (4327, [7335]);
   (4328, [7336]); (4329, [7337]); (4330, [7338]); (4331, [7339]);
   (4332, [7340]); (4333, [7341]); (4334, [7342]); (4335, [7343]);
   (4336, [7344]); (4337, [7345]); (4338, [7346]); (4339, [7347]);
   (4340, [7348]); (4341, [7349]); (4342, [7350]); (4343, [7351]);
   (4344, [7352]); (4345, [7353]); (4346, [7354]); (4349, [7357]);
   (4350, [7358]); (4351, [7359]); (5112, [5104]); (5113, [5105]);
   (5114, [5106]); (5115, [5107]); (5116, [5108]); (5117, [5109]);
   (7296, [1042]); (7297, [1044]); (7298, [1054]); (7299, [1057]);
   (7300, [1058]); (7301, [1058]); (7302, [1066]); (7303, [1122]);
   (7304, [42570]); (7545, [42877]); (7549, [11363]); (7566, [42950]);
   (7681, [7680]); (7683, [7682]); (7685, [7684]); (7687, [7686]);
   (7689, [7688]); (7691, [7690]); (7693, [7692]); (7695, [7694]);
   (7697, [7696]); (7699, [7698]); (7701, [7700]); (7703, [7702]);
   (7705, [7704]); (7707, [7706]); (7709, [7708]); (7711, [7710]);
   (7713, [7712]); (7715, [7714]); (7717, [7716]); (7719, [7718]);
   (7721, [7720]); (7723, [7722]); (7725, [7724]); (7727, [7726]);
   (7729, [7728]); (7731, [7730]); (7733, [7732]); (7735, [7734]);
   (7737, [7736]); (7739, [7738]); (7741, [7740]); (7743, [7742]);
   (7745, [7744]); (7747, [7746]); (7749, [7748]); (7751, [7750]);
   (7753, [7752]); (7755, [7754]); (7757, [7756]); (7759, [7758]);
   (7761, [7760]); (7763, [7762]); (7765, [7764]); (7767, [7766]);
   (7769, [7768]); (7771, [7770]); (7773, [7772]); (7775, [7774]);
   (7777, [7776]); (7779, [7778]); (7781, [7780]); (7783, [7782]);
   (7785, [7784]); (7787, [7786]); (7789, [7788]); (7791, [7790]);
   (7793, [7792]); (7795, [7794]); (7797, [7796]); (7799, [7798]);
   (7801, [7800]); (7803, [7802]); (7805, [7804]); (7807, [7806]);
   (7809, [7808]); (7811, [7810]); (7813, [7812]); (7815, [7814]);
   (7817, [7816]); (7819, [7818]); (7821, [7820]); (7823, [7822]);
   (7825, [7824]); (7827, [7826]); (7829, [7828]); (7830, [72; 817]);
   (7831, [84; 776]); (7832, [87; 778]); (7833, [89; 778]);
   (7834, [65; 702]); (7835, [7776]); (7841, [7840]); (7843, [7842]);
   (7845, [7844]); (7847, [7846]); (7849, [7848]); (7851, [7850]);
   (7853, [7852]); (7855, [7854]); (7857, [7856]); (7859, [7858]);
   (7861, [7860]); (7863, [7862]); (7865, [7864]); (7867, [7866]);
   (7869, [7868]); (7871, [7870]); (7873, [7872]); (7875, [7874]);
   (7877, [7876]); (7879, [7878]); (7881, [7880]); (7883, [7882]);
   (7885, [7884]); (7887, [7886]); (7889, [7888]); (7891, [7890]);
   (7893, [7892]); (7895, [7894]); (7897, [7896]); (7899, [7898]);
   (7901, [7900]); (7903, [7902]); (7905, [7904]); (7907, [7906]);
   (7909, [7908]); (7911, [7910]); (7913, [7912]); (7915, [7914]);
   (7917, [7916]); (7919, [7918]); (7921, [7920]); (7923, [7922]);
   (7925, [7924]); (7927, [7926]); (7929, [7928]); (7931, [7930]);
   (7933, [7932]); (7935, [7934]); (7936, [7944]); (7937, [7945]);
   (7938, [7946]); (7939, [7947]); (7940, [7948]); (7941, [7949]);
   (7942, [7950]); (7943, [7951]); (7952, [7960]); (7953, [7961]);
   (7954, [7962]); (7955, [7963]); (7956, [7964]); (7957, [7965]);
   (7968, [7976]); (7969, [7977]); (7970, [7978]); (7971, [7979]);
   (7972, [7980]); (7973, [7981]); (7974, [7982]); (7975, [7983]);
   (7984, [7992]); (7985, [7993]); (7986, [7994]); (7987, [7995]);
   (7988, [7996]); (7989, [7997]); (7990, [7998]); (7991, [7999]);
   (8000, [8008]); (8001, [8009]); (8002, [8010]); (8003, [8011]);
   (8004, [8012]); (8005, [8013]); (8016, [933; 787]); (8017, [8025]);
   (8018, [933; 787; 768]); (8019, [8027]); (8020, [933; 787; 769]);
   (8021, [8029]); (8022, [933; 787; 834]); (8023, [8031]); (8032, [8040]);
   (8033, [8041]); (8034, [8042]); (8035, [8043]); (8036, [8044]);
   (8037, [8045]); (8038, [8046]); (8039, [8047]); (8048, [8122]);
   (8049, [8123]); (8050, [8136]); (8051, [8137]); (8052, [8138]);
   (8053, [8139]); (8054, [8154]); (8055, [8155]); (8056, [8184]);
   (8057, [8185]); (8058, [8170]); (8059, [8171]); (8060, [8186]);
   (8061, [8187]); (8064, [7944; 921]); (8065, [7945; 921]);
   (8066, [7946; 921]); (8067, [7947; 921]); (8068, [7948; 921]);
   (8069, [7949; 921]); (8070, [7950; 921]); (8071, [7951; 921]);
   (8072, [7944; 921]); (8073, [7945; 921]); (8074, [7946; 921]);
   (8075, [7947; 921]); (8076, [7948; 921]); (8077, [7949; 921]);
   (8078, [7950; 921]); (8079, [7951; 921]); (8080, [7976; 921]);
   (8081, [7977; 921]); (8082, [7978; 921]); (8083, [7979; 921]);
   (8084, [7980; 921]); (8085, [7981; 921]); (8086, [7982; 921]);
   (8087, [7983; 921]); (8088, [7976; 921]); (8089, [7977; 921]);
   (8090, [7978; 921]); (8091, [7979; 921]); (8092, [7980; 921]);
   (8093, [7981; 921]); (8094, [7982; 921]); (8095, [7983; 921]);
   (8096, [8040; 921]); (8097, [8041; 921]); (8098, [8042; 921]);
   (8099, [8043; 921]); (8100, [8044; 921]); (8101, [8045; 921]);
   (8102, [8046; 921]); (8103, [8047; 921]); (8104, [8040; 921]);
   (8105, [8041; 921]); (8106, [8042; 921]); (8107, [8043; 921]);
   (8108, [8044; 921]); (8109, [8045; 921]); (8110, [8046; 921]);
   (8111, [8047; 921]); (8112, [8120]); (8113, [8121]); (8114, [8122; 921]);
   (8115, [913; 921]); (8116, [902; 921]); (8118, [913; 834]);
   (8119, [913; 834; 921]); (8124, [913; 921]); (8126, [921]);
   (8130, [8138; 921]); (8131, [919; 921]); (8132, [905; 921]);
   (8134, [919; 834]); (8135, [919; 834; 921]); (8140, [919; 921]);
   (8144, [8152]); (8145, [8153]); (8146, [921; 776; 768]);
   (8147, [921; 776; 769]); (8150, [921; 834]); (8151, [921; 776; 834]);
   (8160, [8168]); (8161, [8169]); (8162, [933; 776; 768]);
   (8163, [933; 776; 769]); (8164, [929; 787]); (8165, [8172]);
   (8166, [933; 834]); (8167, [933; 776; 834]); (8178, [8186; 921]);
   (8179, [937; 921]); (8180, [911; 921]); (8182, [937; 834]);
   (8183, [937; 834; 921]); (8188, [937; 921]); (8526, [8498]);
   (8560, [8544]); (8561, [8545]); (8562, [8546]); (8563, [8547]);
   (8564, [8548]); (8565, [8549]); (8566, [8550]); (8567, [8551]);
   (8568, [8552]); (8569, [8553]); (8570, [8554]); (8571, [8555]);
   (8572, [8556]); (8573, [8557]); (8574, [8558]); (8575, [8559]);
   (8580, [8579]); (9424, [9398]); (9425, [9399]); (9426, [9400]);
   (9427, [9401]); (9428, [9402]); (9429, [9403]); (9430, [9404]);
   (9431, [9405]); (9432, [9406]); (9433, [9407]); (9434, [9408]);
   (9435, [9409]); (9436, [9410]); (9437, [9411]); (9438, [9412]);
   (9439, [9413]); (9440, [9414]); (9441, [9415]); (9442, [9416]);
   (9443, [9417]); (9444, [9418]); (9445, [9419]); (9446, [9420]);
   (9447, [9421]); (9448, [9422]); (9449, [9423]); (11312, [11264]);
   (11313, [11265]); (11314, [11266]); (11315, [11267]); (11316, [11268]);
   (11317, [11269]); (11318, [11270]); (11319, [11271]); (11320, [11272]);
   (11321, [11273]); (11322, [11274]); (11323, [11275]); (11324, [11276]);
   (11325, [11277]); (11326, [11278]); (11327, [11279]); (11328, [11280]);
   (11329, [11281]); (11330, [11282]); (11331, [11283]); (11332, [11284]);
   (11333, [11285]); (11334, [11286]); (11335, [11287]); (11336, [11288]);
   (11337, [11289]); (11338, [11290]); (11339, [11291]); (11340, [11292]);
   (11341, [11293]); (11342, [11294]); (11343, [11295]); (11344, [11296]);
   (11345, [11297]); (11346, [11298]); (11347, [11299]); (11348, [11300]);
   (11349, [11301]); (11350, [11302]); (11351, [11303]); (11352, [11304]);
   (11353, [11305]); (11354, [11306]); (11355, [11307]); (11356, [11308]);
   (11357, [11309]); (11358, [11310]); (11359, [11311]); (11361, [11360]);
   (11365, [570]); (11366, [574]); (11368, [11367]); (11370, [11369]);
   (11372, [11371]); (11379, [11378]); (11382, [11381]); (11393, [11392]);
   (11395, [11394]); (11397, [11396]); (11399, [11398]); (11401, [11400]);
   (11403, [11402]); (11405, [11404]); (11407, [11406]); (11409, [11408]);
   (11411, [11410]); (11413, [11412]); (11415, [11414]); (11417, [11416]);
   (11419, [11418]); (11421, [11420]); (11423, [11422]); (11425, [11424]);
   (11427, [11426]); (11429, [11428]); (11431, [11430]); (11433, [11432]);
   (11435, [11434]); (11437, [11436]); (11439, [11438]); (11441, [11440]);
   (11443, [11442]); (11445, [11444]); (11447, [11446]); (11449, [11448]);
   (11451, [11450]); (11453, [11452]); (11455, [11454]); (11457, [11456]);
   (11459, [11458]); (11461, [11460]); (11463, [11462]); (11465, [11464]);
   (11467, [11466]); (11469, [11468]); (11471, [11470]); (11473, [11472]);
   (11475, [11474]); (11477, [11476]); (11479, [11478]); (11481, [11480]);
   (11483, [11482]); (11485, [11484]); (11487, [11486]); (11489, [11488]);
   (11491, [11490]); (11500, [11499]); (11502, [11501]); (11507, [11506]);
   (11520, [4256]); (11521, [4257]); (11522, [4258]); (11523, [4259]);
   (11524, [4260]); (11525, [4261]); (11526, [4262]); (11527, [4263]);
   (11528, [4264]); (11529, [4265]); (11530, [4266]); (11531, [4267]);
   (11532, [4268]); (11533, [4269]); (11534, [4270]); (11535, [4271]);
   (11536, [4272]); (11537, [4273]); (11538, [4274]); (11539, [4275]);
   (11540, [4276]); (11541, [4277]); (11542, [4278]); (11543, [4279]);
   (11544, [4280]); (11545, [4281]); (11546, [4282]); (11547, [4283]);
   (11548, [4284]); (11549, [4285]); (11550, [4286]); (11551, [4287]);
   (11552, [4288]); (11553, [4289]); (11554, [4290]); (11555, [4291]);
   (11556, [4292]); (11557, [4293]); (11559, [4295]); (11565, [4301]);
   (42561, [42560]); (42563, [42562]); (42565, [42564]); (42567, [42566]);
   (42569, [42568]); (42571, [42570]); (42573, [42572]); (42575, [42574]);
   (42577, [42576]); (42579, [42578]); (42581, [42580]); (42583, [42582]);
   (42585, [42584]); (42587, [42586]); (42589, [42588]); (42591, [42590]);
   (42593, [42592]); (42595, [42594]); (42597, [42596]); (42599, [42598]);
   (42601, [42600]); (42603, [42602]); (42605, [42604]); (42625, [42624]);
   (42627, [42626]); (42629, [42628]); (42631, [42630]); (42633, [42632]);
   (42635, [42634]); (42637, [42636]); (42639, [42638]); (42641, [42640]);
   (42643, [42642]); (42645, [42644]); (42647, [42646]); (42649, [42648]);
   (42651, [42650]); (42787, [42786]); (42789, [42788]); (42791, [42790]);
   (42793, [42792]); (42795, [42794]); (42797, [42796]); (42799, [42798]);
   (42803, [42802]); (42805, [42804]); (42807, [42806]); (42809, [42808]);
   (42811, [42810]); (42813, [42812]); (42815, [42814]); (42817, [42816]);
   (42819, [42818]); (42821, [42820]); (42823, [42822]); (42825, [42824]);
   (42827, [42826]); (42829, [42828]); (42831, [42830]); (42833, [42832]);
   (42835, [42834]); (42837, [42836]); (42839, [42838]); (42841, [42840]);
   (42843, [42842]); (42845, [42844]); (42847, [42846]); (42849, [42848]);
   (42851, [42850]); (42853, [42852]); (42855, [42854]); (42857, [42856]);
   (42859, [42858]); (42861, [42860]); (42863, [42862]); (42874, [42873]);
   (42876, [42875]); (42879, [42878]); (42881, [42880]); (42883, [42882]);
   (42885, [42884]); (42887, [42886]); (42892, [42891]); (42897, [42896]);
   (42899, [42898]); (42900, [42948]); (42903, [42902]); (42905, [42904]);
   (42907, [42906]); (42909, [42908]); (42911, [42910]); (42913, [42912]);
   (42915, [42914]); (42917, [42916]); (42919, [42918]); (42921, [42920]);
   (42933, [42932]); (42935, [42934]); (42937, [42936]); (42939, [42938]);
   (42941, [42940]); (42943, [42942]); (42945, [42944]); (42947, [42946]);
   (42952, [42951]); (42954, [42953]); (42961, [42960]); (42967, [42966]);
   (42969, [42968]); (42998, [42997]); (43859, [42931]); (43888, [5024]);
   (43889, [5025]); (43890, [5026]); (43891, [5027]); (43892, [5028]);
   (43893, [5029]); (43894, [5030]); (43895, [5031]); (43896, [5032]);
   (43897, [5033]); (43898, [5034]); (43899, [5035]); (43900, [5036]);
   (43901, [5037]); (43902, [5038]); (43903, [5039]); (43904, [5040]);
   (43905, [5041]); (43906, [5042]); (43907, [5043]); (43908, [5044]);
   (43909, [5045]); (43910, [5046]); (43911, [5047]); (43912, [5048]);
   (43913, [5049]); (43914, [5050]); (43915, [5051]); (43916, [5052]);
   (43917, [5053]); (43918, [5054]); (43919, [5055]); (43920, [5056]);
   (43921, [5057]); (43922, [5058]); (43923, [5059]); (43924, [5060]);
   (43925, [5061]); (43926, [5062]); (43927, [5063]); (43928, [5064]);
   (43929, [5065]); (43930, [5066]); (43931, [5067]); (43932, [5068]);
   (43933, [5069]); (43934, [5070]); (43935, [5071]); (43936, [5072]);
   (43937, [5073]); (43938, [5074]); (43939, [5075]); (43940, [5076]);
   (43941, [5077]); (43942, [5078]); (43943, [5079]); (43944, [5080]);
   (43945, [5081]); (43946, [5082]); (43947, [5083]); (43948, [5084]);
   (43949, [5085]); (43950, [5086]); (43951, [5087]); (43952, [5088]);
   (43953, [5089]); (43954, [5090]); (43955, [5091]); (43956, [5092]);
   (43957, [5093]); (43958, [5094]); (43959, [5095]); (43960, [5096]);
   (43961, [5097]); (43962, [5098]); (43963, [5099]); (43964, [5100]);
   (43965, [5101]); (43966, [5102]); (43967, [5103]); (64256, [70; 70]);
   (64257, [70; 73]); (64258, [70; 76]); (64259, [70; 70; 73]);
   (64260, [70; 70; 76]); (64261, [83; 84]); (64262, [83; 84]);
   (64275, [1348; 1350]); (64276, [1348; 1333]); (64277, [1348; 1339]);
   (64278, [1358; 1350]); (64279, [1348; 1341]); (65345, [65313]);
   (65346, [65314]); (65347, [65315]); (65348, [65316]); (65349, [65317]);
   (65350, [65318]); (65351, [65319]); (65352, [65320]); (65353, [65321]);
   (65354, [65322]); (65355, [65323]); (65356, [65324]); (65357, [65325]);
   (65358, [65326]); (65359, [65327]); (65360, [65328]); (65361, [65329]);
   (65362, [65330]); (65363, [65331]); (65364, [65332]); (65365, [65333]);
   (65366, [65334]); (65367, [65335]); (65368, [65336]); (65369, [65337]);
   (65370, [65338]); (66600, [66560]); (66601, [66561]); (66602, [66562]);
   (66603, [66563]); (66604, [66564]); (66605, [66565]); (66606, [66566]);
   (66607, [66567]); (66608, [66568]); (66609, [66569]); (66610, [66570]);
   (66611, [66571]); (66612, [66572]); (66613, [66573]); (66614, [66574]);
   (66615, [66575]); (66616, [66576]); (66617, [66577]); (66618, [66578]);
   (66619, [66579]); (66620, [66580]); (66621, [66581]); (66622, [66582]);
   (66623, [66583]); (66624, [66584]); (66625, [66585]); (66626, [66586]);
   (66627, [66587]); (66628, [66588]); (66629, [66589]); (66630, [66590]);
   (66631, [66591]); (66632, [66592]); (66633, [66593]); (66634, [66594]);
   (66635, [66595]); (66636, [66596]); (66637, [66597]); (66638, [66598]);
   (66639, [66599]); (66776, [66736]); (66777, [66737]); (66778, [66738]);
   (66779, [66739]); (66780, [66740]); (66781, [66741]); (66782, [66742]);
   (66783, [66743]); (66784, [66744]); (66785, [66745]); (66786, [66746]);
   (66787, [66747]); (66788, [66748]); (66789, [66749]); (66790, [66750]);
   (66791, [66751]); (66792, [66752]); (66793, [66753]); (66794, [66754]);
   (66795, [66755]); (66796, [66756]); (66797, [66757]); (66798, [66758]);
   (66799, [66759]); (66800, [66760]); (66801, [66761]); (66802, [66762]);
   (66803, [66763]); (66804, [66764]); (66805, [66765]); (66806, [66766]);
   (66807, [66767]); (66808, [66768]); (66809, [66769]); (66810, [66770]);
   (66811, [66771]); (66967, [66928]); (66968, [66929]); (66969, [66930]);
   (66970, [66931]); (66971, [66932]); (66972, [66933]); (66973, [66934]);
   (66974, [66935]); (66975, [66936]); (66976, [66937]); (66977, [66938]);
   (66979, [66940]); (66980, [66941]); (66981, [66942]); (66982, [66943]);
   (66983, [66944]); (66984, [66945]); (66985, [66946]); (66986, [66947]);
   (66987, [66948]); (66988, [66949]); (66989, [66950]); (66990, [66951]);
   (66991, [66952]); (66992, [66953]); (66993, [66954]); (66995, [66956]);
   (66996, [66957]); (66997, [66958]); (66998, [66959]); (66999, [66960]);
   (67000, [66961]); (67001, [66962]); (67003, [66964]); (67004, [66965]);
   (68800, [68736]); (68801, [68737]); (68802, [68738]); (68803, [68739]);
   (68804, [68740]); (68805, [68741]); (68806, [68742]); (68807, [68743]);
   (68808, [68744]); (68809, [68745]); (68810, [68746]); (68811, [68747]);
   (68812, [68748]); (68813, [68749]); (68814, [68750]); (68815, [68751]);
   (68816, [68752]); (68817, [68753]); (68818, [68754]); (68819, [68755]);
   (68820, [68756]); (68821, [68757]); (68822, [68758]); (68823, [68759]);
   (68824, [68760]); (68825, [68761]); (68826, [68762]); (68827, [68763]);
   (68828, [68764]); (68829, [68765]); (68830, [68766]); (68831, [68767]);
   (68832, [68768]); (68833, [68769]); (68834, [68770]); (68835, [68771]);
   (68836, [68772]); (68837, [68773]); (68838, [68774]); (68839, [68775]);
   (68840, [68776]); (68841, [68777]); (68842, [68778]); (68843, [68779]);
   (68844, [68780]); (68845, [68781]); (68846, [68782]); (68847, [68783]);
   (68848, [68784]); (68849, [68785]); (68850, [68786]); (71872, [71840]);
   (71873, [71841]); (71874, [71842]); (71875, [71843]); (71876, [71844]);
   (71877, [71845]); (71878, [71846]); (71879, [71847]); (71880, [71848]);
   (71881, [71849]); (71882, [71850]); (71883, [71851]); (71884, [71852]);
   (71885, [71853]); (71886, [71854]); (71887, [71855]); (71888, [71856]);
   (71889, [71857]); (71890, [71858]); (71891, [71859]); (71892, [71860]);
   (71893, [71861]); (71894, [71862]); (71895, [71863]); (71896, [71864]);
   (71897, [71865]); (71898, [71866]); (71899, [71867]); (71900, [71868]);
   (71901, [71869]); (71902, [71870]); (71903, [71871]); (93792, [93760]);
   (93793, [93761]); (93794, [93762]); (93795, [93763]); (93796, [93764]);
   (93797, [93765]); (93798, [93766]); (93799, [93767]); (93800, [93768]);
   (93801, [93769]); (93802, [93770]); (93803, [93771]); (93804, [93772]);
   (93805, [93773]); (93806, [93774]); (93807, [93775]); (93808, [93776]);
   (93809, [93777]); (93810, [93778]); (93811, [93779]); (93812, [93780]);
   (93813, [93781]); (93814, [93782]); (93815, [93783]); (93816, [93784]);
   (93817, [93785]); (93818, [93786]); (93819, [93787]); (93820, [93788]);
   (93821, [93789]); (93822, [93790]); (93823, [93791]); (125218, [125184]);
   (125219, [125185]); (125220, [125186]); (125221, [125187]);
   (125222, [125188]); (125223, [125189]); (125224, [125190]);
   (125225, [125191]); (125226, [125192]); (125227, [125193]);
   (125228, [125194]); (125229, [125195]); (125230, [125196]);
   (125231, [125197]); (125232, [125198]); (125233, [125199]);
   (125234, [125200]); (125235, [125201]); (125236, [125202]);
   (125237, [125203]); (125238, [125204]); (125239, [125205]);
   (125240, [125206]); (125241, [125207]); (125242, [125208]);
   (125243, [125209]); (125244, [125210]); (125245, [125211]);
   (125246, [125212]); (125247, [125213]); (125248, [125214]);
   (125249, [125215]); (125250, [125216]); (125251, [125217])]%N.

Fixpoint assoc {A : Type} (t : list (N * A)) (c : N) : option A :=
  match t with
  | [] => None
  | (k, v) :: t' => if (k =? c)%N then Some v else assoc t' c
  end.

(** [Py_UNICODE_TODECIMAL]: the digit value of a code point of category Nd. *)
Fixpoint decimal_in (runs : list (N * N)) (c : char) : option N :=
  match runs with
  | [] => None
  | (a, n) :: runs' =>
      if ((a <=? c) && (c <? a + n))%N then Some ((c - a) mod 10)%N
      else decimal_in runs' c
  end.

Definition unicode_decimal (c : char) : option N := decimal_in decimal_runs c.

(** The class [\d] of a str pattern. *)
Definition re_digit (c : char) : bool :=
  match unicode_decimal c with Some _ => true | None => false end.

(** [str.upper()]: the full uppercase mapping, code point by code point. *)
Definition upper_char (c : char) : pystr :=
  match assoc upper_table c with Some l => l | None => [c] end.

Definition upper (s : pystr) : pystr := flat_map upper_char s.

(** [s.encode("latin1", "replace").decode("latin1")]: a code point above 255
    becomes a question mark. *)
Definition latin1_replace (s : pystr) : pystr :=
  map (fun c => if (c <? 256)%N then c else chr "?") s.

(** ** The label sanitizer *)

Definition sanitize_label (label : pystr) : pystr :=
  let label := join (lit " ") (split (strip label)) in
  let label := upper label in
  latin1_replace label.

(** ** The record builder *)

(** The inner function [put] of [build_line]: the line is passed and returned
    where the source mutates the enclosing list; [right] stands for
    [align == "right"].  The slice assignment [line[start:end] = list(value)]
    replaces the elements from [start] to [end]. *)
Definition put (line : pystr) (start end_ : nat) (value : pystr) (right : bool)
  : pystr :=
  let width := (Z.of_nat end_ - Z.of_nat start)%Z in
  let value := slice_to value width in
  let value := if right then rjust value width (chr " ")
               else ljust value width (chr " ") in
  firstn start line ++ value ++ skipn (Nat.max start end_) line.

(** The text [put] writes between [start] and [end_]. *)
Definition put_value (start end_ : nat) (value : pystr) (right : bool) : pystr :=
  let width := (Z.of_nat end_ - Z.of_nat start)%Z in
  if right then rjust (slice_to value width) width (chr " ")
  else ljust (slice_to value width) width (chr " ").

Definition build_line
  (rec_type bank_code branch_code account_number
   date_ddmmyy amount_str name ref comp_type comp_info : pystr) : pystr :=
  let line := repeat (chr " ") CFONB_WIDTH in
  let line := put line 0 2 rec_type false in
  let line := put line 2 7 bank_code false in
  let line := put line 11 16 branch_code false in
  let line := put line 16 19 (lit "EUR") false in
  let line := put line 19 20 (lit "2") false in
  let line := put line 21 32 account_number false in
  let line := put line 34 40 date_ddmmyy false in
  let line :=
    if str_eqb rec_type (lit "05")
    then put (put line 45 48 comp_type false) 48 118 comp_info false
    else put (put line 48 79 name false) 81 88 ref false in
  let line :=
    match amount_str with
    | [] => line
    | _ => put line 90 104 amount_str true
    end in
  line.

(** The characters of a line at the offsets [start] to [end_]. *)
Definition field (line : pystr) (start end_ : nat) : pystr :=
  slice line start end_.

(** ** Helpers of [csv_to_cfonb120.py] *)

Definition str_or_empty (s : option pystr) : pystr :=
  match s with None => [] | Some s => s end.

Definition pad_left (s : option pystr) (length : Z) (fill : char) : pystr :=
  slice_to (rjust (str_or_empty s) length fill) length.

Definition pad_right (s : option pystr) (length : Z) (fill : char) : pystr :=
  slice_to (ljust (str_or_empty s) length fill) length.

Fixpoint chunks (fuel : nat) (s : pystr) (size : nat) : list pystr :=
  match fuel with
  | O => []
  | S f =>
      match s with
      | [] => []
      | _ => firstn size s :: chunks f (skipn size s) size
      end
  end.

(** [[s[i:i+size] for i in range(0, len(s), size)]] for a positive [size]. *)
Definition split_into_chunks (s : option pystr) (size : nat) : list pystr :=
  chunks (length (str_or_empty s)) (str_or_empty s) size.

(** ** Dates *)

Record date : Type := mkdate { year : N; month : N; day : N }.

(** [DATE_RE.match(s)] for [^\d{2}/\d{2}/\d{4}$]; [$] also matches before a
    final newline. *)
Definition DATE_RE_match (s : pystr) : bool :=
  match s with
  | d1 :: d2 :: s1 :: m1 :: m2 :: s2 :: y1 :: y2 :: y3 :: y4 :: rest =>
      re_digit d1 && re_digit d2 && char_eqb s1 (chr "/")
      && re_digit m1 && re_digit m2 && char_eqb s2 (chr "/")
      && re_digit y1 && re_digit y2 && re_digit y3 && re_digit y4
      && match rest with
         | [] => true
         | [c] => char_eqb c 10%N
         | _ => false
         end
  | _ => false
  end.

Definition is_leap (y : N) : bool :=
  ((y mod 4 =? 0) && (negb (y mod 100 =? 0) || (y mod 400 =? 0)))%N.

Definition days_in_month (y m : N) : N :=
  (if m =? 2 then (if is_leap y then 29 else 28)
   else if (m =? 4) || (m =? 6) || (m =? 9) || (m =? 11) then 30 else 31)%N.

Definition in_range (lo hi c : char) : bool := ((lo <=? c) && (c <=? hi))%N.

(** [datetime.strptime(s, "%d/%m/%Y").date()] on the strings it is called on,
    those [DATE_RE] accepts.  The directive patterns are
    [3[0-1]|[1-2]\d|0[1-9]] for the day, [1[0-2]|0[1-9]] for the month (their
    one-character alternatives cannot match two digits before a slash) and
    [\d\d\d\d] for the year; the date must exist and the year be at least 1. *)
Definition strptime (s : pystr) : result date :=
  match s with
  | [d1; d2; s1; m1; m2; s2; y1; y2; y3; y4] =>
      match unicode_decimal d1, unicode_decimal d2,
            unicode_decimal m1, unicode_decimal m2,
            unicode_decimal y1, unicode_decimal y2,
            unicode_decimal y3, unicode_decimal y4 with
      | Some a, Some b, Some c, Some d, Some e, Some f, Some g, Some h =>
          let day_ok :=
            (char_eqb d1 (chr "3") && in_range (chr "0") (chr "1") d2)
            || in_range (chr "1") (chr "2") d1
            || (char_eqb d1 (chr "0") && in_range (chr "1") (chr "9") d2) in
          let month_ok :=
            (char_eqb m1 (chr "1") && in_range (chr "0") (chr "2") m2)
            || (char_eqb m1 (chr "0") && in_range (chr "1") (chr "9") m2) in
          let dd := (10 * a + b)%N in
          let mm := (10 * c + d)%N in
          let yy := (1000 * e + 100 * f + 10 * g + h)%N in
          if day_ok && month_ok && char_eqb s1 (chr "/") && char_eqb s2 (chr "/")
             && (1 <=? yy)%N && (dd <=? days_in_month yy mm)%N
          then Ok (mkdate yy mm dd)
          else Raise (ValueError_strptime s)
      | _, _, _, _, _, _, _, _ => Raise (ValueError_strptime s)
      end
  | _ => Raise (ValueError_strptime s)
  end.

Definition two_digits (n : N) : pystr := rjust (str_of_N n) 2 (chr "0").

(** [d.strftime("%d%m%y")] *)
Definition strftime_dmy (d : date) : pystr :=
  two_digits (day d) ++ two_digits (month d) ++ two_digits (year d mod 100)%N.

Definition date_leb (a b : date) : bool :=
  ((year a <? year b)
   || ((year a =? year b)
       && ((month a <? month b)
           || ((month a =? month b) && (day a <=? day b)))))%N.

(** ** [Decimal(text)]

    The constructor of the decimal library on a string: surrounding
    whitespace and underscores are dropped, digits of any script count as
    their ASCII value, and the result is exact (no rounding to the context).
    Exponents are accepted within the bounds of the 64-bit library. *)

Fixpoint as_ascii (s : pystr) : option pystr :=
  match s with
  | [] => Some []
  | c :: s' =>
      if char_eqb c (chr "_") then as_ascii s'
      else if ((0 <? c) && (c <=? 127))%N then option_map (cons c) (as_ascii s')
      else if isspace c then option_map (cons (chr " ")) (as_ascii s')
      else match unicode_decimal c with
           | Some d => option_map (cons (48 + d)%N) (as_ascii s')
           | None => None
           end
  end.

Fixpoint span_digits (s : pystr) : pystr * pystr :=
  match s with
  | c :: s' =>
      if is_ascii_digit c
      then let '(ds, r) := span_digits s' in (c :: ds, r)
      else ([], s)
  | [] => ([], [])
  end.

Definition ascii_lower (c : char) : char :=
  if ((65 <=? c) && (c <=? 90))%N then (c + 32)%N else c.

Definition read_sign (s : pystr) : bool * pystr :=
  match s with
  | c :: r =>
      if char_eqb c (chr "-") then (true, r)
      else if char_eqb c (chr "+") then (false, r)
      else (false, s)
  | [] => (false, [])
  end.

Definition is_nil {A} (l : list A) : bool :=
  match l with [] => true | _ => false end.

Definition read_exponent (s : pystr) : option Z :=
  match s with
  | [] => Some 0%Z
  | c :: r =>
      if char_eqb (ascii_lower c) (chr "e") then
        let '(neg, r) := read_sign r in
        let '(ds, rest) := span_digits r in
        if is_nil ds || negb (is_nil rest) then None
        else Some (if neg then (- Z.of_N (N_of_digits ds))%Z
                   else Z.of_N (N_of_digits ds))
      else None
  end.

Definition MAX_EMAX : Z := 999999999999999999.
Definition MIN_ETINY : Z := -1999999999999999997.

Definition read_number (sign : bool) (s : pystr) : option Decimal :=
  let '(ip, r) := span_digits s in
  let '(fp, r) :=
    match r with
    | c :: r' => if char_eqb c (chr ".") then span_digits r' else ([], r)
    | [] => ([], [])
    end in
  if is_nil ip && is_nil fp then None
  else
    match read_exponent r with
    | None => None
    | Some e =>
        let c := N_of_digits (ip ++ fp) in
        let exp := (e - len fp)%Z in
        if ((MIN_ETINY <=? exp)
            && (if (c =? 0)%N then exp <=? MAX_EMAX
                else adjusted c exp <=? MAX_EMAX))%Z
        then Some (Fin sign c exp) else None
    end.

Definition Decimal_of_str (text : pystr) : option Decimal :=
  match as_ascii (strip text) with
  | None => None
  | Some s =>
      let '(sign, body) := read_sign s in
      let low := map ascii_lower body in
      if str_eqb low (lit "inf") || str_eqb low (lit "infinity")
      then Some (Inf sign)
      else
        match low with
        | 110%N :: 97%N :: 110%N :: payload =>
            if forallb is_ascii_digit payload then Some (NaN sign false) else None
        | 115%N :: 110%N :: 97%N :: 110%N :: payload =>
            if forallb is_ascii_digit payload then Some (NaN sign true) else None
        | _ => read_number sign body
        end
  end.

(** ** Reading the rows of the CSV file *)

Record transaction : Type := mktx {
  tx_date : date;
  tx_amount : Decimal;
  tx_label : pystr
}.

Record parse_state : Type := mkstate {
  started : bool;
  opening_balance : option Decimal;
  transactions : list transaction
}.

Definition row := list pystr.

(** [row + [""] * (6 - len(row))] *)
Definition pad_row (r : row) : row := r ++ repeat [] (6 - length r).

Definition cell (r : row) (i : nat) : pystr := nth i r [].

Section Conversion.

(** The Decimal constructor on strings; [None] is [InvalidOperation]. *)
Variable Decimal_ : pystr -> option Decimal.

Definition parse_amount (raw : pystr) : result (option Decimal) :=
  let s := strip raw in
  match s with
  | [] => Ok None
  | _ =>
      let s := remove_char 160%N (remove_char (chr " ") s) in
      let s := replace_char (chr ",") (chr ".") s in
      match Decimal_ s with
      | Some d => Ok (Some d)
      | None => Raise (ValueError_InvalidAmount raw)
      end
  end.

(** The label of a row: its cells 1 to 3 that are not blank, joined by a
    space. *)
Definition row_label (r : row) : pystr :=
  join (lit " ")
       (filter (fun p => negb (is_nil p) && negb (is_nil (strip p)))
               [cell r 1; cell r 2; cell r 3]).

(** One iteration of the loop of [parse_csv_transactions]. *)
Definition parse_row (st : parse_state) (r : row) : result parse_state :=
  match r with
  | [] => Ok st
  | _ =>
      let r := pad_row r in
      let dated := DATE_RE_match (strip (cell r 0)) in
      if negb (started st) && negb dated then Ok st
      else
        let st := mkstate true (opening_balance st) (transactions st) in
        if negb dated && DATE_RE_match (strip (cell r 3)) then
          ob <- parse_amount (cell r 5) ;;
          Ok (mkstate true ob (transactions st))
        else if negb dated then Ok st
        else
          let date_str := strip (cell r 0) in
          amount <- parse_amount (cell r 4) ;;
          match amount with
          | None => Ok st
          | Some a =>
              let label := row_label r in
              d <- strptime date_str ;;
              Ok (mkstate true (opening_balance st)
                          (transactions st ++ [mktx d a (sanitize_label label)]))
          end
  end.

Fixpoint parse_rows (st : parse_state) (rows : list row) : result parse_state :=
  match rows with
  | [] => Ok st
  | r :: rows' => st' <- parse_row st r ;; parse_rows st' rows'
  end.

(** [parse_csv_transactions] on the rows the CSV reader yields. *)
Definition parse_csv_transactions (rows : list row)
  : result (option Decimal * list transaction) :=
  st <- parse_rows (mkstate false None []) rows ;;
  Ok (opening_balance st, transactions st).

(** ** The statement *)

Inductive balance_mode : Type := opening | closing.

(** [transactions.sort(key=lambda t: t["date"])]: the stable sort. *)
Fixpoint insert_by_date (t : transaction) (l : list transaction)
  : list transaction :=
  match l with
  | [] => [t]
  | x :: l' =>
      if date_leb (tx_date t) (tx_date x) then t :: l
      else x :: insert_by_date t l'
  end.

Definition sort_by_date (l : list transaction) : list transaction :=
  fold_right insert_by_date [] l.

Fixpoint sum_from (acc : Decimal) (l : list Decimal) : result Decimal :=
  match l with
  | [] => Ok acc
  | d :: l' => acc' <- dadd acc d ;; sum_from acc' l'
  end.

(** [sum(amounts)] of a non-empty sequence: the int 0 is added to the first
    amount by [Decimal.__radd__]. *)
Definition sum_amounts (l : list Decimal) : result Decimal :=
  match l with
  | [] => Ok (Decimal_of_int 0)
  | d :: l' => acc <- dadd d (Decimal_of_int 0) ;; sum_from acc l'
  end.

(** [start_balance] and [end_balance] of [main]. *)
Definition balances (mode : balance_mode) (ob : option Decimal)
  (txs : list transaction) : result (Decimal * Decimal) :=
  total <- sum_amounts (map tx_amount txs) ;;
  let ob := match ob with None => Fin false 0 (-2) | Some d => d end in
  match mode with
  | opening => e <- dadd ob total ;; Ok (ob, e)
  | closing => s <- dsub ob total ;; Ok (s, ob)
  end.

Section Account.

Variables bank_code branch_code account_number : pystr.

(** The records of one transaction: the body of the loop of [main] for the
    sequence number [seq]. *)
Definition transaction_lines (seq : Z) (tx : transaction) : result (list pystr) :=
  let ref := rjust (format_d seq) 7 (chr "0") in
  let label := tx_label tx in
  let name := slice_to label 31 in
  amount_str <- cfonb_encode_amount (tx_amount tx) 2 AMOUNT_WIDTH ;;
  let l04 := build_line (lit "04") bank_code branch_code account_number
               (strftime_dmy (tx_date tx)) amount_str name ref [] [] in
  if (31 <? len label)%Z then
    let comp := slice label 31 (31 + 70) in
    Ok [l04;
        build_line (lit "05") bank_code branch_code account_number
          (strftime_dmy (tx_date tx)) [] [] [] (lit "LIB") comp]
  else Ok [l04].

Fixpoint all_transaction_lines (seq : Z) (txs : list transaction)
  : result (list pystr) :=
  match txs with
  | [] => Ok []
  | tx :: txs' =>
      ls <- transaction_lines seq tx ;;
      rest <- all_transaction_lines (seq + 1) txs' ;;
      Ok (ls ++ rest)
  end.

(** The list [lines] of [main]. *)
Definition statement_lines (mode : balance_mode) (rows : list row)
  : result (list pystr) :=
  parsed <- parse_csv_transactions rows ;;
  let '(ob, txs) := parsed in
  match txs with
  | [] => Raise SystemExit_NoTransactions
  | _ =>
      let txs := sort_by_date txs in
      let start_date := tx_date (hd (mktx (mkdate 0 0 0) (Fin false 0 0) []) txs) in
      let end_date := tx_date (last txs (mktx (mkdate 0 0 0) (Fin false 0 0) [])) in
      bal <- balances mode ob txs ;;
      let '(start_balance, end_balance) := bal in
      a01 <- cfonb_encode_amount start_balance 2 AMOUNT_WIDTH ;;
      let l01 := build_line (lit "01") bank_code branch_code account_number
                   (strftime_dmy start_date) a01 [] [] [] [] in
      body <- all_transaction_lines 1 txs ;;
      a07 <- cfonb_encode_amount end_balance 2 AMOUNT_WIDTH ;;
      let l07 := build_line (lit "07") bank_code branch_code account_number
                   (strftime_dmy end_date) a07 [] [] [] [] in
      Ok ([l01] ++ body ++ [l07])
  end.

(** The writing loop of [main]: what reaches the file (each line with its
    newline) and the exception that stopped it, if any.  The file is opened
    with the latin1 codec, which refuses code points above 255. *)
Fixpoint write_lines (lines : list pystr) : list pystr * option exn :=
  match lines with
  | [] => ([], None)
  | line :: rest =>
      if negb (length line =? CFONB_WIDTH) then
        ([], Some (ValueError_LineLength (length line)))
      else if forallb (fun c => (c <? 256)%N) line then
        let '(written, e) := write_lines rest in
        ((line ++ [10%N]) :: written, e)
      else ([], Some UnicodeEncodeError)
  end.

(** [main] after the command line and the IBAN have been read: the content of
    the output file and the exception raised, if any. *)
Definition main (mode : balance_mode) (rows : list row)
  : list pystr * option exn :=
  match statement_lines mode rows with
  | Raise e => ([], Some e)
  | Ok lines => write_lines lines
  end.

End Account.

End Conversion.

(** The exceptions that come out of the decimal arithmetic of the encoder,
    as opposed to the encoder's own [ValueError]. *)
Definition arithmetic_error (e : exn) : bool :=
  match e with
  | InvalidOperation | Overflow | TypeError_Decimal_float
  | ValueError_NaN_to_int | OverflowError_Inf_to_int => true
  | _ => false
  end.

(** The text [parse_amount] hands to the Decimal constructor. *)
Definition amount_text (raw : pystr) : pystr :=
  replace_char (chr ",") (chr ".")
    (remove_char 160%N (remove_char (chr " ") (strip raw))).

(** A row whose first cell matches [DATE_RE]: a transaction row. *)
Definition transaction_shaped (r : row) : bool :=
  negb (is_nil r) && DATE_RE_match (strip (cell (pad_row r) 0)).

(** A row whose first cell does not match [DATE_RE] and whose fourth cell
    does: the account-summary row. *)
Definition summary_shaped (r : row) : bool :=
  negb (is_nil r) && negb (DATE_RE_match (strip (cell (pad_row r) 0)))
  && DATE_RE_match (strip (cell (pad_row r) 3)).

(** ** Amounts in units of [10^-k] *)

(** The value of a finite Decimal counted in units of [10^-k], for a value
    with at most [k] fractional digits. *)
Definition units (k : Z) (d : Decimal) : Z :=
  match d with
  | Fin s c e => signed_at s c e (- k)
  | _ => 0%Z
  end.

(** A finite Decimal with at most [k] fractional digits and an exponent the
    context leaves alone. *)
Definition at_scale (k : Z) (d : Decimal) : bool :=
  match d with
  | Fin _ _ e => ((- k <=? e) && (e <=? Etop))%Z
  | _ => false
  end.

Definition sum_units (k : Z) (l : list Decimal) : Z :=
  fold_right (fun d acc => (units k d + acc)%Z) 0%Z l.

Definition sum_abs_units (k : Z) (l : list Decimal) : Z :=
  fold_right (fun d acc => (Z.abs (units k d) + acc)%Z) 0%Z l.

Definition sum_values (l : list Decimal) : Q :=
  fold_right (fun d acc => (dvalue d + acc)%Q) 0%Q l.

(** The opening balance [main] works with: [Decimal("0.00")] when the rows
    gave none. *)
Definition effective_opening (ob : option Decimal) : Decimal :=
  match ob with None => Fin false 0 (-2) | Some d => d end.

(** ** Characters the sanitizer leaves alone *)

(** A Latin-1 character that is not whitespace and that [str.upper()] does
    not change. *)
Definition stable_char (c : char) : bool :=
  negb (isspace c) && (c <? 256)%N
  && match assoc upper_table c with None => true | Some _ => false end.

(** One character through [upper] and then the Latin-1 replacement. *)
Definition sanitize_char (c : char) : pystr := latin1_replace (upper_char c).

(** Every uppercase mapping of the table is non-empty and, once cut down to
    Latin-1, is made of stable characters. *)
Definition upper_table_stable : bool :=
  forallb (fun e => negb (is_nil (snd e))
                    && forallb stable_char (latin1_replace (snd e)))
          upper_table.

(** A word: a non-empty run of characters that are not whitespace. *)
Definition is_word (w : pystr) : bool :=
  negb (is_nil w) && forallb (fun c => negb (isspace c)) w.

Definition nonspace (w : pystr) : Prop := Forall (fun c => isspace c = false) w.

Definition word (w : pystr) : Prop := w <> [] /\ nonspace w.

(** The code points for which [str.isdigit()] holds (Unicode 14.0), as runs:
    first code point and length. *)
Definition isdigit_runs : list (N * N) :=
  [(48, 10); (178, 2); (185, 1); (1632, 10); (1776, 10); (1984, 10);
   (2406, 10); (2534, 10); (2662, 10); (2790, 10); (2918, 10); (3046, 10);
   (3174, 10); (3302, 10); (3430, 10); (3558, 10); (3664, 10); (3792, 10);
   (3872, 10); (4160, 10); (4240, 10); (4969, 9); (6112, 10); (6160, 10);
   (6470, 10); (6608, 11); (6784, 10); (6800, 10); (6992, 10); (7088, 10);
   (7232, 10); (7248, 10); (8304, 1); (8308, 6); (8320, 10); (9312, 9);
   (9332, 9); (9352, 9); (9450, 1); (9461, 9); (9471, 1); (10102, 9);
   (10112, 9); (10122, 9); (42528, 10); (43216, 10); (43264, 10);
   (43472, 10); (43504, 10); (43600, 10); (44016, 10); (65296, 10);
   (66720, 10); (68160, 4); (68912, 10); (69216, 9); (69714, 9); (69734, 10);
   (69872, 10); (69942, 10); (70096, 10); (70384, 10); (70736, 10);
   (70864, 10); (71248, 10); (71360, 10); (71472, 10); (71904, 10);
   (72016, 10); (72784, 10); (73040, 10); (73120, 10); (92768, 10);
   (92864, 10); (93008, 10); (120782, 50); (123200, 10); (123632, 10);
   (125264, 10); (127232, 11); (130032, 10)]%N.

(** ** The IBAN of the account ([parse_iban_fr]) *)

Fixpoint in_runs (runs : list (N * N)) (c : char) : bool :=
  match runs with
  | [] => false
  | (a, n) :: runs' => ((a <=? c) && (c <? a + n))%N || in_runs runs' c
  end.

(** [s.isdigit()]: a non-empty string of digit characters. *)
Definition isdigit (s : pystr) : bool :=
  negb (is_nil s) && forallb (in_runs isdigit_runs) s.

Fixpoint startswith (s prefix : pystr) : bool :=
  match prefix, s with
  | [], _ => true
  | p :: prefix', c :: s' => char_eqb p c && startswith s' prefix'
  | _ :: _, [] => false
  end.

(** The two [ValueError]s of [parse_iban_fr]. *)
Inductive iban_error : Type :=
| NotFrenchIban
| NotNumeric.

(** [parse_iban_fr]: bank code, branch code, account number and key.  The
    message of the first [raise] is a malformed string literal in the source;
    the statement is read as [raise ValueError(...)]. *)
Definition parse_iban_fr (iban : pystr)
  : iban_error + (pystr * pystr * pystr * pystr) :=
  let iban := upper (remove_char (chr " ") iban) in
  if negb (startswith iban (lit "FR")) || (length iban <? 27) then inl NotFrenchIban
  else
    let bban := slice_from iban 4 in
    let bank_code := slice bban 0 5 in
    let branch_code := slice bban 5 10 in
    let account_number := slice bban 10 21 in
    let account_key := slice bban 21 23 in
    if isdigit bank_code && isdigit branch_code && isdigit account_number
       && isdigit account_key
    then inr (bank_code, branch_code, account_number, account_key)
    else inl NotNumeric.

(** ** The builders of [csv_to_cfonb120.py]

    The amounts of that variant are binary floats and their rendering is
    [write_amount] of the external [cfonb] package: both are parameters. *)

Record params : Type := mkparams {
  p_bank_code : pystr;
  p_desk : pystr;
  p_currency : option pystr;   (* [params.get('currency', 'EUR')] *)
  p_nb_dec : Z;
  p_account : pystr
}.

Definition currency_of (p : params) : pystr :=
  match p_currency p with Some c => c | None => lit "EUR" end.

(** [s[-n:]] for a positive literal [n]. *)
Definition slice_last (s : pystr) (n : nat) : pystr := skipn (length s - n) s.

(** [next_internal_code]: the global counter [_internal_seq] is threaded
    through; the result is the code and the new counter. *)
Definition next_internal_code (seq : Z) : pystr * Z :=
  let seq := (seq + 1)%Z in
  (pad_left (Some (slice_last (format_d seq) 4)) 4 (chr "0"), seq).

(** The fill character of every field of that variant. *)
Definition SPACE : char := 32%N.

Section Sibling.

Variable float : Type.
Variable write_amount : float -> Z -> pystr.
Variable fadd : float -> float -> float.
Variable fzero : float.


Definition make_header (p : params) (opening_balance : option float)
  (prev_date : option date) : pystr :=
  let rec :=
    pad_right (Some (lit "01")) 2 SPACE
    ++ pad_right (Some (p_bank_code p)) 5 SPACE
    ++ pad_right (Some []) 4 SPACE
    ++ pad_right (Some (p_desk p)) 5 SPACE
    ++ pad_right (Some (currency_of p)) 3 SPACE
    ++ pad_right (Some (format_d (p_nb_dec p))) 1 SPACE
    ++ pad_right (Some []) 1 SPACE
    ++ pad_right (Some (p_account p)) 11 SPACE
    ++ pad_right (Some []) 2 SPACE
    ++ match prev_date with
       | Some d => strftime_dmy d
       | None => pad_right (Some []) 6 SPACE
       end
    ++ pad_right (Some []) 50 SPACE
    ++ match opening_balance with
       | Some b => pad_right (Some (write_amount b (p_nb_dec p))) 14 SPACE
       | None => pad_right (Some []) 14 SPACE
       end
    ++ pad_right (Some []) 16 SPACE in
  slice_to rec 120.

Definition make_footer (p : params) (total_amount : option float)
  (next_date : option date) : pystr :=
  let rec :=
    pad_right (Some (lit "07")) 2 SPACE
    ++ pad_right (Some (p_bank_code p)) 5 SPACE
    ++ pad_right (Some []) 4 SPACE
    ++ pad_right (Some (p_desk p)) 5 SPACE
    ++ pad_right (Some (currency_of p)) 3 SPACE
    ++ pad_right (Some (format_d (p_nb_dec p))) 1 SPACE
    ++ pad_right (Some []) 1 SPACE
    ++ pad_right (Some (p_account p)) 11 SPACE
    ++ pad_right (Some []) 2 SPACE
    ++ match next_date with
       | Some d => strftime_dmy d
       | None => pad_right (Some []) 6 SPACE
       end
    ++ pad_right (Some []) 50 SPACE
    ++ match total_amount with
       | Some b => pad_right (Some (write_amount b (p_nb_dec p))) 14 SPACE
       | None => pad_right (Some []) 14 SPACE
       end
    ++ pad_right (Some []) 16 SPACE in
  slice_to rec 120.

(** A transaction of that variant: a dict whose keys [operation_date],
    [value_date] and [amount] are read with [tx[...]] and the others with
    [tx.get]. *)
Record stx : Type := mkstx {
  operation_date : date;
  value_date : date;
  s_label : option pystr;
  s_amount : float;
  s_reference : option pystr;
  s_internal_code : option pystr;
  s_operation_code : option pystr
}.

(** [build_04_line]: the default of [tx.get('internal_code', ...)] is
    evaluated whether the key is present or not, so the counter always
    advances. *)
Definition build_04_line (p : params) (tx : stx) (seq : Z) : pystr * Z :=
  let '(fresh, seq) := next_internal_code seq in
  let code := match s_internal_code tx with Some c => c | None => fresh end in
  let rec :=
    pad_right (Some (lit "04")) 2 SPACE
    ++ pad_right (Some (p_bank_code p)) 5 SPACE
    ++ pad_right (Some code) 4 SPACE
    ++ pad_right (Some (p_desk p)) 5 SPACE
    ++ pad_right (Some (currency_of p)) 3 SPACE
    ++ pad_right (Some (format_d (p_nb_dec p))) 1 SPACE
    ++ pad_right (Some []) 1 SPACE
    ++ pad_right (Some (p_account p)) 11 SPACE
    ++ pad_right (Some (str_or_empty (s_operation_code tx))) 2 SPACE
    ++ strftime_dmy (operation_date tx)
    ++ pad_right (Some []) 2 SPACE
    ++ strftime_dmy (value_date tx)
    ++ pad_right (Some (str_or_empty (s_label tx))) 31 SPACE
    ++ pad_right (Some []) 2 SPACE
    ++ pad_right (Some (str_or_empty (s_reference tx))) 7 SPACE
    ++ pad_right (Some []) 1 SPACE
    ++ pad_right (Some []) 1 SPACE
    ++ pad_right (Some (write_amount (s_amount tx) (p_nb_dec p))) 14 SPACE
    ++ pad_right (Some []) 16 SPACE in
  (slice_to rec 120, seq).

Definition build_05_line (p : params) (internal_code : pystr)
  (operation_date : date) (qualifier additional_info : pystr) : pystr :=
  let rec :=
    pad_right (Some (lit "05")) 2 SPACE
    ++ pad_right (Some (p_bank_code p)) 5 SPACE
    ++ pad_right (Some internal_code) 4 SPACE
    ++ pad_right (Some (p_desk p)) 5 SPACE
    ++ pad_right (Some (currency_of p)) 3 SPACE
    ++ pad_right (Some (format_d (p_nb_dec p))) 1 SPACE
    ++ pad_right (Some []) 1 SPACE
    ++ pad_right (Some (p_account p)) 11 SPACE
    ++ pad_right (Some []) 2 SPACE
    ++ strftime_dmy operation_date
    ++ pad_right (Some []) 5 SPACE
    ++ pad_right (Some qualifier) 3 SPACE
    ++ pad_right (Some additional_info) 70 SPACE
    ++ pad_right (Some []) 2 SPACE in
  slice_to rec 120.

(** The lines one transaction adds in the loop of [convert]. *)
Definition convert_tx (p : params) (tx : stx) (seq : Z) : list pystr * Z :=
  let '(internal_code, seq) := next_internal_code seq in
  let '(line04, seq) :=
    build_04_line p (mkstx (operation_date tx) (value_date tx) (s_label tx)
                       (s_amount tx) (s_reference tx) (Some internal_code)
                       (s_operation_code tx)) seq in
  let label_chunks := split_into_chunks (Some (str_or_empty (s_label tx))) 70 in
  let libs := map (build_05_line p internal_code (operation_date tx) (lit "LIB"))
                  label_chunks in
  let refs :=
    match s_reference tx with
    | Some (c :: r) =>
        map (build_05_line p internal_code (operation_date tx) (lit "REF"))
            (split_into_chunks (Some (c :: r)) 70)
    | _ => []
    end in
  (line04 :: libs ++ refs, seq).




End Sibling.

(** ** Order of the transactions *)

(** The order [sort] puts the transactions in. *)
Definition tx_le (a b : transaction) : Prop :=
  date_leb (tx_date a) (tx_date b) = true.

(** The transactions of the date [d]. *)
Definition on_date (d : date) (t : transaction) : bool :=
  date_leb (tx_date t) d && date_leb d (tx_date t).


(** ** Dates, digits and encodable text *)

(** What every [datetime.date] satisfies. *)
Definition date_valid (d : date) : bool :=
  ((1 <=? year d) && (year d <=? 9999) && (1 <=? month d) && (month d <=? 12)
   && (1 <=? day d) && (day d <=? days_in_month (year d) (month d)))%N.

(** The ASCII digit of a digit character of any script. *)
Definition ascii_digit_of (c : char) : char :=
  match unicode_decimal c with Some v => (48 + v)%N | None => c end.

(** A text the latin1 codec encodes. *)
Definition latin1 (s : pystr) : bool := forallb (fun c => (c <? 256)%N) s.

(** The record code of a line: its first two characters. *)
Definition record_code (line : pystr) : pystr := field line 0 2.

(** A transaction whose label does not fit the 31 characters of the "04"
    record. *)
Definition has_long_label (t : transaction) : bool := (31 <? len (tx_label t))%Z.

(** The dates of a transaction of [csv_to_cfonb120.py] are dates. *)
Definition stx_valid {float : Type} (t : stx float) : bool :=
  date_valid (operation_date _ t) && date_valid (value_date _ t).

(** The number of pieces [split_into_chunks] cuts a text of [n] characters
    into. *)
Definition pieces (n size : nat) : nat := (n + size - 1) / size.

(** [range(start, start + n)] *)
Fixpoint zrange (start : Z) (n : nat) : list Z :=
  match n with
  | O => []
  | S n' => start :: zrange (start + 1) n'
  end.

(** The "04" records among the lines. *)
Definition records_04 (lines : list pystr) : list pystr :=
  filter (fun l => str_eqb (record_code l) (lit "04")) lines.

(** A date that may be absent is a date when it is there. *)
Definition opt_date_valid (d : option date) : Prop :=
  match d with Some d => date_valid d = true | None => True end.

(** The lines of a transaction of [csv_to_cfonb120.py]: one "04" record and
    the "05" records of its label and of its reference. *)
Definition stx_line_count {float : Type} (t : stx float) : nat :=
  1 + pieces (length (str_or_empty (s_label _ t))) 70
    + pieces (length (str_or_empty (s_reference _ t))) 70.
(** * Properties *)

Ltac Zify.zify_post_hook ::= Z.to_euclidean_division_equations.

(** ** Digit strings *)

Section Digits.

Local Open Scope N_scope.

Lemma N_of_digits_app s d :
  N_of_digits (s ++ [d]) = 10 * N_of_digits s + (d - 48).
Proof. unfold N_of_digits. now rewrite fold_left_app. Qed.

Lemma digits_fuel_spec fuel : forall n acc,
  (1 <= fuel)%nat -> n < 2 ^ N.of_nat fuel ->
  exists ds, digits_fuel fuel n acc = ds ++ acc
    /\ Forall (fun c => is_ascii_digit c = true) ds
    /\ N_of_digits ds = n
    /\ n < 10 ^ N.of_nat (length ds)
    /\ (length ds = 1%nat \/ 10 ^ N.of_nat (length ds - 1) <= n).
Proof.
  induction fuel as [|f IH]; intros n acc Hf Hn; [lia|].
  cbn [digits_fuel]. destruct (N.ltb_spec n 10) as [Hlt|Hge].
  - exists [48 + n mod 10]. rewrite N.mod_small by exact Hlt.
    repeat split.
    + constructor; [|constructor]. unfold is_ascii_digit.
      apply andb_true_intro; split; apply N.leb_le; lia.
    + unfold N_of_digits; cbn [fold_left]. lia.
    + cbn. lia.
    + now left.
  - assert (Hf3 : (1 <= f)%nat).
    { destruct f; [|lia]. cbn in Hn. lia. }
    assert (Hdiv : n / 10 < 2 ^ N.of_nat f).
    { apply N.Div0.div_lt_upper_bound.
      rewrite Nat2N.inj_succ, N.pow_succ_r' in Hn. lia. }
    destruct (IH (n / 10) ((48 + n mod 10) :: acc) Hf3 Hdiv)
      as (ds & Heq & Hall & Hval & Hup & Hlo).
    exists (ds ++ [48 + n mod 10]).
    pose proof (N.mod_upper_bound n 10 ltac:(lia)) as Hm.
    pose proof (N.div_mod n 10 ltac:(lia)) as Hdm.
    assert (Hlen : length (ds ++ [48 + n mod 10]) = S (length ds))
      by (rewrite length_app; cbn; lia).
    repeat split.
    + now rewrite Heq, <- app_assoc.
    + apply Forall_app; split; [exact Hall|].
      constructor; [|constructor]. unfold is_ascii_digit.
      apply andb_true_intro; split; apply N.leb_le; lia.
    + rewrite N_of_digits_app, Hval. lia.
    + rewrite Hlen, Nat2N.inj_succ, N.pow_succ_r'. lia.
    + right. rewrite Hlen. replace (S (length ds) - 1)%nat with (length ds) by lia.
      destruct Hlo as [H1|Hlo].
      * rewrite H1. cbn. lia.
      * destruct (length ds) as [|k] eqn:Hk.
        { cbn in Hup. lia. }
        replace (S k - 1)%nat with k in Hlo by lia.
        rewrite Nat2N.inj_succ, N.pow_succ_r'. lia.
Qed.

Lemma str_of_N_spec n :
  Forall (fun c => is_ascii_digit c = true) (str_of_N n)
  /\ N_of_digits (str_of_N n) = n
  /\ n < 10 ^ N.of_nat (length (str_of_N n))
  /\ (length (str_of_N n) = 1%nat \/ 10 ^ N.of_nat (length (str_of_N n) - 1) <= n).
Proof.
  unfold str_of_N.
  destruct (digits_fuel_spec (S (N.to_nat (N.log2 n))) n []) as (ds & Heq & H).
  - lia.
  - rewrite Nat2N.inj_succ, N2Nat.id.
    destruct n as [|p]; [cbn; lia|]. apply N.log2_spec. lia.
  - rewrite Heq, app_nil_r. exact H.
Qed.

Lemma str_of_N_nonempty n : str_of_N n <> [].
Proof.
  destruct (str_of_N_spec n) as (_ & _ & Hup & Hlo).
  intros E. rewrite E in Hup, Hlo. cbn in Hup, Hlo.
  destruct Hlo; [discriminate|lia].
Qed.

Lemma ndigits_pos c : (1 <= ndigits c)%Z.
Proof.
  unfold ndigits, len. pose proof (str_of_N_nonempty c).
  destruct (str_of_N c); [congruence|cbn [length]; lia].
Qed.

(** A coefficient has at most [k] digits exactly when it is below [10^k]. *)
Lemma ndigits_le c k : (1 <= k)%Z -> (ndigits c <= k)%Z <-> c < 10 ^ Z.to_N k.
Proof.
  intros Hk. unfold ndigits, len.
  destruct (str_of_N_spec c) as (_ & _ & Hup & Hlo).
  set (l := length (str_of_N c)) in *.
  split; intros H.
  - eapply N.lt_le_trans; [exact Hup|].
    apply N.pow_le_mono_r; lia.
  - destruct Hlo as [H1|Hlo]; [lia|].
    destruct (Z.le_gt_cases (Z.of_nat l) k) as [|Hgt]; [assumption|exfalso].
    assert (10 ^ Z.to_N k <= 10 ^ N.of_nat (l - 1)) by (apply N.pow_le_mono_r; lia).
    lia.
Qed.

End Digits.

(** ** The result monad *)

Lemma bind_ok {A B} (r : result A) (k : A -> result B) (b : B) :
  bind r k = Ok b -> exists a, r = Ok a /\ k a = Ok b.
Proof. destruct r as [a|e]; cbn; [eauto|discriminate]. Qed.

Lemma bind_raise {A B} (r : result A) (k : A -> result B) (e : exn) :
  bind r k = Raise e -> r = Raise e \/ exists a, r = Ok a /\ k a = Raise e.
Proof. destruct r as [a|e']; cbn; [eauto|intros [= ->]; now left]. Qed.

Lemma Ok_inj {A} (a b : A) : Ok a = Ok b -> a = b.
Proof. now intros [= ->]. Qed.

Ltac inv_bind H :=
  let a := fresh "v" in
  let Ha := fresh "Hv" in
  apply bind_ok in H; destruct H as (a & Ha & H).

(** ** Signs through the Decimal operations *)

Lemma fix_sign d d' : fix_ d = Ok d' -> dsign d' = dsign d.
Proof.
  destruct d as [s c e|s|s g]; cbn [fix_]; try (intros [= <-]; reflexivity).
  destruct c as [|p]; [intros [= <-]; reflexivity|].
  destruct (Etop <? _)%Z; [discriminate|].
  destruct (e <? _)%Z; [|intros [= <-]; reflexivity].
  destruct (round_half_even _ _) as [coeff changed].
  destruct (changed && _); destruct (Etop <? _)%Z; try discriminate;
    intros [= <-]; reflexivity.
Qed.

Lemma fix_finite d d' : fix_ d = Ok d' -> is_finite d' = is_finite d.
Proof.
  destruct d as [s c e|s|s g]; cbn [fix_]; try (intros [= <-]; reflexivity).
  destruct c as [|p]; [intros [= <-]; reflexivity|].
  destruct (Etop <? _)%Z; [discriminate|].
  destruct (e <? _)%Z; [|intros [= <-]; reflexivity].
  destruct (round_half_even _ _) as [coeff changed].
  destruct (changed && _); destruct (Etop <? _)%Z; try discriminate;
    intros [= <-]; reflexivity.
Qed.

Lemma rescale_sign d exp : dsign (rescale d exp) = dsign d.
Proof.
  destruct d as [s c e|s|s g]; cbn; try reflexivity.
  destruct c; [reflexivity|]. now destruct (exp <=? e)%Z.
Qed.

Lemma quantize_sign d exp d' :
  is_finite d = true -> quantize d exp = Ok d' ->
  dsign d' = dsign d /\ is_finite d' = true.
Proof.
  destruct d as [s c e|s|s g]; try discriminate. intros _. cbn [quantize].
  destruct (_ || _); [discriminate|].
  destruct (c =? 0)%N.
  { intros H. split; [apply fix_sign in H|apply fix_finite in H]; exact H. }
  destruct (Emax <? _)%Z; [discriminate|].
  destruct (prec <? _)%Z; [discriminate|].
  pose proof (rescale_sign (Fin s c e) exp) as Hs.
  destruct (rescale (Fin s c e) exp) as [s' c' e'|s'|s' g'] eqn:Hr.
  - destruct (Emax <? _)%Z; [discriminate|].
    destruct (prec <? _)%Z; [discriminate|].
    intros H. split; [apply fix_sign in H; cbn in *; congruence|].
    apply fix_finite in H. exact H.
  - cbn in Hr. destruct c; [discriminate|]. destruct (exp <=? e)%Z; discriminate.
  - cbn in Hr. destruct c; [discriminate|]. destruct (exp <=? e)%Z; discriminate.
Qed.

Lemma to_int_nonneg d n :
  dsign d = false -> to_int d = Ok n -> (0 <= n)%Z.
Proof.
  destruct d as [s c e|s|s g]; cbn; try discriminate.
  intros -> [= <-]. destruct (Z.leb_spec 0 e).
  - apply Z.mul_nonneg_nonneg; [lia|]. apply Z.pow_nonneg. lia.
  - apply Z.div_pos; [lia|]. apply Z.pow_pos_nonneg; lia.
Qed.

Lemma dmul_fin s c e t c' e' :
  dmul (Fin s c e) (Fin t c' e') = fix_ (Fin (xorb s t) (c * c')%N (e + e')%Z).
Proof. reflexivity. Qed.

Lemma pow10_ok decimals p :
  pow10 decimals = Ok p ->
  (0 <= decimals)%Z /\ p = Fin false (Z.to_N (10 ^ decimals)) 0.
Proof.
  unfold pow10, Decimal_of_int. destruct (Z.ltb_spec decimals 0); [discriminate|].
  intros [= <-]. split; [assumption|].
  assert (0 < 10 ^ decimals)%Z by (apply Z.pow_pos_nonneg; lia).
  f_equal; [apply Z.ltb_ge; lia|].
  destruct (10 ^ decimals)%Z; try lia; reflexivity.
Qed.

(** The scaled integer behind an encoding is never negative, whenever the
    sign test on the amount succeeded. *)
Lemma scaled_int_nonneg amount decimals n b :
  ge_zero amount = Ok b -> scaled_int amount decimals = Ok n -> (0 <= n)%Z.
Proof.
  intros Hge H. unfold scaled_int in H.
  inv_bind H. inv_bind H. inv_bind H. inv_bind H.
  rename v into a, v0 into p, v1 into m, v2 into scaled.
  apply pow10_ok in Hv0. destruct Hv0 as [Hd ->].
  destruct amount as [s c e|s|s g]; cbn in Hge; [| |discriminate].
  - cbn [dabs] in Hv. pose proof (fix_sign _ _ Hv) as Hs.
    pose proof (fix_finite _ _ Hv) as Hf. cbn in Hs, Hf.
    destruct a as [sa ca ea|?|? ?]; try discriminate. cbn in Hs. subst sa.
    rewrite dmul_fin in Hv1.
    pose proof (fix_sign _ _ Hv1) as Hs1. pose proof (fix_finite _ _ Hv1) as Hf1.
    cbn in Hs1, Hf1.
    destruct (quantize_sign _ _ _ Hf1 Hv2) as [Hs2 _].
    eapply to_int_nonneg; [|exact H]. congruence.
  - cbn in Hv. injection Hv as <-.
    unfold dmul in Hv1. cbn in Hv1.
    destruct (Z.to_N (10 ^ decimals)); [discriminate|].
    injection Hv1 as <-. discriminate.
Qed.

(** ** The substitution tables *)

Lemma lookup_In m k v : lookup m k = Ok v -> In (k, v) m.
Proof.
  induction m as [|[k' v'] m IH]; cbn; [discriminate|].
  unfold char_eqb. destruct (N.eqb_spec k' k) as [->|].
  - intros [= ->]. now left.
  - intros H. right. auto.
Qed.

Lemma ascii_digit_cases d :
  is_ascii_digit d = true ->
  In d [48; 49; 50; 51; 52; 53; 54; 55; 56; 57]%N.
Proof.
  unfold is_ascii_digit. intros H. apply andb_prop in H. destruct H as [H1 H2].
  apply N.leb_le in H1, H2. cbn.
  assert (d = 48 \/ d = 49 \/ d = 50 \/ d = 51 \/ d = 52 \/ d = 53 \/ d = 54
          \/ d = 55 \/ d = 56 \/ d = 57)%N by lia.
  intuition auto.
Qed.

Lemma table_round_trip d credit :
  is_ascii_digit d = true ->
  exists c, lookup (table credit) d = Ok c /\ overpunch_decode c = Some (d, credit).
Proof.
  intros H. apply ascii_digit_cases in H. cbn in H.
  repeat (destruct H as [<-|H]; [destruct credit; eexists; split; reflexivity|]).
  contradiction.
Qed.

Lemma tables_disjoint d1 d2 c :
  lookup CREDIT_MAP d1 = Ok c -> lookup DEBIT_MAP d2 = Ok c -> False.
Proof.
  intros H1 H2. apply lookup_In in H1, H2. cbn in H1, H2.
  repeat (destruct H1 as [H1|H1]; [injection H1 as <- <-|]);
    try contradiction;
    repeat (destruct H2 as [H2|H2]; [discriminate H2|]); contradiction.
Qed.

Lemma table_injective credit d1 d2 c :
  lookup (table credit) d1 = Ok c -> lookup (table credit) d2 = Ok c -> d1 = d2.
Proof.
  intros H1 H2. apply lookup_In in H1, H2.
  destruct credit; cbn in H1, H2;
    repeat (destruct H1 as [H1|H1]; [injection H1 as <- <-|]);
    try contradiction;
    repeat (destruct H2 as [H2|H2];
            [first [discriminate H2 | injection H2 as <-; reflexivity]|]);
    contradiction.
Qed.

(** ** Shape of the digit string *)

Lemma format_d_digits n :
  (0 <= n)%Z -> Forall (fun c => is_ascii_digit c = true) (format_d n)
                /\ format_d n <> [].
Proof.
  intros H. unfold format_d. destruct (Z.ltb_spec n 0); [lia|].
  split; [apply str_of_N_spec|apply str_of_N_nonempty].
Qed.

Lemma rjust_length s width fill :
  (len s <= width)%Z -> len (rjust s width fill) = width.
Proof.
  unfold rjust, len. intros H. rewrite length_app, repeat_length. lia.
Qed.

Lemma ljust_length s width fill :
  (len s <= width)%Z -> len (ljust s width fill) = width.
Proof.
  unfold ljust, len. intros H. rewrite length_app, repeat_length. lia.
Qed.

Lemma rjust_zero_digits s width :
  Forall (fun c => is_ascii_digit c = true) s ->
  Forall (fun c => is_ascii_digit c = true) (rjust s width (chr "0")).
Proof.
  intros H. unfold rjust. apply Forall_app. split; [|exact H].
  apply Forall_forall. intros x Hx. apply repeat_spec in Hx. now subst x.
Qed.

Lemma rjust_nonempty s width fill : s <> [] -> rjust s width fill <> [].
Proof.
  unfold rjust. intros H E. apply app_eq_nil in E. now destruct E.
Qed.

Lemma Forall_last {A} (P : A -> Prop) (l : list A) (d : A) :
  Forall P l -> l <> [] -> P (last l d).
Proof.
  intros H Hne. destruct (exists_last Hne) as (l' & a & ->).
  rewrite last_last. apply Forall_app in H. destruct H as [_ H].
  now inversion H.
Qed.

(** The leading zeros added by [rjust] do not change the number denoted. *)
Lemma N_of_digits_app_gen s t :
  N_of_digits (s ++ t) =
  fold_left (fun a c => (10 * a + (c - 48))%N) t (N_of_digits s).
Proof. unfold N_of_digits. now rewrite fold_left_app. Qed.

Lemma N_of_digits_zeros k : N_of_digits (repeat (chr "0") k) = 0%N.
Proof.
  induction k as [|k IH]; [reflexivity|].
  replace (S k) with (k + 1) by lia. rewrite repeat_app. cbn [repeat].
  rewrite N_of_digits_app, IH. reflexivity.
Qed.

Lemma N_of_digits_rjust s width :
  N_of_digits (rjust s width (chr "0")) = N_of_digits s.
Proof.
  unfold rjust. rewrite N_of_digits_app_gen, N_of_digits_zeros. reflexivity.
Qed.

Lemma last_char_ok s d : last_char s = Ok d -> s <> [] /\ d = last s 0%N.
Proof.
  unfold last_char. destruct s; [discriminate|]. intros [= <-].
  split; [discriminate|reflexivity].
Qed.

(** What a successful call of the encoder went through. *)
Lemma encode_ok_inv amount decimals width s :
  cfonb_encode_amount amount decimals width = Ok s ->
  exists nonneg n d c,
    ge_zero amount = Ok nonneg /\ scaled_int amount decimals = Ok n /\
    (0 <= n)%Z /\ (len (format_d n) <= width)%Z /\
    last_char (rjust (format_d n) width (chr "0")) = Ok d /\
    is_ascii_digit d = true /\
    lookup (table nonneg) d = Ok c /\
    s = removelast (rjust (format_d n) width (chr "0")) ++ [c].
Proof.
  intros H. unfold cfonb_encode_amount in H.
  inv_bind H. rename v into nonneg, Hv into Hge.
  inv_bind H. rename v into n, Hv into Hn.
  destruct (Z.ltb_spec width (len (format_d n))) as [|Hw]; [discriminate|].
  inv_bind H. rename v into d, Hv into Hd.
  inv_bind H. rename v into c, Hv into Hc.
  injection H as <-.
  pose proof (scaled_int_nonneg _ _ _ _ Hge Hn) as Hpos.
  destruct (format_d_digits n Hpos) as [Hall Hne].
  exists nonneg, n, d, c. repeat split; try assumption.
  - apply last_char_ok in Hd. destruct Hd as [Hne' ->].
    apply Forall_last; [apply rjust_zero_digits; exact Hall|exact Hne'].
  - destruct nonneg; exact Hc.
Qed.

(** An infinite amount never gets through the scaling: the product with
    [10^decimals] is infinite and [quantize] refuses it. *)
Lemma scaled_int_inf s decimals n : scaled_int (Inf s) decimals <> Ok n.
Proof.
  unfold scaled_int. cbn [dabs bind]. unfold pow10.
  destruct (decimals <? 0)%Z; cbn [bind]; [discriminate|].
  unfold dmul, Decimal_of_int. cbn [check_nans bind dsign is_zero].
  destruct (Z.abs_N (10 ^ decimals)); cbn [bind]; discriminate.
Qed.

(** [amount >= 0] on a finite amount, read on its exact value. *)
Lemma dvalue_nonneg s c e :
  negb s || (c =? 0)%N = true <-> (0 <= dvalue (Fin s c e))%Q.
Proof.
  unfold dvalue. cbv zeta.
  set (m := (inject_Z (Z.of_N c) * Qpower (inject_Z 10) e)%Q).
  assert (Hp : (0 < Qpower (inject_Z 10) e)%Q) by (apply Qpower_0_lt; reflexivity).
  assert (Hm : (0 <= m)%Q).
  { apply Qmult_le_0_compat; [|now apply Qlt_le_weak].
    change 0%Q with (inject_Z 0). rewrite <- Zle_Qle. lia. }
  destruct s; cbn [negb orb]; [|split; [intros _; exact Hm|reflexivity]].
  destruct (N.eqb_spec c 0) as [->|Hc]; split; intros H; try reflexivity.
  - unfold m. change (Z.of_N 0) with 0%Z. rewrite Qmult_0_l. discriminate.
  - discriminate H.
  - exfalso. assert (Hlt : (0 < m)%Q).
    { apply Qmult_lt_0_compat; [|exact Hp].
      change 0%Q with (inject_Z 0). rewrite <- Zlt_Qlt. lia. }
    apply (Qlt_irrefl 0). eapply Qlt_le_trans; [exact Hlt|].
    apply Qopp_le_compat in H. now rewrite Qopp_involutive in H.
Qed.

(** The last character of the digit string of [n] is the digit [n mod 10]. *)
Lemma last_digit_mod s n :
  Forall (fun c => is_ascii_digit c = true) s -> s <> [] ->
  N_of_digits s = n -> last s 0%N = (48 + n mod 10)%N.
Proof.
  intros Hall Hne Hn.
  pose proof (Forall_last _ s 0%N Hall Hne) as Hd.
  rewrite (app_removelast_last 0%N Hne), N_of_digits_app in Hn.
  unfold is_ascii_digit in Hd. apply andb_prop in Hd. destruct Hd as [H1 H2].
  apply N.leb_le in H1, H2.
  assert (A : forall l a : N,
             (48 <= l -> l <= 57 -> 10 * a + (l - 48) = n
              -> l = 48 + n mod 10)%N)
    by (intros; lia).
  eapply A; eassumption.
Qed.

(** C1 -- Sign-overpunch round trip.  An amount the encoder accepts is
    finite; its field is the zero-padded digit string of the scaled integer
    [n] with only the last character replaced: the digit [n mod 10] is looked
    up in CREDIT_MAP when the amount is [>= 0] (its exact value is not
    negative) and in DEBIT_MAP when the amount is negative; decoding that last
    character by inverse lookup across both tables gives back that digit and
    that sign.  This holds for every digit 0-9 and both signs, the ranges of
    the two tables are disjoint and each table is injective. *)
Theorem overpunch_round_trip :
  (forall amount decimals width s,
      cfonb_encode_amount amount decimals width = Ok s ->
      exists sgn coef e n,
        amount = Fin sgn coef e /\
        scaled_int amount decimals = Ok n /\ (0 <= n)%Z /\
        let credit := negb sgn || (coef =? 0)%N in
        let digits := rjust (format_d n) width (chr "0") in
        let d := (48 + Z.to_N n mod 10)%N in
        (credit = true <-> (0 <= dvalue amount)%Q) /\
        len digits = width /\
        Forall (fun c => is_ascii_digit c = true) digits /\
        N_of_digits digits = Z.to_N n /\
        last digits 0%N = d /\
        lookup (if credit then CREDIT_MAP else DEBIT_MAP) d = Ok (last s 0%N) /\
        s = removelast digits ++ [last s 0%N] /\
        overpunch_decode (last s 0%N) = Some (d, credit))
  /\ (forall d (credit : bool),
        is_ascii_digit d = true ->
        exists c, lookup (if credit then CREDIT_MAP else DEBIT_MAP) d = Ok c
                  /\ overpunch_decode c = Some (d, credit))
  /\ (forall d1 d2 c,
        lookup CREDIT_MAP d1 = Ok c -> lookup DEBIT_MAP d2 = Ok c -> False)
  /\ (forall (credit : bool) d1 d2 c,
        lookup (if credit then CREDIT_MAP else DEBIT_MAP) d1 = Ok c ->
        lookup (if credit then CREDIT_MAP else DEBIT_MAP) d2 = Ok c ->
        d1 = d2).
Proof.
  split; [|split; [|split]].
  - intros amount decimals width s H.
    destruct (encode_ok_inv _ _ _ _ H)
      as (nonneg & n & d & c & Hge & Hn & Hpos & Hw & Hd & Hdig & Hc & ->).
    destruct amount as [sgn coef e|sgn|sgn g]; [|now apply scaled_int_inf in Hn
                                               |discriminate Hge].
    cbn [ge_zero] in Hge. apply Ok_inj in Hge. subst nonneg.
    exists sgn, coef, e, n. cbv zeta.
    apply last_char_ok in Hd. destruct Hd as [Hne Hd].
    destruct (format_d_digits n Hpos) as [Hall _].
    pose proof (rjust_zero_digits _ width Hall) as Hall'.
    assert (HN : N_of_digits (rjust (format_d n) width (chr "0")) = Z.to_N n).
    { rewrite N_of_digits_rjust. unfold format_d.
      destruct (Z.ltb_spec n 0); [lia|]. apply str_of_N_spec. }
    pose proof (last_digit_mod _ _ Hall' Hne HN) as Hlast.
    rewrite <- Hd in Hlast. rewrite last_last. rewrite <- Hlast.
    split; [reflexivity|]. split; [exact Hn|]. split; [exact Hpos|].
    split; [apply dvalue_nonneg|].
    split; [now apply rjust_length|].
    split; [exact Hall'|]. split; [exact HN|].
    split; [symmetry; exact Hd|].
    split; [exact Hc|]. split; [reflexivity|].
    destruct (table_round_trip d (negb sgn || (coef =? 0)%N) Hdig)
      as (c' & Hc' & Hdec).
    rewrite Hc' in Hc. apply Ok_inj in Hc. subst c'. exact Hdec.
  - intros d credit. apply table_round_trip.
  - exact tables_disjoint.
  - exact table_injective.
Qed.

Lemma overpunch_round_trip_witness :
  exists credit debit,
    cfonb_encode_amount (Fin false 1234 (-2)) 2 14 = Ok credit
    /\ credit = lit "0000000000123D"
    /\ overpunch_decode (last credit 0%N) = Some (chr "4", true)
    /\ cfonb_encode_amount (Fin true 1234 (-2)) 2 14 = Ok debit
    /\ debit = lit "0000000000123M"
    /\ overpunch_decode (last debit 0%N) = Some (chr "4", false).
Proof.
  assert (E1 : cfonb_encode_amount (Fin false 1234 (-2)) 2 14
               = Ok (lit "0000000000123D")) by (vm_compute; reflexivity).
  assert (E2 : cfonb_encode_amount (Fin true 1234 (-2)) 2 14
               = Ok (lit "0000000000123M")) by (vm_compute; reflexivity).
  exists (lit "0000000000123D"), (lit "0000000000123M").
  split; [exact E1|]. split; [reflexivity|]. split; [|split; [exact E2|split;
                                                       [reflexivity|]]].
  - destruct (proj1 overpunch_round_trip _ _ _ _ E1)
      as (sgn & coef & e & n & Ha & Hn & _ & H).
    cbv zeta in H. destruct H as (_ & _ & _ & _ & _ & _ & _ & Hdec).
    injection Ha as <- <- <-.
    vm_compute in Hn. injection Hn as <-. exact Hdec.
  - destruct (proj1 overpunch_round_trip _ _ _ _ E2)
      as (sgn & coef & e & n & Ha & Hn & _ & H).
    cbv zeta in H. destruct H as (_ & _ & _ & _ & _ & _ & _ & Hdec).
    injection Ha as <- <- <-.
    vm_compute in Hn. injection Hn as <-. exact Hdec.
Defined.

(** ** When the context does not round *)

Section Exactness.

Local Open Scope Z_scope.

Lemma fix_exact s c e :
  (c < 10 ^ 28)%N -> Etiny <= e <= Etop -> fix_ (Fin s c e) = Ok (Fin s c e).
Proof.
  intros Hc He. unfold fix_. destruct c as [|p].
  - f_equal. f_equal. unfold Etiny, Etop, Emax, Emin, prec in *. lia.
  - pose proof (proj2 (ndigits_le (N.pos p) 28 ltac:(lia)) Hc) as Hn.
    pose proof (ndigits_pos (N.pos p)) as Hp. cbv zeta.
    destruct (Z.ltb_spec Etop (ndigits (N.pos p) + e - prec)) as [H|H].
    { unfold Etiny, Etop, Emax, Emin, prec in *. lia. }
    destruct (Z.ltb_spec e (Z.max (ndigits (N.pos p) + e - prec) Etiny)) as [H'|H'].
    { unfold Etiny, Etop, Emax, Emin, prec in *. lia. }
    reflexivity.
Qed.

Lemma fix_zero s e : exists e', fix_ (Fin s 0 e) = Ok (Fin s 0 e').
Proof. eexists. reflexivity. Qed.

Lemma pow10_nonneg d :
  0 <= d -> pow10 d = Ok (Fin false (10 ^ Z.to_N d)%N 0).
Proof.
  intros Hd. unfold pow10, Decimal_of_int.
  destruct (Z.ltb_spec d 0); [lia|].
  assert (0 < 10 ^ d) by (apply Z.pow_pos_nonneg; lia).
  f_equal. f_equal; [apply Z.ltb_ge; lia|].
  apply N2Z.inj. rewrite N2Z.inj_abs_N, N2Z.inj_pow, Z2N.id by lia.
  apply Z.abs_eq. lia.
Qed.

Lemma rescale_nonzero s c e exp :
  c <> 0%N ->
  rescale (Fin s c e) exp =
  Fin s (if exp <=? e then (c * 10 ^ Z.to_N (e - exp))%N
         else fst (round_half_even c (exp - e))) exp.
Proof.
  intros Hc. unfold rescale. destruct c; [congruence|].
  now destruct (exp <=? e).
Qed.

(** Quantizing to exponent 0 a value whose integer part and result fit the
    context precision. *)
Lemma quantize0_exact s c e :
  c <> 0%N -> e + ndigits c <= 28 ->
  let c' := if 0 <=? e then (c * 10 ^ Z.to_N e)%N
            else fst (round_half_even c (- e)) in
  (c' < 10 ^ 28)%N ->
  quantize (Fin s c e) 0 = Ok (Fin s c' 0).
Proof.
  intros Hc Hadj c' Hc'. unfold quantize.
  pose proof (ndigits_pos c) as Hp.
  replace ((0 <? Etiny) || (Emax <? 0))%bool with false by reflexivity.
  destruct (N.eqb_spec c 0); [congruence|].
  destruct (Z.ltb_spec Emax (adjusted c e)) as [H|_].
  { unfold adjusted, Emax in H. lia. }
  destruct (Z.ltb_spec prec (adjusted c e - 0 + 1)) as [H|_].
  { unfold adjusted, prec in H. lia. }
  rewrite rescale_nonzero by assumption.
  replace (e - 0) with e by lia. replace (0 - e) with (- e) by lia. fold c'.
  pose proof (proj2 (ndigits_le c' 28 ltac:(lia)) Hc') as Hn'.
  pose proof (ndigits_pos c') as Hp'.
  destruct (Z.ltb_spec Emax (adjusted c' 0)) as [H|_].
  { unfold adjusted, Emax in H. lia. }
  destruct (Z.ltb_spec prec (ndigits c')) as [H|_].
  { unfold prec in H. lia. }
  apply fix_exact; [exact Hc'|]. unfold Etiny, Etop, Emin, Emax, prec. lia.
Qed.

Lemma round_half_even_bound c k :
  0 < k -> (fst (round_half_even c k) <= c / 10 + 1)%N.
Proof.
  intros Hk. unfold round_half_even.
  set (p := (10 ^ Z.to_N k)%N).
  assert (Hp : (10 <= p)%N).
  { unfold p. replace (Z.to_N k) with (N.succ (Z.to_N (k - 1))) by lia.
    rewrite N.pow_succ_r'.
    assert (0 < 10 ^ Z.to_N (k - 1))%N by (apply N.neq_0_lt_0, N.pow_nonzero; lia).
    lia. }
  assert (Hq : (c / p <= c / 10)%N) by (apply N.div_le_compat_l; lia).
  destruct (2 * (c mod p) ?= p)%N; [destruct (N.even _)| |]; cbn [fst]; lia.
Qed.

(** The integer the encoder renders, when no intermediate result exceeds the
    28 digits of the context. *)
Lemma scaled_int_exact s c e d :
  0 <= d -> Etiny <= e ->
  (c * 10 ^ Z.to_N (d + Z.max e 0) < 10 ^ 28)%N ->
  scaled_int (Fin s c e) d =
  Ok (Z.of_N (if 0 <=? e then (c * 10 ^ Z.to_N d * 10 ^ Z.to_N e)%N
              else fst (round_half_even (c * 10 ^ Z.to_N d)%N (- e)))).
Proof.
  intros Hd He Hc.
  assert (H10 : forall n, (0 < 10 ^ n)%N)
    by (intros n; apply N.neq_0_lt_0, N.pow_nonzero; lia).
  assert (Hsplit : (10 ^ Z.to_N (d + Z.max e 0)
                    = 10 ^ Z.to_N d * 10 ^ Z.to_N (Z.max e 0))%N).
  { rewrite <- N.pow_add_r. f_equal. lia. }
  rewrite Hsplit, N.mul_assoc in Hc. clear Hsplit.
  set (C := (c * 10 ^ Z.to_N d)%N) in *.
  assert (HC : (C < 10 ^ 28)%N).
  { pose proof (H10 (Z.to_N (Z.max e 0))). nia. }
  assert (Hc28 : (c < 10 ^ 28)%N).
  { pose proof (H10 (Z.to_N d)). unfold C in HC. nia. }
  destruct (N.eq_dec c 0) as [->|Hnz].
  - (* a zero of any exponent *)
    unfold scaled_int. cbn [dabs].
    destruct (fix_zero false e) as (e1 & ->). cbn [bind].
    rewrite pow10_nonneg by assumption. cbn [bind].
    rewrite dmul_fin. rewrite N.mul_0_l.
    destruct (fix_zero (xorb false false) (e1 + 0)) as (e2 & ->). cbn [bind].
    replace (quantize (Fin (xorb false false) 0 e2) 0)
      with (Ok (Fin false 0 0)) by reflexivity.
    cbn [bind to_int]. f_equal.
    destruct (0 <=? e); [reflexivity|].
    unfold round_half_even. rewrite N.Div0.div_0_l, N.Div0.mod_0_l.
    pose proof (H10 (Z.to_N (- e))) as Hp.
    destruct (N.compare_spec (2 * 0) (10 ^ Z.to_N (- e))) as [E|E|E];
      cbn [fst]; try reflexivity; lia.
  - assert (HCnz : C <> 0%N).
    { unfold C. pose proof (H10 (Z.to_N d)). nia. }
    assert (He28 : e < 28).
    { destruct (Z.lt_ge_cases e 28) as [|Hge]; [assumption|exfalso].
      assert (10 ^ 28 <= 10 ^ Z.to_N (Z.max e 0))%N
        by (apply N.pow_le_mono_r; lia).
      nia. }
    unfold scaled_int. cbn [dabs].
    rewrite fix_exact by (try assumption; unfold Etop, Emax, prec; lia).
    cbn [bind]. rewrite pow10_nonneg by assumption. cbn [bind].
    rewrite dmul_fin. fold C. rewrite Z.add_0_r.
    rewrite fix_exact by (try assumption; unfold Etop, Emax, prec; lia).
    cbn [bind xorb].
    rewrite quantize0_exact.
    + cbn [bind to_int]. rewrite Z.leb_refl, Z.pow_0_r, Z.mul_1_r. reflexivity.
    + exact HCnz.
    + destruct (Z.le_gt_cases e 0) as [Hle|Hgt].
      * pose proof (proj2 (ndigits_le C 28 ltac:(lia)) HC). lia.
      * assert (Hlt : (C < 10 ^ Z.to_N (28 - e))%N).
        { replace (Z.max e 0) with e in Hc by lia.
          assert (E : (10 ^ 28 = 10 ^ Z.to_N (28 - e) * 10 ^ Z.to_N e)%N).
          { rewrite <- N.pow_add_r. f_equal. lia. }
          rewrite E in Hc. pose proof (H10 (Z.to_N e)).
          apply N.mul_lt_mono_pos_r in Hc; assumption. }
        pose proof (proj2 (ndigits_le C (28 - e) ltac:(lia)) Hlt). lia.
    + destruct (Z.leb_spec 0 e) as [Hle|Hgt].
      * replace (Z.max e 0) with e in Hc by lia. exact Hc.
      * pose proof (round_half_even_bound C (- e) ltac:(lia)) as Hb.
        assert (C / 10 + 1 < 10 ^ 28)%N; [|lia].
        assert (C / 10 < 10 ^ 27)%N.
        { apply N.Div0.div_lt_upper_bound.
          rewrite <- N.pow_succ_r'. exact HC. }
        assert (10 ^ 27 + 1 <= 10 ^ 28)%N by (vm_compute; discriminate).
        lia.
Qed.

End Exactness.

(** ** Exact values and rounding *)

Section Rounding.

Local Open Scope Z_scope.

Lemma Qround_half_even_comp q q' :
  Qeq q q' -> Qround_half_even q = Qround_half_even q'.
Proof.
  intros H. unfold Qround_half_even.
  rewrite (Qfloor_comp _ _ H).
  assert (E : Qeq (q - inject_Z (Qfloor q')) (q' - inject_Z (Qfloor q')))
    by (rewrite H; reflexivity).
  now rewrite (Qcompare_comp _ _ E (1 # 2)%Q (1 # 2)%Q (Qeq_refl _)).
Qed.

Lemma Qround_half_even_frac (a : Z) (b : positive) :
  Qround_half_even (a # b) =
  match 2 * (a mod Zpos b) ?= Zpos b with
  | Lt => a / Zpos b
  | Gt => a / Zpos b + 1
  | Eq => if Z.even (a / Zpos b) then a / Zpos b else a / Zpos b + 1
  end.
Proof.
  unfold Qround_half_even, Qfloor.
  set (q := a / Zpos b). set (r := a mod Zpos b).
  assert (Hqr : a = Zpos b * q + r /\ 0 <= r < Zpos b).
  { unfold q, r. split; [apply Z.div_mod; lia|apply Z.mod_pos_bound; lia]. }
  clearbody q r. destruct Hqr as [-> Hr].
  unfold Qcompare, Qminus, Qplus, Qopp, inject_Z. cbn [Qnum Qden].
  rewrite Pos.mul_1_r.
  destruct (Z.compare_spec (((Zpos b * q + r) * 1 + - q * Zpos b) * 2) (1 * Zpos b));
    destruct (Z.compare_spec (2 * r) (Zpos b)); try reflexivity; lia.
Qed.

Lemma Qround_half_even_Z z : Qround_half_even (inject_Z z) = z.
Proof.
  change (inject_Z z) with (z # 1)%Q. rewrite Qround_half_even_frac.
  rewrite Z.mod_1_r, Z.div_1_r. reflexivity.
Qed.

Lemma N_even_Z n : Z.even (Z.of_N n) = N.even n.
Proof. destruct n as [|[p|p|]]; reflexivity. Qed.

(** The context's ROUND_HALF_EVEN on coefficients is round-half-even of the
    exact quotient. *)
Lemma round_half_even_Q (c : N) (k : Z) (P : positive) :
  10 ^ k = Zpos P ->
  Z.of_N (fst (round_half_even c k)) = Qround_half_even (Z.of_N c # P).
Proof.
  intros HP. rewrite Qround_half_even_frac. unfold round_half_even.
  assert (Hk : 0 <= k).
  { destruct (Z.lt_ge_cases k 0) as [Hneg|]; [|assumption].
    rewrite Z.pow_neg_r in HP by assumption. discriminate. }
  assert (Hp : Z.of_N (10 ^ Z.to_N k) = Zpos P).
  { rewrite N2Z.inj_pow, Z2N.id by assumption. exact HP. }
  set (p := (10 ^ Z.to_N k)%N) in *.
  rewrite <- Hp, <- N2Z.inj_mod, <- N2Z.inj_div.
  destruct (N.compare_spec (2 * (c mod p)) p) as [E|E|E];
    destruct (Z.compare_spec (2 * Z.of_N (c mod p)) (Z.of_N p)) as [E'|E'|E'];
    cbn [fst]; try lia.
  rewrite N_even_Z. destruct (N.even (c / p)); cbn [fst]; lia.
Qed.

Lemma Qpower10_nonneg k : 0 <= k -> Qeq (Qpower (inject_Z 10) k) (inject_Z (10 ^ k)).
Proof. intros Hk. symmetry. now apply Zpower_Qpower. Qed.

Lemma Qpower10_pos k : (0 < Qpower (inject_Z 10) k)%Q.
Proof. apply Qpower_0_lt. reflexivity. Qed.

Lemma scaled_value_fin s c e d :
  0 <= d ->
  Qeq (scaled_value (Fin s c e) d)
      (inject_Z (Z.of_N (c * 10 ^ Z.to_N d)) * Qpower (inject_Z 10) e).
Proof.
  intros Hd. unfold scaled_value, dvalue.
  set (m := (inject_Z (Z.of_N c) * Qpower (inject_Z 10) e)%Q).
  assert (Hm : (0 <= m)%Q).
  { apply Qmult_le_0_compat.
    - change 0%Q with (inject_Z 0). rewrite <- Zle_Qle. lia.
    - apply Qlt_le_weak, Qpower10_pos. }
  assert (Habs : Qeq (Qabs (if s then (- m)%Q else m)) m).
  { destruct s; [rewrite Qabs_opp|]; now apply Qabs_pos. }
  rewrite Habs. unfold m.
  rewrite N2Z.inj_mul, N2Z.inj_pow, Z2N.id by assumption.
  rewrite inject_Z_mult. change (Z.of_N 10) with 10.
  rewrite (Qpower10_nonneg d Hd). ring.
Qed.

(** The integer rendered by the encoder is the round-half-even of the exact
    scaled magnitude, when every intermediate result fits the 28 digits of
    the context. *)
Lemma scaled_int_half_even s c e d :
  0 <= d -> Etiny <= e ->
  (c * 10 ^ Z.to_N (d + Z.max e 0) < 10 ^ 28)%N ->
  scaled_int (Fin s c e) d
  = Ok (Qround_half_even (scaled_value (Fin s c e) d)).
Proof.
  intros Hd He Hc. rewrite (scaled_int_exact s c e d Hd He Hc). f_equal.
  rewrite (Qround_half_even_comp _ _ (scaled_value_fin s c e d Hd)).
  set (C := (c * 10 ^ Z.to_N d)%N).
  destruct (Z.leb_spec 0 e) as [Hpos|Hneg].
  - rewrite (Qround_half_even_comp _ (inject_Z (Z.of_N (C * 10 ^ Z.to_N e)))).
    + now rewrite Qround_half_even_Z.
    + rewrite (Qpower10_nonneg e Hpos), <- inject_Z_mult.
      rewrite N2Z.inj_mul, N2Z.inj_pow, Z2N.id by assumption. reflexivity.
  - assert (H10 : 0 < 10 ^ (- e)) by (apply Z.pow_pos_nonneg; lia).
    destruct (10 ^ (- e)) as [|P|P] eqn:HP; try lia.
    rewrite (round_half_even_Q C (- e) P HP).
    apply Qround_half_even_comp.
    rewrite (Qmake_Qdiv (Z.of_N C) P). unfold Qdiv.
    apply Qmult_comp; [reflexivity|].
    rewrite <- HP, <- (Qpower10_nonneg (- e)) by lia.
    rewrite Qpower_opp, Qinv_involutive. reflexivity.
Qed.

End Rounding.

(** C4 (as amended) -- The encoder scales the absolute value by
    [10^decimals] and rounds to the nearest integer with ROUND_HALF_EVEN, the
    default of the decimal context: a tie goes to the even neighbour.  The
    arithmetic is exact for every amount whose scaled coefficient fits the 28
    digits of the context and whose exponent is not below [Etiny]. *)
Theorem encoder_rounds_half_even s c e decimals :
  (0 <= decimals)%Z -> (Etiny <= e)%Z ->
  (c * 10 ^ Z.to_N (decimals + Z.max e 0) < 10 ^ 28)%N ->
  let n := Qround_half_even (scaled_value (Fin s c e) decimals) in
  scaled_int (Fin s c e) decimals = Ok n
  /\ forall width,
      cfonb_encode_amount (Fin s c e) decimals width =
      if (width <? len (format_d n))%Z
      then Raise (ValueError_AmountTooLarge width (format_d n))
      else
        let digits := rjust (format_d n) width (chr "0") in
        d <- last_char digits ;;
        x <- lookup (table (negb s || (c =? 0)%N)) d ;;
        Ok (removelast digits ++ [x]).
Proof.
  intros Hd He Hc n.
  pose proof (scaled_int_half_even s c e decimals Hd He Hc) as Hn. fold n in Hn.
  split; [exact Hn|]. intros width.
  unfold cfonb_encode_amount. cbn [ge_zero bind]. rewrite Hn. cbn [bind].
  destruct (width <? len (format_d n))%Z; [reflexivity|].
  cbv zeta. destruct (negb s || (c =? 0)%N); reflexivity.
Qed.

Lemma encoder_rounds_half_even_witness :
  scaled_int (Fin false 125 (-3)) 2
  = Ok (Qround_half_even (scaled_value (Fin false 125 (-3)) 2))
  /\ Qround_half_even (scaled_value (Fin false 125 (-3)) 2) = 12%Z.
Proof.
  split; [|vm_compute; reflexivity].
  apply (encoder_rounds_half_even false 125 (-3) 2).
  - lia.
  - vm_compute. discriminate.
  - vm_compute. reflexivity.
Defined.

(** C4 as stated fails: 0.125 scaled by 100 is the tie 12.5, round-half-up
    gives 13, the encoder renders 12. *)
Lemma half_up_counterexample :
  scaled_int (Fin false 125 (-3)) 2 = Ok 12%Z
  /\ Qround_half_up (scaled_value (Fin false 125 (-3)) 2) = 13%Z
  /\ cfonb_encode_amount (Fin false 125 (-3)) 2 AMOUNT_WIDTH
     = Ok (lit "0000000000001B")
  /\ scaled_int (Fin false 125 (-3)) 2
     <> Ok (Qround_half_up (scaled_value (Fin false 125 (-3)) 2)).
Proof.
  repeat split; try (vm_compute; reflexivity).
  vm_compute. discriminate.
Qed.

(** ** Fields of a line *)

Lemma slice_to_length s n : (0 <= n)%Z -> (len (slice_to s n) <= n)%Z.
Proof.
  intros Hn. unfold slice_to, len. destruct (Z.ltb_spec n 0); [lia|].
  rewrite length_firstn. lia.
Qed.

Lemma slice_to_long s n :
  (0 <= n)%Z -> (n <= len s)%Z -> slice_to s n = firstn (Z.to_nat n) s
                                  /\ len (slice_to s n) = n.
Proof.
  intros Hn Hl. unfold slice_to, len in *. destruct (Z.ltb_spec n 0); [lia|].
  split; [reflexivity|]. rewrite length_firstn. lia.
Qed.

Lemma put_value_length start end_ value right :
  start <= end_ -> length (put_value start end_ value right) = end_ - start.
Proof.
  intros H. unfold put_value.
  pose proof (slice_to_length value (Z.of_nat end_ - Z.of_nat start) ltac:(lia)) as Hl.
  destruct right.
  - pose proof (rjust_length _ _ (chr " ") Hl) as E. unfold len in E. lia.
  - pose proof (ljust_length _ _ (chr " ") Hl) as E. unfold len in E. lia.
Qed.

Lemma put_eq line start end_ value right :
  start <= end_ ->
  put line start end_ value right
  = firstn start line ++ put_value start end_ value right ++ skipn end_ line.
Proof.
  intros H. unfold put, put_value. rewrite Nat.max_r by assumption.
  now destruct right.
Qed.

Lemma put_length line start end_ value right :
  start <= end_ <= length line ->
  length (put line start end_ value right) = length line.
Proof.
  intros H. rewrite put_eq by lia.
  rewrite !length_app, length_firstn, length_skipn, put_value_length by lia.
  lia.
Qed.

Lemma put_length_120 line start end_ value right :
  length line = 120 -> start <= end_ <= 120 ->
  length (put line start end_ value right) = 120.
Proof. intros Hl H. rewrite put_length; lia. Qed.

(** The field [put] wrote reads back as the text it was given, cut and
    justified. *)
Lemma field_put line start end_ value right :
  start <= end_ <= length line ->
  field (put line start end_ value right) start end_
  = put_value start end_ value right.
Proof.
  intros H. unfold field, slice. rewrite put_eq by lia.
  assert (Ha : length (firstn start line) = start)
    by (rewrite length_firstn; lia).
  pose proof (put_value_length start end_ value right ltac:(lia)) as Hv.
  rewrite app_assoc, firstn_app.
  rewrite length_app, Ha, Hv.
  replace (end_ - (start + (end_ - start))) with 0 by lia.
  rewrite firstn_O, app_nil_r.
  rewrite firstn_all2 by (rewrite length_app; lia).
  rewrite skipn_app, Ha, Nat.sub_diag. cbn [skipn].
  rewrite skipn_all2 by lia. reflexivity.
Qed.

Lemma build_line_length
  rec_type bank_code branch_code account_number
  date_ddmmyy amount_str name ref comp_type comp_info :
  length (build_line rec_type bank_code branch_code account_number
            date_ddmmyy amount_str name ref comp_type comp_info) = 120.
Proof.
  unfold build_line.
  destruct (str_eqb rec_type (lit "05")); destruct amount_str;
    repeat (apply put_length_120; [|lia]);
    apply repeat_length.
Qed.

(** ** Width of the emitted lines *)

Section Width.

Variable Decimal_ : pystr -> option Decimal.
Variables bank_code branch_code account_number : pystr.

Let wide (l : pystr) : Prop := length l = 120.

Lemma transaction_lines_length seq tx ls :
  transaction_lines bank_code branch_code account_number seq tx = Ok ls ->
  Forall wide ls.
Proof.
  unfold transaction_lines. intros H. inv_bind H.
  destruct (31 <? len (tx_label tx))%Z; apply Ok_inj in H; subst ls;
    repeat (apply Forall_cons; [apply build_line_length|]); apply Forall_nil.
Qed.

Lemma all_transaction_lines_length txs : forall seq ls,
  all_transaction_lines bank_code branch_code account_number seq txs = Ok ls ->
  Forall wide ls.
Proof.
  induction txs as [|tx txs IH]; intros seq ls H; cbn in H.
  - injection H as <-. constructor.
  - inv_bind H. inv_bind H. injection H as <-.
    apply Forall_app. split.
    + eapply transaction_lines_length; eassumption.
    + eapply IH; eassumption.
Qed.

Lemma statement_lines_length mode rows lines :
  statement_lines Decimal_ bank_code branch_code account_number mode rows
  = Ok lines ->
  Forall wide lines.
Proof.
  unfold statement_lines. intros H. inv_bind H. destruct v as [ob txs].
  destruct txs as [|t txs]; [discriminate|].
  inv_bind H. destruct v as [start_balance end_balance].
  inv_bind H. inv_bind H. inv_bind H. apply Ok_inj in H. subst lines.
  apply Forall_app. split.
  { apply Forall_cons; [apply build_line_length|apply Forall_nil]. }
  apply Forall_app. split.
  - eapply all_transaction_lines_length; eassumption.
  - apply Forall_cons; [apply build_line_length|apply Forall_nil].
Qed.

Lemma write_lines_written lines :
  Forall (fun w => exists line, w = line ++ [10%N] /\ length line = CFONB_WIDTH)
         (fst (write_lines lines)).
Proof.
  induction lines as [|l lines IH]; cbn [write_lines]; [constructor|].
  destruct (Nat.eqb_spec (length l) CFONB_WIDTH) as [E|E]; cbn [negb];
    [|constructor].
  destruct (forallb (fun c => (c <? 256)%N) l); [|constructor].
  destruct (write_lines lines) as [written e]. cbn [fst] in *.
  constructor; [|exact IH]. now exists l.
Qed.

Lemma write_lines_no_length_error lines n :
  Forall wide lines ->
  snd (write_lines lines) <> Some (ValueError_LineLength n).
Proof.
  induction 1 as [|l lines Hl _ IH]; cbn [write_lines]; [discriminate|].
  unfold wide in Hl. unfold CFONB_WIDTH. rewrite Hl. cbn [Nat.eqb negb].
  destruct (forallb (fun c => (c <? 256)%N) l); [|discriminate].
  destruct (write_lines lines) as [written e]. exact IH.
Qed.

End Width.

(** C2 -- Width invariant.  Whatever the record type and the field values,
    [build_line] returns a line of exactly 120 characters; every line that
    [main] writes to the output file is 120 characters long (followed by its
    newline); the lines handed to the writing loop are all 120 characters
    long, so its length check never fires. *)
Theorem width_invariant :
  (forall rec_type bank_code branch_code account_number
          date_ddmmyy amount_str name ref comp_type comp_info,
      length (build_line rec_type bank_code branch_code account_number
                date_ddmmyy amount_str name ref comp_type comp_info)
      = CFONB_WIDTH)
  /\ (forall Decimal_ bank_code branch_code account_number mode rows,
        Forall (fun w => exists line,
                    w = line ++ [10%N] /\ length line = CFONB_WIDTH)
               (fst (main Decimal_ bank_code branch_code account_number
                          mode rows))
        /\ match statement_lines Decimal_ bank_code branch_code account_number
                                 mode rows with
           | Ok lines =>
               Forall (fun line => length line = CFONB_WIDTH) lines
               /\ forall n,
                   snd (write_lines lines) <> Some (ValueError_LineLength n)
           | Raise _ => True
           end).
Proof.
  split; [exact build_line_length|].
  intros Decimal_ bank_code branch_code account_number mode rows.
  unfold main.
  destruct (statement_lines _ _ _ _ mode rows) as [lines|e] eqn:E.
  - pose proof (statement_lines_length _ _ _ _ _ _ _ E) as Hl.
    split; [apply write_lines_written|]. split; [exact Hl|].
    intros n. now apply write_lines_no_length_error.
  - split; [constructor|exact I].
Qed.

(** ** Truncation of over-long field values *)

Lemma rjust_long s width fill : (width <= len s)%Z -> rjust s width fill = s.
Proof.
  intros H. unfold rjust. replace (Z.to_nat (width - len s)) with 0 by lia.
  reflexivity.
Qed.

Lemma ljust_long s width fill : (width <= len s)%Z -> ljust s width fill = s.
Proof.
  intros H. unfold ljust. replace (Z.to_nat (width - len s)) with 0 by lia.
  cbn [repeat]. apply app_nil_r.
Qed.

Lemma put_value_long start width value right :
  width <= length value ->
  put_value start (start + width) value right = firstn width value.
Proof.
  intros H. unfold put_value.
  replace (Z.of_nat (start + width) - Z.of_nat start)%Z with (Z.of_nat width) by lia.
  destruct (slice_to_long value (Z.of_nat width)) as [E L];
    [lia|unfold len; lia|].
  rewrite Nat2Z.id in E.
  destruct right; [rewrite rjust_long|rewrite ljust_long]; try lia; exact E.
Qed.

(** C9 (as amended) -- A value longer than its field is cut without error and
    the leftmost characters are kept, whatever the alignment: [put] of
    [build_line] keeps [value[:width]] for "left" and for "right", and so do
    [pad_right] and [pad_left]. *)
Theorem truncation_keeps_leftmost (value : pystr) (width : nat) :
  0 < width < length value ->
  (forall line start right,
      start + width <= length line ->
      field (put line start (start + width) value right) start (start + width)
      = firstn width value)
  /\ (forall fill,
        pad_left (Some value) (Z.of_nat width) fill = firstn width value
        /\ pad_right (Some value) (Z.of_nat width) fill = firstn width value).
Proof.
  intros H. split.
  - intros line start right Hl. rewrite field_put by lia.
    apply put_value_long. lia.
  - intros fill. unfold pad_left, pad_right, str_or_empty.
    rewrite rjust_long, ljust_long by (unfold len; lia).
    destruct (slice_to_long value (Z.of_nat width)) as [E _];
      [lia|unfold len; lia|].
    rewrite Nat2Z.id in E. now split.
Qed.

Lemma truncation_keeps_leftmost_witness :
  field (put (repeat (chr " ") 120) 90 104 (lit "123456789012345") true) 90 104
  = lit "12345678901234".
Proof.
  apply (proj1 (truncation_keeps_leftmost (lit "123456789012345") 14
                  ltac:(cbn; lia))
           (repeat (chr " ") 120) 90 true).
  cbn. lia.
Defined.

(** C9 as stated fails for right-aligned fields: a 15-character amount in
    the 14-character amount field keeps its first 14 characters, not its
    last 14; [pad_left] cuts on the same side. *)
Lemma right_truncation_counterexample :
  let line := build_line (lit "01") [] [] [] [] (lit "123456789012345")
                [] [] [] [] in
  field line 90 104 = lit "12345678901234"
  /\ field line 90 104 <> skipn 1 (lit "123456789012345")
  /\ pad_left (Some (lit "ABC")) 2 (chr " ") = lit "AB"
  /\ pad_left (Some (lit "ABC")) 2 (chr " ") <> skipn 1 (lit "ABC").
Proof.
  cbv zeta. repeat split; try (vm_compute; reflexivity); vm_compute; discriminate.
Qed.

(** ** Which exceptions the encoder raises *)

Lemma fix_raises d e : fix_ d = Raise e -> e = Overflow.
Proof.
  destruct d as [s c x|s|s g]; cbn [fix_]; try discriminate.
  destruct c as [|p]; [discriminate|]. cbv zeta.
  destruct (Etop <? _)%Z; [now intros [= <-]|].
  destruct (x <? _)%Z; [|discriminate].
  destruct (round_half_even _ _) as [coeff changed].
  destruct (changed && _); destruct (Etop <? _)%Z; try discriminate;
    now intros [= <-].
Qed.

Lemma dabs_raises d e : dabs d = Raise e -> arithmetic_error e = true.
Proof.
  destruct d as [s c x|s|s [|]]; cbn [dabs]; try discriminate.
  - intros H. apply fix_raises in H. now subst.
  - now intros [= <-].
Qed.

Lemma check_nans_raises a b e : check_nans a b = Raise e -> e = InvalidOperation.
Proof.
  destruct a as [? ? ?|?|? [|]], b as [? ? ?|?|? [|]]; cbn;
    try discriminate; now intros [= <-].
Qed.

Lemma dmul_raises a b e : dmul a b = Raise e -> arithmetic_error e = true.
Proof.
  unfold dmul. intros H. apply bind_raise in H. destruct H as [H|(n & Hn & H)].
  - apply check_nans_raises in H. now subst.
  - destruct n; [discriminate|].
    destruct a as [s c x|s|s g], b as [s' c' x'|s'|s' g'];
      try (apply fix_raises in H; now subst);
      try (destruct (is_zero _); [injection H as <-; reflexivity|discriminate]).
Qed.

Lemma quantize_raises d x e : quantize d x = Raise e -> arithmetic_error e = true.
Proof.
  destruct d as [s c y|s|s [|]]; cbn [quantize]; try discriminate;
    try (now intros [= <-]).
  destruct (_ || _); [now intros [= <-]|].
  destruct (c =? 0)%N; [intros H; apply fix_raises in H; now subst|].
  destruct (Emax <? _)%Z; [now intros [= <-]|].
  destruct (prec <? _)%Z; [now intros [= <-]|].
  destruct (rescale _ _) as [s' c' y'|?|? ?]; [|discriminate|discriminate].
  destruct (Emax <? _)%Z; [now intros [= <-]|].
  destruct (prec <? _)%Z; [now intros [= <-]|].
  intros H; apply fix_raises in H; now subst.
Qed.

Lemma to_int_raises d e : to_int d = Raise e -> arithmetic_error e = true.
Proof. destruct d; cbn; try discriminate; now intros [= <-]. Qed.

Lemma scaled_int_raises amount decimals e :
  scaled_int amount decimals = Raise e -> arithmetic_error e = true.
Proof.
  unfold scaled_int. intros H.
  apply bind_raise in H. destruct H as [H|(a & _ & H)]; [eapply dabs_raises; eauto|].
  apply bind_raise in H. destruct H as [H|(p & _ & H)].
  { unfold pow10 in H. destruct (decimals <? 0)%Z; [|discriminate].
    now injection H as <-. }
  apply bind_raise in H. destruct H as [H|(m & _ & H)]; [eapply dmul_raises; eauto|].
  apply bind_raise in H. destruct H as [H|(q & _ & H)];
    [eapply quantize_raises; eauto|eapply to_int_raises; eauto].
Qed.

Lemma ge_zero_raises d e : ge_zero d = Raise e -> e = InvalidOperation.
Proof. destruct d; cbn; try discriminate; now intros [= <-]. Qed.

(** The encoder raises its own [ValueError] exactly when the scaling went
    through and the digit string is longer than the field. *)
Lemma encode_too_large amount decimals width digits :
  cfonb_encode_amount amount decimals width
  = Raise (ValueError_AmountTooLarge width digits)
  <-> exists nonneg n,
        ge_zero amount = Ok nonneg /\ scaled_int amount decimals = Ok n
        /\ digits = format_d n /\ (width < len (format_d n))%Z.
Proof.
  unfold cfonb_encode_amount. split.
  - intros H. apply bind_raise in H. destruct H as [H|(nonneg & Hge & H)].
    { apply ge_zero_raises in H. discriminate. }
    apply bind_raise in H. destruct H as [H|(n & Hn & H)].
    { apply scaled_int_raises in H. discriminate. }
    exists nonneg, n. destruct (Z.ltb_spec width (len (format_d n))) as [Hw|Hw].
    + injection H as <-. auto.
    + exfalso. apply bind_raise in H. destruct H as [H|(d & Hd & H)].
      { unfold last_char in H. destruct (rjust _ _ _); discriminate. }
      apply bind_raise in H. destruct H as [H|(c & _ & H)]; [|discriminate].
      pose proof (scaled_int_nonneg _ _ _ _ Hge Hn) as Hpos.
      destruct (format_d_digits n Hpos) as [Hall Hne].
      apply last_char_ok in Hd. destruct Hd as [Hne' ->].
      assert (Hdig : is_ascii_digit (last (rjust (format_d n) width (chr "0")) 0%N)
                     = true).
      { apply Forall_last; [apply rjust_zero_digits; exact Hall|exact Hne']. }
      destruct (table_round_trip _ nonneg Hdig) as (c & Hc & _).
      match type of H with
      | _ = ?r =>
          assert (H' : lookup (table nonneg)
                         (last (rjust (format_d n) width (chr "0")) 0%N) = r)
            by (destruct nonneg; exact H)
      end.
      congruence.
  - intros (nonneg & n & Hge & Hn & -> & Hw).
    rewrite Hge. cbn [bind]. rewrite Hn. cbn [bind].
    destruct (Z.ltb_spec width (len (format_d n))); [reflexivity|lia].
Qed.

Lemma removelast_length {A} (l : list A) : l <> [] -> length (removelast l) = length l - 1.
Proof.
  intros H. destruct (exists_last H) as (l' & a & ->).
  rewrite removelast_last, length_app. cbn. lia.
Qed.

(** A successful encoding carries every digit of the scaled integer. *)
Lemma encode_keeps_digits amount decimals width s :
  cfonb_encode_amount amount decimals width = Ok s ->
  exists n d sign,
    scaled_int amount decimals = Ok n /\ (0 <= n)%Z
    /\ (len (format_d n) <= width)%Z /\ len s = width
    /\ overpunch_decode (last s 0%N) = Some (d, sign)
    /\ N_of_digits (removelast s ++ [d]) = Z.to_N n.
Proof.
  intros H.
  destruct (encode_ok_inv _ _ _ _ H)
    as (nonneg & n & d & c & Hge & Hn & Hpos & Hw & Hd & Hdig & Hc & ->).
  exists n, d, nonneg.
  apply last_char_ok in Hd. destruct Hd as [Hne Hd].
  set (digits := rjust (format_d n) width (chr "0")) in *.
  repeat split; try assumption.
  - unfold len. rewrite length_app, removelast_length by assumption. cbn [length].
    pose proof (rjust_length (format_d n) width (chr "0") Hw) as Hl.
    fold digits in Hl. unfold len in Hl.
    destruct digits; [congruence|cbn [length] in *; lia].
  - rewrite last_last.
    destruct (table_round_trip d nonneg Hdig) as (c' & Hc' & Hdec). congruence.
  - rewrite removelast_last, Hd, <- app_removelast_last by assumption.
    unfold digits. rewrite N_of_digits_rjust.
    unfold format_d. destruct (Z.ltb_spec n 0); [lia|]. apply str_of_N_spec.
Qed.

(** Emitting the records of a transaction fails only where the encoding of
    its amount fails, whatever the label. *)
Lemma transaction_lines_raises bank_code branch_code account_number seq tx e :
  transaction_lines bank_code branch_code account_number seq tx = Raise e
  <-> cfonb_encode_amount (tx_amount tx) 2 AMOUNT_WIDTH = Raise e.
Proof.
  unfold transaction_lines.
  destruct (cfonb_encode_amount (tx_amount tx) 2 AMOUNT_WIDTH) as [a|e'];
    cbn [bind]; [|split; intros [= ->]; reflexivity].
  destruct (31 <? len (tx_label tx))%Z; split; discriminate.
Qed.

(** ** Which exception, and when *)

Section Overflow.

Local Open Scope Z_scope.

Lemma quantize_raises_kind d x e :
  quantize d x = Raise e -> e = InvalidOperation \/ e = Overflow.
Proof.
  unfold quantize. destruct d as [s c ex|s|s [|]]; try discriminate;
    try (intros [= <-]; now left).
  destruct ((x <? Etiny) || (Emax <? x))%bool; [intros [= <-]; now left|].
  destruct (c =? 0)%N; [intros H; apply fix_raises in H; now right|].
  destruct (Emax <? adjusted c ex); [intros [= <-]; now left|].
  destruct (prec <? adjusted c ex - x + 1); [intros [= <-]; now left|].
  destruct (rescale (Fin s c ex) x) as [s' c' e'|?|? ?]; try discriminate.
  destruct (Emax <? adjusted c' e'); [intros [= <-]; now left|].
  destruct (prec <? ndigits c'); [intros [= <-]; now left|].
  intros H; apply fix_raises in H; now right.
Qed.

Lemma quantize_finite s c ex x r :
  quantize (Fin s c ex) x = Ok r -> is_finite r = true.
Proof.
  unfold quantize.
  destruct ((x <? Etiny) || (Emax <? x))%bool; [discriminate|].
  destruct (c =? 0)%N; [intros H; now apply fix_finite in H|].
  destruct (Emax <? adjusted c ex); [discriminate|].
  destruct (prec <? adjusted c ex - x + 1); [discriminate|].
  assert (R : exists c', rescale (Fin s c ex) x = Fin s c' x).
  { unfold rescale. destruct c; [eexists; reflexivity|].
    destruct (x <=? ex); eexists; reflexivity. }
  destruct R as (c' & ->).
  destruct (Emax <? adjusted c' x); [discriminate|].
  destruct (prec <? ndigits c'); [discriminate|].
  intros H; now apply fix_finite in H.
Qed.

(** With a number of decimal places that is not negative, the arithmetic of
    the encoder on an amount that is not a NaN fails only with the two
    exceptions the default context traps. *)
Lemma scaled_int_raises_kind amount decimals e :
  0 <= decimals -> (forall s g, amount <> NaN s g) ->
  scaled_int amount decimals = Raise e ->
  e = InvalidOperation \/ e = Overflow.
Proof.
  intros Hd Hnan H. unfold scaled_int in H.
  apply bind_raise in H. destruct H as [H|(a & Ha & H)].
  { destruct amount as [s c x|s|s g]; cbn [dabs] in H.
    - apply fix_raises in H. now right.
    - discriminate.
    - exfalso. now apply (Hnan s g). }
  rewrite (pow10_nonneg _ Hd) in H. cbn [bind] in H.
  assert (HP : (10 ^ Z.to_N decimals)%N <> 0%N) by (apply N.pow_nonzero; lia).
  destruct amount as [s c x|s|s g]; cbn [dabs] in Ha;
    [| |exfalso; now apply (Hnan s g)].
  - pose proof (fix_finite _ _ Ha) as Hf. cbn [is_finite] in Hf.
    destruct a as [sa ca ea|?|? ?]; try discriminate.
    rewrite dmul_fin in H.
    apply bind_raise in H. destruct H as [H|(m & Hm & H)].
    { apply fix_raises in H. now right. }
    pose proof (fix_finite _ _ Hm) as Hfm. cbn [is_finite] in Hfm.
    destruct m as [sm cm em|?|? ?]; try discriminate.
    apply bind_raise in H. destruct H as [H|(q & Hq & H)].
    { now apply quantize_raises_kind in H. }
    apply quantize_finite in Hq. destruct q; try discriminate.
  - apply Ok_inj in Ha. subst a.
    unfold dmul in H. cbn [check_nans bind dsign is_zero] in H.
    destruct (10 ^ Z.to_N decimals)%N; [congruence|].
    cbn [bind] in H. now left; injection H as <-.
Qed.

(** The encoder returns once the scaled integer fits the field. *)
Lemma encode_fits amount decimals width nonneg n :
  ge_zero amount = Ok nonneg -> scaled_int amount decimals = Ok n ->
  len (format_d n) <= width ->
  exists field, cfonb_encode_amount amount decimals width = Ok field.
Proof.
  intros Hge Hn Hw.
  pose proof (scaled_int_nonneg _ _ _ _ Hge Hn) as Hpos.
  destruct (format_d_digits n Hpos) as [Hall Hne].
  pose proof (rjust_nonempty _ width (chr "0") Hne) as Hne'.
  pose proof (Forall_last _ _ 0%N (rjust_zero_digits _ width Hall) Hne')
    as Hdig.
  destruct (table_round_trip _ nonneg Hdig) as (x & Hx & _).
  unfold cfonb_encode_amount. rewrite Hge. cbn [bind]. rewrite Hn. cbn [bind].
  destruct (Z.ltb_spec width (len (format_d n))); [lia|].
  assert (L : last_char (rjust (format_d n) width (chr "0"))
              = Ok (last (rjust (format_d n) width (chr "0")) 0%N)).
  { unfold last_char. destruct (rjust (format_d n) width (chr "0"));
      [congruence|reflexivity]. }
  rewrite L. cbn [bind]. cbv zeta. unfold table in Hx.
  destruct nonneg; cbv iota in Hx |- *;
    [change (0 <=? 1)%Z with true|change (0 <=? -1)%Z with false];
    cbv iota;
    match goal with
    | |- context [bind ?l _] => replace l with (Ok x) by (symmetry; exact Hx)
    end; cbn [bind]; eexists; reflexivity.
Qed.

(** Every failure of the encoder is loud and of one of three kinds. *)
Lemma encode_raises_kind amount decimals width e :
  0 <= decimals ->
  cfonb_encode_amount amount decimals width = Raise e ->
  (exists n, scaled_int amount decimals = Ok n
             /\ width < len (format_d n)
             /\ e = ValueError_AmountTooLarge width (format_d n))
  \/ e = InvalidOperation \/ e = Overflow.
Proof.
  intros Hd H.
  destruct (ge_zero amount) as [nonneg|e0] eqn:Hge.
  - destruct (scaled_int amount decimals) as [n|e1] eqn:Hn.
    + left. exists n.
      destruct (Z.ltb_spec width (len (format_d n))) as [Hw|Hw].
      * split; [reflexivity|]. split; [exact Hw|].
        assert (E : cfonb_encode_amount amount decimals width
                    = Raise (ValueError_AmountTooLarge width (format_d n))).
        { apply encode_too_large. exists nonneg, n. auto. }
        congruence.
      * exfalso.
        destruct (encode_fits amount decimals width nonneg n Hge Hn Hw)
          as (field & E).
        congruence.
    + right. apply (scaled_int_raises_kind amount decimals).
      * exact Hd.
      * intros s g ->. discriminate Hge.
      * unfold cfonb_encode_amount in H. rewrite Hge in H. cbn [bind] in H.
        rewrite Hn in H. cbn [bind] in H. now injection H as <-.
  - right. left. unfold cfonb_encode_amount in H. rewrite Hge in H.
    cbn [bind] in H. injection H as <-. now apply ge_zero_raises in Hge.
Qed.

(** A non-zero coefficient is at least the power of ten of its length. *)
Lemma ndigits_lower c : c <> 0%N -> (10 ^ Z.to_N (ndigits c - 1) <= c)%N.
Proof.
  intros Hc. unfold ndigits, len.
  destruct (str_of_N_spec c) as (_ & _ & _ & [H1|Hlo]).
  - rewrite H1. cbn. lia.
  - replace (Z.to_N (Z.of_nat (length (str_of_N c)) - 1))
      with (N.of_nat (length (str_of_N c) - 1)) by lia.
    exact Hlo.
Qed.

Lemma ndigits_ge c k : 0 <= k -> (10 ^ Z.to_N k <= c)%N -> k + 1 <= ndigits c.
Proof.
  intros Hk H. pose proof (ndigits_pos c) as Hp.
  destruct (Z.eq_dec k 0) as [->|Hk0]; [lia|].
  destruct (Z.lt_ge_cases k (ndigits c)) as [|Hge]; [lia|exfalso].
  apply (ndigits_le c k) in Hge; [lia|lia].
Qed.

Lemma round_half_even_lower c k :
  (c / 10 ^ Z.to_N k <= fst (round_half_even c k))%N.
Proof.
  unfold round_half_even. cbv zeta.
  destruct (2 * (c mod 10 ^ Z.to_N k) ?= 10 ^ Z.to_N k)%N;
    [destruct (N.even _)| |]; cbn [fst]; lia.
Qed.

(** Rounding to the context loses no leading digit: the position of the
    first digit of the result is not below that of the operand. *)
Lemma fix_keeps_magnitude s c e r :
  c <> 0%N -> Etiny <= e -> fix_ (Fin s c e) = Ok r ->
  exists c' e', r = Fin s c' e' /\ c' <> 0%N /\ e <= e'
                /\ e + ndigits c <= e' + ndigits c'.
Proof.
  intros Hc He H. unfold fix_ in H. destruct c as [|p]; [congruence|].
  cbv zeta in H. set (c := N.pos p) in *.
  set (n := ndigits c) in *.
  destruct (Etop <? n + e - prec); [discriminate|].
  destruct (Z.ltb_spec e (Z.max (n + e - prec) Etiny)) as [Hlt|Hge].
  - assert (Hn : 28 < n) by (unfold prec in *; lia).
    replace (Z.max (n + e - prec) Etiny) with (n + e - 28) in *
      by (unfold prec in *; lia).
    replace (n + e - 28 - e) with (n - 28) in * by lia.
    pose proof (round_half_even_lower c (n - 28)) as Hlo.
    pose proof (ndigits_lower c Hc) as Hc1. fold n in Hc1.
    assert (Hq : (10 ^ 27 <= c / 10 ^ Z.to_N (n - 28))%N).
    { apply N.div_le_lower_bound; [apply N.pow_nonzero; lia|].
      rewrite <- N.pow_add_r.
      replace (Z.to_N (n - 28) + 27)%N with (Z.to_N (n - 1)) by lia.
      exact Hc1. }
    destruct (round_half_even c (n - 28)) as [coeff changed]. cbn [fst] in Hlo.
    assert (Hcoeff : (10 ^ 27 <= coeff)%N) by lia.
    destruct (changed && (prec <? ndigits coeff))%bool eqn:Eb.
    + apply andb_prop in Eb. destruct Eb as [_ Eb]. apply Z.ltb_lt in Eb.
      unfold prec in Eb.
      assert (Hc28 : (10 ^ 28 <= coeff)%N).
      { destruct (N.le_gt_cases (10 ^ 28) coeff) as [|Hgt]; [assumption|].
        apply (ndigits_le coeff 28) in Hgt; lia. }
      destruct (Etop <? n + e - 28 + 1); [discriminate|].
      apply Ok_inj in H. subst r.
      assert (Hd10 : (10 ^ 27 <= coeff / 10)%N).
      { apply N.div_le_lower_bound; [lia|].
        change (10 * 10 ^ 27)%N with (10 ^ 28)%N. exact Hc28. }
      exists (coeff / 10)%N, (n + e - 28 + 1).
      split; [reflexivity|].
      split; [intros E; rewrite E in Hd10; vm_compute in Hd10; congruence|].
      split; [lia|].
      pose proof (ndigits_ge (coeff / 10) 27 ltac:(lia) Hd10). lia.
    + destruct (Etop <? n + e - 28); [discriminate|].
      apply Ok_inj in H. subst r.
      exists coeff, (n + e - 28).
      split; [reflexivity|].
      split; [intros E; rewrite E in Hcoeff; vm_compute in Hcoeff; congruence|].
      split; [lia|].
      pose proof (ndigits_ge coeff 27 ltac:(lia) Hcoeff). lia.
  - apply Ok_inj in H. subst r. exists c, e.
    split; [reflexivity|]. split; [discriminate|]. lia.
Qed.

Lemma ndigits_scaled c d :
  c <> 0%N -> 0 <= d -> ndigits c + d <= ndigits (c * 10 ^ Z.to_N d).
Proof.
  intros Hc Hd. pose proof (ndigits_lower c Hc) as Hlo.
  pose proof (ndigits_pos c) as Hp.
  assert (H : (10 ^ Z.to_N (ndigits c - 1 + d) <= c * 10 ^ Z.to_N d)%N).
  { replace (Z.to_N (ndigits c - 1 + d))
      with (Z.to_N (ndigits c - 1) + Z.to_N d)%N by lia.
    rewrite N.pow_add_r. apply N.mul_le_mono_r. exact Hlo. }
  pose proof (ndigits_ge _ (ndigits c - 1 + d) ltac:(lia) H). lia.
Qed.

(** A scaled magnitude of more than 28 digits, counted from the coefficient
    and the exponent. *)
Lemma scaled_int_beyond s c e d :
  0 <= d -> Etiny <= e -> c <> 0%N -> 28 < e + ndigits c + d ->
  scaled_int (Fin s c e) d = Raise InvalidOperation
  \/ scaled_int (Fin s c e) d = Raise Overflow.
Proof.
  intros Hd He Hc Hbig. unfold scaled_int. cbn [dabs].
  destruct (fix_ (Fin false c e)) as [a|e0] eqn:Ha;
    [|right; apply fix_raises in Ha; subst e0; reflexivity].
  destruct (fix_keeps_magnitude _ _ _ _ Hc He Ha)
    as (c1 & e1 & -> & Hc1 & He1 & Hm1).
  cbn [bind]. rewrite (pow10_nonneg _ Hd). cbn [bind].
  rewrite dmul_fin. cbn [xorb]. rewrite Z.add_0_r.
  assert (HP : (10 ^ Z.to_N d)%N <> 0%N) by (apply N.pow_nonzero; lia).
  assert (HC : (c1 * 10 ^ Z.to_N d)%N <> 0%N) by lia.
  destruct (fix_ (Fin false (c1 * 10 ^ Z.to_N d) e1)) as [m|e0] eqn:Hm;
    [|right; apply fix_raises in Hm; subst e0; reflexivity].
  assert (He1' : Etiny <= e1) by lia.
  destruct (fix_keeps_magnitude _ _ _ _ HC He1' Hm)
    as (c2 & e2 & -> & Hc2 & He2 & Hm2).
  pose proof (ndigits_scaled c1 d Hc1 Hd) as Hs.
  cbn [bind]. left. unfold quantize.
  replace ((0 <? Etiny) || (Emax <? 0))%bool with false by reflexivity.
  destruct (N.eqb_spec c2 0); [congruence|].
  destruct (Emax <? adjusted c2 e2); [reflexivity|].
  destruct (Z.ltb_spec prec (adjusted c2 e2 - 0 + 1)) as [|Hle]; [reflexivity|].
  unfold adjusted, prec in Hle. lia.
Qed.

(** The same, read on the exact value of the scaled magnitude. *)
Lemma scaled_value_beyond s c e d :
  0 <= d ->
  (inject_Z (10 ^ 28) <= scaled_value (Fin s c e) d)%Q ->
  c <> 0%N /\ 28 < e + ndigits c + d.
Proof.
  intros Hd H. rewrite (scaled_value_fin s c e d Hd) in H.
  assert (Hp : (0 < Qpower (inject_Z 10) e)%Q) by apply Qpower10_pos.
  split.
  - intros ->. rewrite N.mul_0_l in H. change (Z.of_N 0) with 0 in H.
    rewrite Qmult_0_l in H. apply (Qle_bool_iff (inject_Z (10 ^ 28)) 0) in H.
    discriminate H.
  - pose proof (ndigits_pos c) as Hn.
    assert (Hc : (c < 10 ^ Z.to_N (ndigits c))%N)
      by (apply (ndigits_le c (ndigits c)); lia).
    assert (HC : Z.of_N (c * 10 ^ Z.to_N d) < 10 ^ (ndigits c + d)).
    { rewrite N2Z.inj_mul, N2Z.inj_pow, Z2N.id by lia.
      rewrite Z.pow_add_r by lia. change (Z.of_N 10) with 10.
      apply Z.mul_lt_mono_pos_r; [apply Z.pow_pos_nonneg; lia|].
      apply N2Z.inj_lt in Hc. rewrite N2Z.inj_pow, Z2N.id in Hc by lia.
      exact Hc. }
    assert (HQ : (inject_Z (Z.of_N (c * 10 ^ Z.to_N d)) * Qpower (inject_Z 10) e
                  < Qpower (inject_Z 10) (ndigits c + d + e))%Q).
    { rewrite (Qpower_plus (inject_Z 10) (ndigits c + d) e) by discriminate.
      apply Qmult_lt_compat_r; [exact Hp|].
      rewrite (Qpower10_nonneg (ndigits c + d)) by lia.
      now rewrite <- Zlt_Qlt. }
    assert (H28 : (Qpower (inject_Z 10) 28
                   < Qpower (inject_Z 10) (ndigits c + d + e))%Q).
    { eapply Qle_lt_trans; [|exact HQ].
      rewrite (Qpower10_nonneg 28) by lia. exact H. }
    apply Qpower_lt_compat_l_inv in H28; [lia|reflexivity].
Qed.

(** The digit string of an integer that is not negative is longer than
    [width] exactly when the integer is at least [10^width]. *)
Lemma format_d_longer n width :
  0 <= n -> 1 <= width -> (width < len (format_d n) <-> 10 ^ width <= n).
Proof.
  intros Hn Hw. unfold format_d. destruct (Z.ltb_spec n 0) as [Hneg|_]; [lia|].
  fold (ndigits (Z.to_N n)).
  pose proof (ndigits_le (Z.to_N n) width Hw) as E.
  assert (P : Z.of_N (10 ^ Z.to_N width) = 10 ^ width)
    by (rewrite N2Z.inj_pow, Z2N.id by lia; reflexivity).
  split; intros Hlong.
  - destruct (Z.lt_ge_cases n (10 ^ width)) as [Hlt|]; [exfalso|assumption].
    assert (Hlt' : (Z.to_N n < 10 ^ Z.to_N width)%N) by lia.
    apply E in Hlt'. lia.
  - destruct (Z.lt_ge_cases width (ndigits (Z.to_N n))) as [|Hge];
      [assumption|exfalso].
    apply E in Hge. lia.
Qed.

End Overflow.

(** C3 (as amended) -- For a finite amount whose scaled coefficient fits the
    28 digits of the decimal context, the encoder raises its "Amount too
    large" ValueError exactly when the unsigned magnitude, scaled by
    [10^decimals] and rounded to an integer, has more digits than the field
    width, that is when this integer is at least [10^width]; below that it
    returns a field of exactly [width] characters that carries every digit of
    the integer.  For a finite amount whose scaled magnitude needs more than
    28 digits (it is at least [10^28]) the encoder fails with
    InvalidOperation or Overflow of the decimal library, whatever the width.
    For every amount, an encoder that fails raises one of these three
    exceptions, and an encoder that returns has dropped no digit.  The label
    of a transaction never makes the emission of its records fail. *)
Theorem amount_overflow :
  (forall s c e decimals width,
      (0 <= decimals)%Z -> (Etiny <= e)%Z -> (1 <= width)%Z ->
      (c * 10 ^ Z.to_N (decimals + Z.max e 0) < 10 ^ 28)%N ->
      let n := Qround_half_even (scaled_value (Fin s c e) decimals) in
      ((exists digits,
           cfonb_encode_amount (Fin s c e) decimals width
           = Raise (ValueError_AmountTooLarge width digits))
       <-> (10 ^ width <= n)%Z)
      /\ ((10 ^ width <= n)%Z ->
          cfonb_encode_amount (Fin s c e) decimals width
          = Raise (ValueError_AmountTooLarge width (format_d n)))
      /\ ((n < 10 ^ width)%Z ->
          exists field d sign,
            cfonb_encode_amount (Fin s c e) decimals width = Ok field
            /\ len field = width
            /\ overpunch_decode (last field 0%N) = Some (d, sign)
            /\ N_of_digits (removelast field ++ [d]) = Z.to_N n))
  /\ (forall s c e decimals width,
        (0 <= decimals)%Z -> (Etiny <= e)%Z ->
        (inject_Z (10 ^ 28) <= scaled_value (Fin s c e) decimals)%Q ->
        cfonb_encode_amount (Fin s c e) decimals width = Raise InvalidOperation
        \/ cfonb_encode_amount (Fin s c e) decimals width = Raise Overflow)
  /\ (forall amount decimals width e,
        (0 <= decimals)%Z ->
        cfonb_encode_amount amount decimals width = Raise e ->
        (exists n, scaled_int amount decimals = Ok n
                   /\ (width < len (format_d n))%Z
                   /\ e = ValueError_AmountTooLarge width (format_d n))
        \/ e = InvalidOperation \/ e = Overflow)
  /\ (forall amount decimals width field,
        cfonb_encode_amount amount decimals width = Ok field ->
        exists n d sign,
          scaled_int amount decimals = Ok n /\ (0 <= n)%Z
          /\ (len (format_d n) <= width)%Z /\ len field = width
          /\ overpunch_decode (last field 0%N) = Some (d, sign)
          /\ N_of_digits (removelast field ++ [d]) = Z.to_N n)
  /\ (forall amount bank_code branch_code account_number seq date label e,
        transaction_lines bank_code branch_code account_number seq
          (mktx date amount label) = Raise e
        <-> cfonb_encode_amount amount 2 AMOUNT_WIDTH = Raise e).
Proof.
  split; [|split; [|split; [|split]]].
  - intros s c e decimals width Hd He Hw Hc n.
    pose proof (scaled_int_half_even s c e decimals Hd He Hc) as Hn. fold n in Hn.
    assert (Hge : ge_zero (Fin s c e) = Ok (negb s || (c =? 0)%N)) by reflexivity.
    pose proof (scaled_int_nonneg _ _ _ _ Hge Hn) as Hpos.
    pose proof (format_d_longer n width Hpos Hw) as Hlen.
    assert (Hbig : (10 ^ width <= n)%Z ->
                   cfonb_encode_amount (Fin s c e) decimals width
                   = Raise (ValueError_AmountTooLarge width (format_d n))).
    { intros H. apply encode_too_large.
      exists (negb s || (c =? 0)%N), n. repeat split; try assumption.
      now apply Hlen. }
    split; [split|split].
    + intros (digits & H). apply encode_too_large in H.
      destruct H as (b & n' & _ & Hn' & _ & Hl).
      rewrite Hn in Hn'. apply Ok_inj in Hn'. subst n'. now apply Hlen.
    + intros H. eexists. now apply Hbig.
    + exact Hbig.
    + intros Hsmall.
      destruct (encode_fits (Fin s c e) decimals width _ n Hge Hn)
        as (field & E).
      { destruct (Z.le_gt_cases (len (format_d n)) width) as [|Hgt];
          [assumption|].
        apply Hlen in Hgt. lia. }
      destruct (encode_keeps_digits _ _ _ _ E)
        as (n' & d & sign & Hn' & _ & _ & Hl & Hdec & HN).
      rewrite Hn in Hn'. apply Ok_inj in Hn'. subst n'.
      exists field, d, sign. auto.
  - intros s c e decimals width Hd He H.
    destruct (scaled_value_beyond s c e decimals Hd H) as [Hc Hbig].
    unfold cfonb_encode_amount. cbn [ge_zero bind].
    destruct (scaled_int_beyond s c e decimals Hd He Hc Hbig) as [-> | ->];
      [now left|now right].
  - intros amount decimals width e. apply encode_raises_kind.
  - intros amount decimals width field. apply encode_keeps_digits.
  - intros. apply transaction_lines_raises.
Qed.

Lemma amount_overflow_witness :
  cfonb_encode_amount (Fin false 1 12) 2 14
  = Raise (ValueError_AmountTooLarge 14 (lit "100000000000000"))
  /\ (cfonb_encode_amount (Fin false 1 26) 2 14 = Raise InvalidOperation
      \/ cfonb_encode_amount (Fin false 1 26) 2 14 = Raise Overflow).
Proof.
  split.
  - destruct (proj1 amount_overflow false 1%N 12%Z 2%Z 14%Z) as (_ & H & _).
    + lia.
    + vm_compute. discriminate.
    + lia.
    + vm_compute. reflexivity.
    + apply H. vm_compute. discriminate.
  - apply (proj1 (proj2 amount_overflow) false 1%N 26%Z 2%Z 14%Z).
    + lia.
    + vm_compute. discriminate.
    + vm_compute. discriminate.
Defined.

(** C3 as stated fails: 1E26 scaled by 100 has 29 digits, more than the 14 of
    the field, and the encoder does not raise its ValueError: [quantize]
    raises InvalidOperation first. *)
Lemma amount_overflow_counterexample :
  cfonb_encode_amount (Fin false 1 26) 2 AMOUNT_WIDTH = Raise InvalidOperation
  /\ Qeq (scaled_value (Fin false 1 26) 2) (inject_Z (10 ^ 28))
  /\ (AMOUNT_WIDTH < ndigits (10 ^ 28))%Z
  /\ forall digits,
       cfonb_encode_amount (Fin false 1 26) 2 AMOUNT_WIDTH
       <> Raise (ValueError_AmountTooLarge AMOUNT_WIDTH digits).
Proof.
  assert (E : cfonb_encode_amount (Fin false 1 26) 2 AMOUNT_WIDTH
              = Raise InvalidOperation) by (vm_compute; reflexivity).
  split; [exact E|]. split; [vm_compute; reflexivity|].
  split; [vm_compute; reflexivity|].
  intros digits. rewrite E. discriminate.
Qed.

(** C7 -- the code at a failing input.  A sanitized label of 102 characters:
    the transaction gets one TRANSACTION record and a single continuation
    record, and the label fields of the two together hold the first 101
    characters only; the last character of the label is in no record. *)
Theorem long_label_is_cut :
  let label := repeat (chr "A") 101 ++ [chr "Z"] in
  let tx := mktx (mkdate 2024 1 2) (Fin true 95000 (-2)) label in
  sanitize_label label = label
  /\ exists l04 l05,
       transaction_lines (lit "30004") (lit "02231") (lit "00010173554") 1 tx
       = Ok [l04; l05]
       /\ field l04 0 2 = lit "04" /\ field l05 0 2 = lit "05"
       /\ field l04 48 79 ++ field l05 48 118 = firstn 101 label
       /\ field l04 48 79 ++ field l05 48 118 <> label.
Proof.
  cbv zeta. split; [vm_compute; reflexivity|].
  eexists. eexists. split; [vm_compute; reflexivity|].
  repeat split; try (vm_compute; reflexivity).
  vm_compute. discriminate.
Qed.

(** ** Reading amounts and rows *)

Section Reading.

Variable Decimal_ : pystr -> option Decimal.

Lemma parse_amount_blank raw :
  strip raw = [] -> parse_amount Decimal_ raw = Ok None.
Proof. unfold parse_amount. now intros ->. Qed.

Lemma parse_amount_text raw :
  strip raw <> [] ->
  parse_amount Decimal_ raw =
  match Decimal_ (amount_text raw) with
  | Some d => Ok (Some d)
  | None => Raise (ValueError_InvalidAmount raw)
  end.
Proof.
  unfold parse_amount, amount_text. intros H.
  destruct (strip raw); [congruence|reflexivity].
Qed.

Lemma parse_row_bad_amount st r :
  transaction_shaped r = true ->
  strip (cell (pad_row r) 4) <> [] ->
  Decimal_ (amount_text (cell (pad_row r) 4)) = None ->
  parse_row Decimal_ st r = Raise (ValueError_InvalidAmount (cell (pad_row r) 4)).
Proof.
  unfold transaction_shaped, parse_row. intros Hs Hb Hd.
  destruct r as [|c r]; [discriminate|]. cbn [is_nil negb andb] in Hs.
  rewrite Hs. rewrite andb_false_r. cbn [negb andb].
  rewrite parse_amount_text, Hd by assumption. reflexivity.
Qed.

Lemma parse_row_blank_amount st r :
  transaction_shaped r = true ->
  strip (cell (pad_row r) 4) = [] ->
  parse_row Decimal_ st r
  = Ok (mkstate true (opening_balance st) (transactions st)).
Proof.
  unfold transaction_shaped, parse_row. intros Hs Hb.
  destruct r as [|c r]; [discriminate|]. cbn [is_nil negb andb] in Hs.
  rewrite Hs. rewrite andb_false_r. cbn [negb andb].
  rewrite parse_amount_blank by assumption. reflexivity.
Qed.

Lemma parse_rows_app st pre post :
  parse_rows Decimal_ st (pre ++ post)
  = (st' <- parse_rows Decimal_ st pre ;; parse_rows Decimal_ st' post).
Proof.
  revert st. induction pre as [|r pre IH]; intros st; cbn; [reflexivity|].
  destruct (parse_row Decimal_ st r); cbn; [apply IH|reflexivity].
Qed.

Lemma parse_rows_fatal r rows :
  (forall st, is_ok (parse_row Decimal_ st r) = false) ->
  In r rows -> forall st, is_ok (parse_rows Decimal_ st rows) = false.
Proof.
  intros Hr. induction rows as [|x rows IH]; intros Hin st; [contradiction|].
  cbn [parse_rows]. destruct Hin as [->|Hin].
  - specialize (Hr st). destruct (parse_row Decimal_ st r); [discriminate|reflexivity].
  - destruct (parse_row Decimal_ st x); cbn [bind]; [now apply IH|reflexivity].
Qed.

End Reading.

(** C6 (as amended) -- For a row classified as a transaction row (its first
    cell matches the DD/MM/YYYY pattern): when the amount cell is not blank
    and the Decimal constructor refuses its normalized text, the row raises
    the "Invalid amount" ValueError, which is the outcome of the whole
    reading if the rows before it were read, and no list of rows holding
    such a row is read successfully.  When the amount cell is blank (empty or
    whitespace only) the row is skipped without an error. *)
Theorem invalid_amount_is_fatal
  (Decimal_ : pystr -> option Decimal) (r : row) :
  transaction_shaped r = true ->
  let raw := cell (pad_row r) 4 in
  (strip raw <> [] -> Decimal_ (amount_text raw) = None ->
   (forall st, parse_row Decimal_ st r = Raise (ValueError_InvalidAmount raw))
   /\ (forall pre post st,
         parse_rows Decimal_ (mkstate false None []) pre = Ok st ->
         parse_csv_transactions Decimal_ (pre ++ r :: post)
         = Raise (ValueError_InvalidAmount raw))
   /\ (forall rows, In r rows ->
         is_ok (parse_csv_transactions Decimal_ rows) = false))
  /\ (strip raw = [] ->
      forall st, parse_row Decimal_ st r
                 = Ok (mkstate true (opening_balance st) (transactions st))).
Proof.
  intros Hs raw. split.
  - intros Hb Hd.
    assert (Hrow : forall st,
               parse_row Decimal_ st r = Raise (ValueError_InvalidAmount raw))
      by (intros st; now apply parse_row_bad_amount).
    split; [exact Hrow|]. split.
    + intros pre post st Hpre. unfold parse_csv_transactions.
      rewrite parse_rows_app, Hpre. cbn [bind parse_rows].
      rewrite Hrow. reflexivity.
    + intros rows Hin. unfold parse_csv_transactions.
      pose proof (parse_rows_fatal Decimal_ r rows) as H.
      specialize (H (fun st => ltac:(rewrite Hrow; reflexivity)) Hin
                    (mkstate false None [])).
      destruct (parse_rows Decimal_ _ rows); [discriminate|reflexivity].
  - intros Hb st. now apply parse_row_blank_amount.
Qed.

Lemma invalid_amount_is_fatal_witness :
  parse_csv_transactions Decimal_of_str
    [ [lit "01/01/2024"; []; lit "Ref1"; lit "Coffee Shop"; lit "12,50"];
      [lit "02/01/2024"; []; lit "Ref2"; lit "Rent"; lit "12,5O"] ]
  = Raise (ValueError_InvalidAmount (lit "12,5O")).
Proof.
  apply (proj1 (proj2 (proj1
           (invalid_amount_is_fatal Decimal_of_str
              [lit "02/01/2024"; []; lit "Ref2"; lit "Rent"; lit "12,5O"]
              ltac:(vm_compute; reflexivity))
           ltac:(vm_compute; discriminate) ltac:(vm_compute; reflexivity)))
         [ [lit "01/01/2024"; []; lit "Ref1"; lit "Coffee Shop"; lit "12,50"] ]
         []
         (mkstate true None
            [mktx (mkdate 2024 1 1) (Fin false 1250 (-2))
                  (lit "REF1 COFFEE SHOP")])).
  vm_compute. reflexivity.
Defined.

(** C6 as stated fails: the second row is a transaction row whose amount cell
    is empty, which the Decimal constructor cannot parse; the reading succeeds
    and the row is in no transaction. *)
Lemma blank_amount_counterexample :
  let r := [lit "02/01/2024"; []; lit "Ref2"; lit "Rent"; []] in
  transaction_shaped r = true
  /\ Decimal_of_str (amount_text (cell (pad_row r) 4)) = None
  /\ parse_csv_transactions Decimal_of_str
       [ [lit "01/01/2024"; []; lit "Ref1"; lit "Coffee Shop"; lit "12,50"]; r ]
     = Ok (None, [mktx (mkdate 2024 1 1) (Fin false 1250 (-2))
                       (lit "REF1 COFFEE SHOP")]).
Proof.
  cbv zeta. split; [vm_compute; reflexivity|].
  split; vm_compute; reflexivity.
Qed.

(** C8 -- the code at a failing input.  After a transaction row, an
    account-summary row whose balance cell is not a number: the reading
    raises the "Invalid amount" ValueError and [main] writes nothing. *)
Theorem bad_opening_balance_raises :
  let rows :=
    [ [lit "01/01/2024"; []; lit "Ref1"; lit "Coffee Shop"; lit "12,50"];
      [lit "Compte"; []; []; lit "12/12/2025"; []; lit "abc"] ] in
  summary_shaped (nth 1 rows []) = true
  /\ parse_csv_transactions Decimal_of_str rows
     = Raise (ValueError_InvalidAmount (lit "abc"))
  /\ forall mode,
       main Decimal_of_str (lit "30004") (lit "02231") (lit "00010173554")
            mode rows
       = ([], Some (ValueError_InvalidAmount (lit "abc"))).
Proof.
  cbv zeta. split; [vm_compute; reflexivity|].
  split; [vm_compute; reflexivity|].
  intros []; vm_compute; reflexivity.
Qed.

(** ** Exact sums *)

Section Sums.

Local Open Scope Z_scope.

Variable k : Z.
Hypothesis Hk : 0 <= k <= - Etiny.

Lemma units_signed_at s c e m :
  - k <= m <= e -> signed_at s c e m * 10 ^ (m + k) = units k (Fin s c e).
Proof.
  intros H. unfold units, signed_at.
  replace (e - - k) with ((e - m) + (m + k)) by lia.
  rewrite (Z.pow_add_r 10 (e - m) (m + k)) by lia. destruct s; ring.
Qed.

Lemma at_scale_fin d :
  at_scale k d = true -> exists s c e, d = Fin s c e /\ - k <= e <= Etop.
Proof.
  destruct d as [s c e|?|? ?]; cbn; try discriminate.
  intros H. apply andb_prop in H. destruct H as [H1 H2].
  apply Z.leb_le in H1, H2. exists s, c, e. split; [reflexivity|lia].
Qed.

Lemma sum_units_cons d l : sum_units k (d :: l) = units k d + sum_units k l.
Proof. reflexivity. Qed.

Lemma sum_abs_units_cons d l :
  sum_abs_units k (d :: l) = Z.abs (units k d) + sum_abs_units k l.
Proof. reflexivity. Qed.

Lemma sum_abs_units_nonneg l : 0 <= sum_abs_units k l.
Proof.
  induction l as [|d l IH]; [reflexivity|]. rewrite sum_abs_units_cons. lia.
Qed.

(** An addition whose result fits the context is exact. *)
Lemma dadd_exact a b :
  at_scale k a = true -> at_scale k b = true ->
  Z.abs (units k a + units k b) < 10 ^ 28 ->
  exists r, dadd a b = Ok r /\ at_scale k r = true
            /\ units k r = units k a + units k b.
Proof.
  intros Ha Hb Hlt.
  destruct (at_scale_fin a Ha) as (s & c & e & -> & He).
  destruct (at_scale_fin b Hb) as (t & c' & e' & -> & He').
  unfold dadd. cbn [check_nans bind].
  set (m := Z.min e e').
  set (T := signed_at s c e m + signed_at t c' e' m).
  assert (Hm : - k <= m <= Etop) by (unfold m; lia).
  assert (HT : T * 10 ^ (m + k) = units k (Fin s c e) + units k (Fin t c' e')).
  { unfold T. rewrite Z.mul_add_distr_r, !units_signed_at by (unfold m; lia).
    reflexivity. }
  assert (Hp : 1 <= 10 ^ (m + k)).
  { assert (0 < 10 ^ (m + k)) by (apply Z.pow_pos_nonneg; lia). lia. }
  assert (HabsT : Z.abs T < 10 ^ 28).
  { rewrite <- HT, Z.abs_mul in Hlt. rewrite (Z.abs_eq (10 ^ (m + k))) in Hlt by lia.
    nia. }
  set (sign := if T =? 0 then match c, c' with 0%N, 0%N => s && t | _, _ => false end
               else T <? 0).
  exists (Fin sign (Z.abs_N T) m). split; [|split].
  - apply fix_exact.
    + apply N2Z.inj_lt. rewrite N2Z.inj_abs_N, N2Z.inj_pow. exact HabsT.
    + unfold Etiny, Emin, prec in *. lia.
  - unfold at_scale. apply andb_true_intro. split; apply Z.leb_le; lia.
  - rewrite <- HT. rewrite <- (units_signed_at sign (Z.abs_N T) m m) by lia.
    f_equal. unfold signed_at. rewrite Z.sub_diag, Z.pow_0_r, Z.mul_1_r.
    rewrite N2Z.inj_abs_N. unfold sign.
    destruct (Z.eqb_spec T 0) as [->|Hnz].
    + now destruct (match c, c' with 0%N, 0%N => s && t | _, _ => false end).
    + destruct (Z.ltb_spec T 0); lia.
Qed.

Lemma sum_from_exact l : forall acc,
  at_scale k acc = true -> Forall (fun d => at_scale k d = true) l ->
  Z.abs (units k acc) + sum_abs_units k l < 10 ^ 28 ->
  exists r, sum_from acc l = Ok r /\ at_scale k r = true
            /\ units k r = units k acc + sum_units k l.
Proof.
  induction l as [|d l IH]; intros acc Hacc Hall Hlt; cbn [sum_from].
  - exists acc. change (sum_units k []) with 0. repeat split; [assumption|lia].
  - inversion Hall as [|? ? Hd Hl]; subst.
    rewrite sum_abs_units_cons in Hlt. rewrite sum_units_cons.
    pose proof (sum_abs_units_nonneg l) as Hpos.
    destruct (dadd_exact acc d Hacc Hd) as (r & Hr & Hsr & Hur); [lia|].
    rewrite Hr. cbn [bind].
    destruct (IH r Hsr Hl) as (r' & Hr' & Hsr' & Hur'); [lia|].
    exists r'. repeat split; [assumption|assumption|lia].
Qed.

Lemma sum_amounts_exact l :
  Forall (fun d => at_scale k d = true) l ->
  sum_abs_units k l < 10 ^ 28 ->
  exists r, sum_amounts l = Ok r /\ at_scale k r = true
            /\ units k r = sum_units k l.
Proof.
  intros Hall Hlt. destruct l as [|d l]; cbn [sum_amounts].
  - eexists. split; [reflexivity|]. split; [|reflexivity].
    unfold at_scale, Decimal_of_int. apply andb_true_intro.
    unfold Etop, Emax, prec. split; apply Z.leb_le; lia.
  - inversion Hall as [|? ? Hd Hl]; subst.
    rewrite sum_abs_units_cons in Hlt. rewrite sum_units_cons.
    pose proof (sum_abs_units_nonneg l) as Hpos.
    assert (Hz : at_scale k (Decimal_of_int 0) = true).
    { unfold at_scale, Decimal_of_int. apply andb_true_intro.
      unfold Etop, Emax, prec. split; apply Z.leb_le; lia. }
    destruct (dadd_exact d (Decimal_of_int 0) Hd Hz) as (r & Hr & Hsr & Hur).
    { change (units k (Decimal_of_int 0)) with 0%Z. lia. }
    rewrite Hr. cbn [bind].
    assert (Hu0 : units k (Decimal_of_int 0) = 0) by reflexivity.
    destruct (sum_from_exact l r Hsr Hl) as (r' & Hr' & Hsr' & Hur'); [lia|].
    exists r'. repeat split; [assumption|assumption|lia].
Qed.

Lemma sum_units_bound l : Z.abs (sum_units k l) <= sum_abs_units k l.
Proof.
  induction l as [|d l IH]; [reflexivity|].
  rewrite sum_units_cons, sum_abs_units_cons. lia.
Qed.

Lemma copy_negate_units d : units k (copy_negate d) = - units k d.
Proof.
  destruct d as [s c e|?|? ?]; cbn; try reflexivity.
  unfold signed_at. destruct s; cbn [negb]; lia.
Qed.

Lemma copy_negate_at_scale d : at_scale k (copy_negate d) = at_scale k d.
Proof. now destruct d. Qed.

Lemma balances_exact mode ob txs :
  at_scale k (effective_opening ob) = true ->
  Forall (fun d => at_scale k d = true) (map tx_amount txs) ->
  Z.abs (units k (effective_opening ob))
  + sum_abs_units k (map tx_amount txs) < 10 ^ 28 ->
  exists s e,
    balances mode ob txs = Ok (s, e)
    /\ at_scale k s = true /\ at_scale k e = true
    /\ units k e = units k s + sum_units k (map tx_amount txs).
Proof.
  intros Hob Hall Hlt. unfold balances. fold (effective_opening ob).
  set (o := effective_opening ob) in *.
  set (l := map tx_amount txs) in *.
  pose proof (sum_units_bound l) as Hb.
  destruct (sum_amounts_exact l Hall) as (total & Ht & Hst & Hut); [lia|].
  rewrite Ht. cbn [bind].
  destruct mode.
  - destruct (dadd_exact o total Hob Hst) as (e & He & Hse & Hue); [lia|].
    rewrite He. cbn [bind]. exists o, e. repeat split; try assumption. lia.
  - unfold dsub.
    destruct (at_scale_fin o Hob) as (s1 & c1 & e1 & Eo & _).
    destruct (at_scale_fin total Hst) as (s2 & c2 & e2 & Et & _).
    rewrite Eo, Et. cbn [check_nans bind]. rewrite <- Eo, <- Et.
    destruct (dadd_exact o (copy_negate total) Hob) as (s & Hs & Hss & Hus).
    { now rewrite copy_negate_at_scale. }
    { rewrite copy_negate_units. lia. }
    rewrite Hs. cbn [bind]. exists s, o. repeat split; try assumption.
    rewrite copy_negate_units in Hus. lia.
Qed.

End Sums.

Section Values.

Variable k : Z.
Hypothesis Hk : (0 <= k)%Z.

Lemma dvalue_units d :
  at_scale k d = true ->
  Qeq (dvalue d) (inject_Z (units k d) * Qpower (inject_Z 10) (- k)).
Proof.
  destruct d as [s c e|?|? ?]; cbn [at_scale]; try discriminate.
  intros H. apply andb_prop in H. destruct H as [H _]. apply Z.leb_le in H.
  assert (E : Qeq (Qpower (inject_Z 10) e)
                  (inject_Z (10 ^ (e - - k)) * Qpower (inject_Z 10) (- k))).
  { rewrite <- Qpower10_nonneg by lia.
    rewrite <- Qpower_plus by discriminate.
    replace (e - - k + - k)%Z with e by lia. reflexivity. }
  unfold dvalue, units, signed_at. destruct s.
  - rewrite inject_Z_opp, inject_Z_mult, E. ring.
  - rewrite inject_Z_mult, E. ring.
Qed.

Lemma sum_values_units l :
  Forall (fun d => at_scale k d = true) l ->
  Qeq (sum_values l) (inject_Z (sum_units k l) * Qpower (inject_Z 10) (- k)).
Proof.
  induction 1 as [|d l Hd _ IH]; cbn [sum_values sum_units fold_right].
  - ring.
  - fold (sum_values l). fold (sum_units k l).
    rewrite inject_Z_plus, IH, (dvalue_units d Hd). ring.
Qed.

End Values.

(** C5 (as amended) -- In both balance modes, when the opening balance and
    every amount have at most [k] fractional digits and the sum of their
    magnitudes, counted in units of [10^-k], stays below [10^28] (the
    precision of the decimal context), [main] computes a start and an end
    balance such that the end balance is exactly the start balance plus the
    exact sum of the transaction amounts. *)
Theorem balance_closure (k : Z) mode ob txs :
  (0 <= k <= - Etiny)%Z ->
  at_scale k (effective_opening ob) = true ->
  Forall (fun d => at_scale k d = true) (map tx_amount txs) ->
  (Z.abs (units k (effective_opening ob))
   + sum_abs_units k (map tx_amount txs) < 10 ^ 28)%Z ->
  exists start_balance end_balance,
    balances mode ob txs = Ok (start_balance, end_balance)
    /\ is_finite start_balance = true /\ is_finite end_balance = true
    /\ units k end_balance
       = (units k start_balance + sum_units k (map tx_amount txs))%Z
    /\ Qeq (dvalue end_balance)
           (dvalue start_balance + sum_values (map tx_amount txs)).
Proof.
  intros Hk Hob Hall Hlt.
  destruct (balances_exact k Hk mode ob txs Hob Hall Hlt)
    as (s & e & Hb & Hs & He & Hu).
  exists s, e. split; [exact Hb|].
  assert (Hk0 : (0 <= k)%Z) by lia.
  split; [now destruct s|]. split; [now destruct e|]. split; [exact Hu|].
  rewrite (dvalue_units k e He), (dvalue_units k s Hs),
          (sum_values_units k _ Hall), Hu, inject_Z_plus.
  ring.
Qed.

Lemma balance_closure_witness :
  exists start_balance end_balance,
    balances closing (Some (Fin true 93750 (-2)))
      [mktx (mkdate 2024 1 1) (Fin false 1250 (-2)) (lit "A");
       mktx (mkdate 2024 1 2) (Fin true 9500 (-1)) (lit "B")]
    = Ok (start_balance, end_balance)
    /\ units 2 end_balance
       = (units 2 start_balance + (1250 + -95000))%Z.
Proof.
  destruct (balance_closure 2 closing (Some (Fin true 93750 (-2)))
              [mktx (mkdate 2024 1 1) (Fin false 1250 (-2)) (lit "A");
               mktx (mkdate 2024 1 2) (Fin true 9500 (-1)) (lit "B")])
    as (s & e & Hb & _ & _ & Hu & _).
  - vm_compute. split; discriminate.
  - vm_compute. reflexivity.
  - repeat constructor.
  - vm_compute. reflexivity.
  - exists s, e. split; [exact Hb|exact Hu].
Defined.

(** C5 as stated fails: with the amounts 0.005 and 1E-31 and no opening
    balance, the sum is rounded to the 28 digits of the context, the end
    balance is not the start balance plus the exact sum, and the closing
    record encodes 0 where the exact sum rounds to 1 at the scale of the
    field. *)
Lemma balance_closure_counterexample :
  let a1 := Fin false 5 (-3) in
  let a2 := Fin false 1 (-31) in
  let txs := [mktx (mkdate 2024 1 1) a1 (lit "A");
              mktx (mkdate 2024 1 2) a2 (lit "B")] in
  Decimal_of_str (lit "0.005") = Some a1
  /\ Decimal_of_str (lit "1E-31") = Some a2
  /\ exists end_balance,
       balances opening None txs = Ok (Fin false 0 (-2), end_balance)
       /\ ~ Qeq (dvalue end_balance)
                (dvalue (Fin false 0 (-2)) + sum_values (map tx_amount txs))
       /\ cfonb_encode_amount end_balance 2 AMOUNT_WIDTH
          = Ok (lit "0000000000000{")
       /\ Qround_half_even
            (Qabs (dvalue (Fin false 0 (-2)) + sum_values (map tx_amount txs))
             * inject_Z 100) = 1%Z.
Proof.
  cbv zeta. split; [vm_compute; reflexivity|]. split; [vm_compute; reflexivity|].
  eexists. split; [vm_compute; reflexivity|].
  split; [vm_compute; discriminate|].
  split; vm_compute; reflexivity.
Qed.

(** ** The label sanitizer *)

Section Sanitizer.

Lemma assoc_In {A} (t : list (N * A)) c l : assoc t c = Some l -> In (c, l) t.
Proof.
  induction t as [|[k v] t IH]; cbn; [discriminate|].
  destruct (N.eqb_spec k c) as [->|]; [intros [= ->]; now left|auto].
Qed.

Lemma upper_table_checked : upper_table_stable = true.
Proof. vm_compute. reflexivity. Qed.

Lemma stable_char_fixed d :
  stable_char d = true -> isspace d = false /\ sanitize_char d = [d].
Proof.
  unfold stable_char, sanitize_char, upper_char. intros H.
  apply andb_prop in H. destruct H as [H H3].
  apply andb_prop in H. destruct H as [H1 H2].
  split; [now apply negb_true_iff|].
  destruct (assoc upper_table d); [discriminate|].
  cbn. now rewrite H2.
Qed.

(** What the sanitizer makes of a character that is not whitespace: a
    non-empty run of stable characters. *)
Lemma sanitize_char_stable c :
  isspace c = false ->
  sanitize_char c <> [] /\ Forall (fun d => stable_char d = true) (sanitize_char c).
Proof.
  intros Hc. unfold sanitize_char, upper_char.
  destruct (assoc upper_table c) as [l|] eqn:E.
  - apply assoc_In in E.
    pose proof upper_table_checked as Hall. unfold upper_table_stable in Hall.
    rewrite forallb_forall in Hall. specialize (Hall _ E). cbn [snd] in Hall.
    apply andb_prop in Hall. destruct Hall as [Hne Hst]. split.
    + destruct l; [discriminate|]. discriminate.
    + apply Forall_forall. now apply forallb_forall.
  - split; [discriminate|]. cbn.
    constructor; [|constructor].
    destruct (N.ltb_spec c 256) as [Hlt|Hge].
    + unfold stable_char. rewrite Hc, E. cbn.
      apply andb_true_intro. split; [|reflexivity]. now apply N.ltb_lt.
    + reflexivity.
Qed.

Lemma sanitize_flat s : latin1_replace (upper s) = flat_map sanitize_char s.
Proof.
  unfold upper, latin1_replace, sanitize_char.
  induction s as [|c s IH]; [reflexivity|].
  cbn [flat_map]. rewrite map_app. f_equal. exact IH.
Qed.

Lemma flat_map_stable s :
  Forall (fun d => stable_char d = true \/ d = chr " ") s ->
  flat_map sanitize_char s = s.
Proof.
  induction 1 as [|d s Hd _ IH]; cbn [flat_map]; [reflexivity|].
  rewrite IH. destruct Hd as [Hd| ->].
  - now rewrite (proj2 (stable_char_fixed d Hd)).
  - reflexivity.
Qed.

(** *** Splitting and joining *)

Lemma split_ws_word cur w s :
  nonspace w -> split_ws cur (w ++ s) = split_ws (rev w ++ cur) s.
Proof.
  intros H. revert cur. induction H as [|c w Hc _ IH]; intros cur; [reflexivity|].
  cbn [app split_ws]. rewrite Hc, IH. cbn [rev]. now rewrite <- app_assoc.
Qed.

Lemma split_ws_join ws : forall cur,
  Forall word ws ->
  split_ws cur (join (lit " ") ws) =
  match ws with
  | [] => match cur with [] => [] | _ => [rev cur] end
  | w :: ws' => (rev cur ++ w) :: ws'
  end.
Proof.
  induction ws as [|w ws IH]; intros cur Hall; [reflexivity|].
  inversion Hall as [|? ? [Hne Hw] Hws]; subst.
  cbn [join]. destruct ws as [|w' ws'].
  - rewrite <- (app_nil_r w) at 1. rewrite split_ws_word by assumption.
    cbn [split_ws]. rewrite rev_app_distr, rev_involutive.
    destruct (rev w ++ cur) eqn:E; [|reflexivity].
    apply app_eq_nil in E. destruct E as [E _].
    apply (f_equal (@rev _)) in E. rewrite rev_involutive in E. now cbn in E.
  - rewrite split_ws_word by assumption.
    change (lit " " ++ join (lit " ") (w' :: ws'))
      with (32%N :: join (lit " ") (w' :: ws')).
    cbn [split_ws]. change (isspace 32%N) with true. cbv iota.
    rewrite (IH [] Hws). cbn [rev app].
    rewrite rev_app_distr, rev_involutive.
    destruct (rev w ++ cur) eqn:E; [|reflexivity].
    apply app_eq_nil in E. destruct E as [E _].
    apply (f_equal (@rev _)) in E. rewrite rev_involutive in E. now cbn in E.
Qed.

Lemma split_join ws : Forall word ws -> split (join (lit " ") ws) = ws.
Proof.
  intros H. unfold split. rewrite split_ws_join by assumption.
  now destruct ws.
Qed.

Lemma split_ws_words s : forall cur,
  nonspace cur -> Forall word (split_ws cur s).
Proof.
  induction s as [|c s IH]; intros cur Hcur; cbn [split_ws].
  - destruct cur as [|x cur]; [constructor|].
    constructor; [|constructor]. split.
    + intros E. apply (f_equal (@rev _)) in E. rewrite rev_involutive in E.
      discriminate.
    + unfold nonspace. apply Forall_rev. exact Hcur.
  - destruct (isspace c) eqn:Hc.
    + destruct cur as [|x cur]; [apply IH; constructor|].
      constructor; [|apply IH; constructor]. split.
      * intros E. apply (f_equal (@rev _)) in E. rewrite rev_involutive in E.
        discriminate.
      * unfold nonspace. apply Forall_rev. exact Hcur.
    + apply IH. constructor; assumption.
Qed.

Lemma split_words s : Forall word (split s).
Proof. apply split_ws_words. constructor. Qed.

Lemma lstrip_nonspace c s : isspace c = false -> lstrip (c :: s) = c :: s.
Proof. intros H. cbn. now rewrite H. Qed.

Lemma join_words_first ws :
  Forall word ws -> ws <> [] ->
  exists c s, join (lit " ") ws = c :: s /\ isspace c = false.
Proof.
  intros H Hne. destruct ws as [|w ws]; [congruence|].
  inversion H as [|? ? [Hw Hn] _]; subst.
  destruct w as [|c w]; [congruence|]. inversion Hn; subst.
  exists c. destruct ws; cbn [join app]; eauto.
Qed.

Lemma join_cons2 (x y : pystr) l :
  join (lit " ") (x :: y :: l) = x ++ lit " " ++ join (lit " ") (y :: l).
Proof. reflexivity. Qed.

Lemma rev_join ws :
  rev (join (lit " ") ws) = join (lit " ") (rev (map (@rev char) ws)).
Proof.
  assert (Hsnoc : forall l (w : pystr), l <> [] ->
             join (lit " ") (l ++ [w]) = join (lit " ") l ++ lit " " ++ w).
  { induction l as [|x l IHl]; intros w Hne; [congruence|].
    destruct l as [|y l]; [reflexivity|].
    specialize (IHl w ltac:(discriminate)). cbn [app] in IHl |- *.
    rewrite (join_cons2 x y (l ++ [w])), IHl, (join_cons2 x y l).
    now rewrite <- !app_assoc. }
  induction ws as [|w ws IH]; [reflexivity|].
  destruct ws as [|w' ws']; [reflexivity|].
  rewrite join_cons2, !rev_app_distr, IH.
  change (rev (lit " ")) with (lit " ").
  change (rev (map (@rev char) (w :: w' :: ws')))
    with (rev (map (@rev char) (w' :: ws')) ++ [rev w]).
  rewrite Hsnoc; [now rewrite <- app_assoc|].
  intros E. apply (f_equal (@length _)) in E.
  rewrite length_rev, length_map in E. discriminate.
Qed.

Lemma strip_join ws :
  Forall word ws -> strip (join (lit " ") ws) = join (lit " ") ws.
Proof.
  intros H. destruct ws as [|w ws]; [reflexivity|].
  unfold strip, rstrip.
  destruct (join_words_first (w :: ws) H ltac:(discriminate)) as (c & s & E & Hc).
  rewrite E, (lstrip_nonspace c s Hc), <- E, rev_join.
  assert (Hrev : Forall word (rev (map (@rev char) (w :: ws)))).
  { apply Forall_rev. apply Forall_forall. intros x Hx.
    apply in_map_iff in Hx. destruct Hx as (y & <- & Hy).
    rewrite Forall_forall in H. destruct (H y Hy) as [Hne Hn]. split.
    - intros E'. apply (f_equal (@rev _)) in E'. rewrite rev_involutive in E'.
      now cbn in E'.
    - unfold nonspace. now apply Forall_rev. }
  destruct (join_words_first _ Hrev) as (c' & s' & E' & Hc').
  { intros E0. apply (f_equal (@length _)) in E0.
    rewrite length_rev, length_map in E0. discriminate. }
  rewrite E', (lstrip_nonspace c' s' Hc'), <- E', <- rev_join.
  apply rev_involutive.
Qed.

Lemma flat_map_join ws :
  flat_map sanitize_char (join (lit " ") ws)
  = join (lit " ") (map (flat_map sanitize_char) ws).
Proof.
  induction ws as [|w ws IH]; [reflexivity|].
  destruct ws as [|w' ws']; [reflexivity|].
  change (join (lit " ") (w :: w' :: ws'))
    with (w ++ lit " " ++ join (lit " ") (w' :: ws')).
  rewrite !flat_map_app, IH. reflexivity.
Qed.

Lemma sanitized_word w :
  word w ->
  word (flat_map sanitize_char w)
  /\ Forall (fun d => stable_char d = true) (flat_map sanitize_char w).
Proof.
  intros [Hne Hn]. destruct w as [|c w]; [congruence|].
  assert (Hall : Forall (fun d => stable_char d = true)
                        (flat_map sanitize_char (c :: w))).
  { clear Hne. induction Hn as [|x l Hx _ IH]; [constructor|].
    cbn [flat_map]. apply Forall_app. split; [|exact IH].
    now apply sanitize_char_stable. }
  split; [|exact Hall]. split.
  - inversion Hn; subst. cbn [flat_map].
    destruct (sanitize_char_stable c) as [Hc _]; [assumption|].
    intros E. apply app_eq_nil in E. now destruct E.
  - unfold nonspace. eapply Forall_impl; [|exact Hall].
    intros d Hd. now apply stable_char_fixed.
Qed.

End Sanitizer.

Lemma join_chars (P : char -> Prop) ws :
  P (chr " ") -> Forall (Forall P) ws -> Forall P (join (lit " ") ws).
Proof.
  intros Hsp. induction 1 as [|w ws Hw Hws IH]; [constructor|].
  destruct ws as [|w' ws']; [exact Hw|].
  change (join (lit " ") (w :: w' :: ws'))
    with (w ++ lit " " ++ join (lit " ") (w' :: ws')).
  apply Forall_app. split; [exact Hw|].
  apply Forall_app. split; [|exact IH].
  constructor; [exact Hsp|constructor].
Qed.

(** The sanitizer gives a single-spaced sequence of words made of stable
    characters. *)
Lemma sanitize_label_shape s :
  exists ws,
    sanitize_label s = join (lit " ") ws
    /\ Forall word ws
    /\ Forall (Forall (fun d => stable_char d = true)) ws.
Proof.
  exists (map (flat_map sanitize_char) (split (strip s))).
  unfold sanitize_label. cbv zeta. rewrite sanitize_flat, flat_map_join.
  split; [reflexivity|].
  pose proof (split_words (strip s)) as Hw.
  split; apply Forall_forall; intros x Hx; apply in_map_iff in Hx;
    destruct Hx as (w & <- & Hin); rewrite Forall_forall in Hw;
    apply (sanitized_word w (Hw w Hin)).
Qed.

(** C10 -- The label sanitizer is idempotent. *)
Theorem sanitize_label_idempotent (s : pystr) :
  sanitize_label (sanitize_label s) = sanitize_label s.
Proof.
  destruct (sanitize_label_shape s) as (ws & -> & Hw & Hst).
  unfold sanitize_label. cbv zeta.
  rewrite strip_join, split_join by assumption.
  rewrite sanitize_flat. apply flat_map_stable.
  apply join_chars; [now right|].
  eapply Forall_impl; [|exact Hst].
  intros w H. eapply Forall_impl; [|exact H]. intros d Hd. now left.
Qed.

(** * Further properties of the code *)

(** ** [pad_left], [pad_right] and [split_into_chunks] *)

Lemma pad_right_length s n fill :
  (0 <= n)%Z -> len (pad_right s n fill) = n.
Proof.
  intros Hn. unfold pad_right.
  set (t := str_or_empty s).
  destruct (Z.le_gt_cases (len t) n) as [Hle|Hgt].
  - pose proof (ljust_length t n fill Hle) as E.
    destruct (slice_to_long (ljust t n fill) n) as [_ L]; lia.
  - rewrite ljust_long by lia.
    destruct (slice_to_long t n) as [_ L]; lia.
Qed.

Lemma pad_left_length s n fill :
  (0 <= n)%Z -> len (pad_left s n fill) = n.
Proof.
  intros Hn. unfold pad_left.
  set (t := str_or_empty s).
  destruct (Z.le_gt_cases (len t) n) as [Hle|Hgt].
  - pose proof (rjust_length t n fill Hle) as E.
    destruct (slice_to_long (rjust t n fill) n) as [_ L]; lia.
  - rewrite rjust_long by lia.
    destruct (slice_to_long t n) as [_ L]; lia.
Qed.

Lemma slice_to_all s n : (len s <= n)%Z -> slice_to s n = s.
Proof.
  unfold slice_to, len. intros H. destruct (Z.ltb_spec n 0); [lia|].
  apply firstn_all2. lia.
Qed.

(** X1 -- padding gives exactly the requested length; a value that fits is kept
    whole, at the left for [pad_right] and at the right for [pad_left], the
    rest being the fill character. *)
Theorem pad_exact (s : pystr) (n : Z) (fill : char) :
  (0 <= n)%Z ->
  len (pad_right (Some s) n fill) = n
  /\ len (pad_left (Some s) n fill) = n
  /\ len (pad_right None n fill) = n
  /\ ((len s <= n)%Z ->
      pad_right (Some s) n fill = s ++ repeat fill (Z.to_nat (n - len s))
      /\ pad_left (Some s) n fill = repeat fill (Z.to_nat (n - len s)) ++ s).
Proof.
  intros Hn. split; [now apply pad_right_length|].
  split; [now apply pad_left_length|].
  split; [now apply pad_right_length|].
  intros Hle. unfold pad_right, pad_left, str_or_empty.
  rewrite !slice_to_all; [split; reflexivity| |].
  - rewrite rjust_length; lia.
  - rewrite ljust_length; lia.
Qed.

Lemma pad_exact_witness :
  pad_left (Some (lit "42")) 4 (chr "0")
  = repeat (chr "0") (Z.to_nat (4 - len (lit "42"))) ++ lit "42".
Proof.
  destruct (pad_exact (lit "42") 4 (chr "0")) as (_ & _ & _ & H); [lia|].
  apply H. vm_compute. discriminate.
Defined.

Lemma chunks_spec size : (0 < size)%nat -> forall fuel s,
  (length s <= fuel)%nat ->
  concat (chunks fuel s size) = s
  /\ Forall (fun c => (0 < length c <= size)%nat) (chunks fuel s size)
  /\ (length (chunks fuel s size) * size < length s + size)%nat
  /\ (length s <= length (chunks fuel s size) * size)%nat.
Proof.
  intros Hs. induction fuel as [|f IH]; intros s Hl.
  - destruct s; [|cbn in Hl; lia]. cbn. repeat split; try constructor; lia.
  - destruct s as [|c s]; [cbn; repeat split; try constructor; lia|].
    cbn [chunks].
    set (t := c :: s) in *.
    assert (Ht : (0 < length t)%nat) by (cbn; lia).
    destruct (IH (skipn size t)) as (H1 & H2 & H3 & H4).
    { rewrite length_skipn. lia. }
    cbn [concat length]. rewrite length_skipn in H3, H4.
    split; [rewrite H1; apply firstn_skipn|].
    split; [constructor; [rewrite length_firstn; clear - Hs Ht; lia|exact H2]|].
    rewrite Nat.mul_succ_l.
    destruct (Nat.le_gt_cases (length t) size) as [Hle|Hgt].
    + rewrite skipn_all2 by exact Hle.
      replace (chunks f [] size) with (@nil pystr) by (now destruct f).
      cbn [length]. clear - Hle Ht Hs. lia.
    + set (p := length (chunks f (skipn size t) size) * size) in *.
      clearbody p. clear - H3 H4 Hs Ht Hgt. split; lia.
Qed.

(** X2 -- the chunks of [split_into_chunks] put end to end give the text back;
    every chunk is non-empty and at most [size] long, only the last may be
    shorter, and the empty text has no chunk. *)
Theorem split_into_chunks_spec (s : pystr) (size : nat) :
  (0 < size)%nat ->
  concat (split_into_chunks (Some s) size) = s
  /\ Forall (fun c => (0 < length c <= size)%nat) (split_into_chunks (Some s) size)
  /\ Forall (fun c => length c = size)
            (removelast (split_into_chunks (Some s) size))
  /\ length (split_into_chunks (Some s) size) = (length s + size - 1) / size
  /\ split_into_chunks None size = [].
Proof.
  intros Hs. unfold split_into_chunks, str_or_empty.
  destruct (chunks_spec size Hs (length s) s (le_n _)) as (H1 & H2 & H3 & H4).
  split; [exact H1|]. split; [exact H2|]. split; [|split; [|reflexivity]].
  - clear H1 H2 H3 H4. generalize (length s) at 1. intros fuel. revert s.
    induction fuel as [|f IH]; intros s; [constructor|].
    destruct s as [|c s]; [constructor|]. cbn [chunks].
    set (t := c :: s).
    destruct (chunks f (skipn size t) size) as [|x l] eqn:E.
    + constructor.
    + change (removelast (firstn size t :: x :: l))
        with (firstn size t :: removelast (x :: l)).
      constructor.
      * rewrite length_firstn. apply Nat.min_l.
        destruct (Nat.le_gt_cases size (length t)) as [|Hlt]; [assumption|].
        rewrite skipn_all2 in E by lia. destruct f; discriminate.
      * rewrite <- E. apply IH.
  - rewrite (Nat.mul_comm _ size) in H3, H4.
    set (q := length (chunks (length s) s size)) in *.
    apply Nat.div_unique with (r := (length s + size - 1 - size * q)%nat).
    + set (p := size * q) in *. clearbody p. clear - H3 H4 Hs. lia.
    + set (p := size * q) in *. clearbody p. clear - H3 H4 Hs. lia.
Qed.

Lemma split_into_chunks_spec_witness :
  concat (split_into_chunks (Some (lit "abcdefg")) 3) = lit "abcdefg".
Proof.
  apply (proj1 (split_into_chunks_spec (lit "abcdefg") 3 ltac:(lia))).
Defined.

(** ** The order of the transactions *)

Lemma date_leb_spec a b :
  date_leb a b = true <->
  (year a < year b
   \/ (year a = year b
       /\ (month a < month b \/ (month a = month b /\ day a <= day b))))%N.
Proof.
  unfold date_leb.
  rewrite orb_true_iff, andb_true_iff, orb_true_iff, andb_true_iff.
  rewrite !N.ltb_lt, !N.eqb_eq, N.leb_le. tauto.
Qed.

Lemma date_leb_refl a : date_leb a a = true.
Proof. apply date_leb_spec. lia. Qed.

Lemma date_leb_total a b : date_leb a b = false -> date_leb b a = true.
Proof.
  intros H. apply date_leb_spec.
  assert (Hn : ~ (year a < year b
                  \/ (year a = year b
                      /\ (month a < month b
                          \/ (month a = month b /\ day a <= day b))))%N).
  { intros Hc. apply date_leb_spec in Hc. congruence. }
  lia.
Qed.

Lemma date_leb_trans a b c :
  date_leb a b = true -> date_leb b c = true -> date_leb a c = true.
Proof. rewrite !date_leb_spec. lia. Qed.

Lemma date_leb_antisym a b :
  date_leb a b = true -> date_leb b a = true -> a = b.
Proof.
  rewrite !date_leb_spec. intros H1 H2.
  destruct a as [ya ma da], b as [yb mb db]. cbn in *.
  assert (ya = yb /\ ma = mb /\ da = db) as (-> & -> & ->) by lia.
  reflexivity.
Qed.

Lemma insert_by_date_perm t l : Permutation (t :: l) (insert_by_date t l).
Proof.
  induction l as [|x l IH]; cbn [insert_by_date]; [reflexivity|].
  destruct (date_leb (tx_date t) (tx_date x)); [reflexivity|].
  rewrite perm_swap. now constructor.
Qed.

Lemma insert_by_date_sorted t l :
  StronglySorted tx_le l -> StronglySorted tx_le (insert_by_date t l).
Proof.
  induction 1 as [|x l Hl IH Hx]; cbn [insert_by_date].
  - repeat constructor.
  - destruct (date_leb (tx_date t) (tx_date x)) eqn:E.
    + constructor; [now constructor|].
      constructor; [exact E|].
      eapply Forall_impl; [|exact Hx]. intros y Hy.
      unfold tx_le in *. eapply date_leb_trans; eassumption.
    + constructor; [exact IH|].
      apply (Permutation_Forall (insert_by_date_perm t l)).
      constructor; [|exact Hx].
      unfold tx_le. now apply date_leb_total.
Qed.

(** Inserting keeps the transactions of every date in their order, the new
    one first among those of its own date. *)
Lemma insert_by_date_filter (p : transaction -> bool) t l :
  (forall x, p x = true -> p t = true -> tx_date x = tx_date t) ->
  filter p (insert_by_date t l) = filter p (t :: l).
Proof.
  intros Hp. induction l as [|x l IH]; [reflexivity|].
  cbn [insert_by_date].
  destruct (date_leb (tx_date t) (tx_date x)) eqn:E; [reflexivity|].
  cbn [filter] in *. rewrite IH.
  destruct (p x) eqn:Hx, (p t) eqn:Ht; try reflexivity.
  rewrite (Hp x Hx eq_refl), date_leb_refl in E. discriminate.
Qed.

Lemma sort_by_date_perm l : Permutation l (sort_by_date l).
Proof.
  unfold sort_by_date. induction l as [|t l IH]; cbn [fold_right].
  - constructor.
  - rewrite <- insert_by_date_perm. now constructor.
Qed.

(** X3 -- [transactions.sort(key=date)], as modelled by [sort_by_date], gives a
    rearrangement of the transactions in ascending date order in which the
    transactions of a same date keep their input order. *)
Theorem sort_by_date_spec (l : list transaction) :
  Permutation l (sort_by_date l)
  /\ StronglySorted tx_le (sort_by_date l)
  /\ forall d, filter (on_date d) (sort_by_date l) = filter (on_date d) l.
Proof.
  unfold sort_by_date. induction l as [|t l (IH1 & IH2 & IH3)]; cbn [fold_right].
  - repeat split; constructor.
  - split; [|split].
    + rewrite <- insert_by_date_perm. now constructor.
    + now apply insert_by_date_sorted.
    + intros d. rewrite insert_by_date_filter.
      * cbn [filter]. now rewrite IH3.
      * unfold on_date. intros x Hx Ht.
        apply andb_prop in Hx, Ht. destruct Hx as [Hx1 Hx2], Ht as [Ht1 Ht2].
        transitivity d;
          [apply date_leb_antisym|symmetry; apply date_leb_antisym]; assumption.
Qed.

(** ** The layout of a line *)

Lemma skipn_firstn_prefix {A} (P P' S : list A) a b :
  length P = length P' -> length P <= a ->
  skipn a (firstn b (P ++ S)) = skipn a (firstn b (P' ++ S)).
Proof.
  intros E H. rewrite !firstn_app, !skipn_app, <- E.
  assert (H1 : skipn a (firstn b P) = []).
  { apply skipn_all2. rewrite length_firstn. lia. }
  assert (H2 : skipn a (firstn b P') = []).
  { apply skipn_all2. rewrite length_firstn. lia. }
  rewrite H1, H2, !length_firstn, <- E. reflexivity.
Qed.

Lemma field_put_other line start end_ value right a b :
  start <= end_ <= length line -> a <= b ->
  b <= start \/ end_ <= a ->
  field (put line start end_ value right) a b = field line a b.
Proof.
  intros H Hab Hd. unfold field, slice. rewrite put_eq by lia.
  set (V := put_value start end_ value right).
  assert (HV : length V = end_ - start) by (apply put_value_length; lia).
  assert (Ha : length (firstn start line) = start)
    by (rewrite length_firstn; lia).
  destruct Hd as [Hb|He].
  - rewrite firstn_app, Ha.
    replace (b - start) with 0 by lia. rewrite firstn_O, app_nil_r.
    rewrite firstn_firstn. now rewrite Nat.min_l by lia.
  - rewrite app_assoc.
    rewrite <- (firstn_skipn end_ line) at 3.
    apply skipn_firstn_prefix.
    + rewrite length_app, !length_firstn. lia.
    + rewrite length_app. lia.
Qed.

Lemma firstn_of_repeat {A} (x : A) k : forall n,
  firstn k (repeat x n) = repeat x (Nat.min k n).
Proof.
  induction k as [|k IH]; intros [|n]; cbn; try reflexivity.
  now rewrite IH.
Qed.

Lemma skipn_of_repeat {A} (x : A) k : forall n,
  skipn k (repeat x n) = repeat x (n - k).
Proof.
  induction k as [|k IH]; intros [|n]; cbn; try reflexivity. apply IH.
Qed.

Lemma field_blank a b :
  a <= b <= 120 ->
  field (repeat (chr " ") 120) a b = repeat (chr " ") (b - a).
Proof.
  intros H. unfold field, slice.
  rewrite firstn_of_repeat, skipn_of_repeat. f_equal. lia.
Qed.

Lemma field_put_other_120 line start end_ value right a b :
  length line = 120 -> start <= end_ <= 120 -> a <= b ->
  b <= start \/ end_ <= a ->
  field (put line start end_ value right) a b = field line a b.
Proof. intros Hl H Hab Hd. apply field_put_other; lia. Qed.

Lemma field_put_120 line start end_ value right :
  length line = 120 -> start <= end_ <= 120 ->
  field (put line start end_ value right) start end_
  = put_value start end_ value right.
Proof. intros Hl H. apply field_put. lia. Qed.

Ltac len120 :=
  lazymatch goal with
  | |- length (put _ _ _ _ _) = 120 => apply put_length_120; [len120|lia]
  | |- length (repeat _ _) = 120 => apply repeat_length
  end.

(** Strips the [put]s that wrote elsewhere, then reads the field. *)
Ltac read_field :=
  repeat (rewrite field_put_other_120; [|len120|lia|lia|lia]);
  first [ rewrite field_put_120; [reflexivity|len120|lia]
        | apply field_blank; lia ].

Lemma build_line_fields
  rec_type bank_code branch_code account_number
  date_ddmmyy amount_str name ref comp_type comp_info :
  let line := build_line rec_type bank_code branch_code account_number
                date_ddmmyy amount_str name ref comp_type comp_info in
  field line 0 2 = put_value 0 2 rec_type false
  /\ field line 2 7 = put_value 2 7 bank_code false
  /\ field line 11 16 = put_value 11 16 branch_code false
  /\ field line 16 19 = lit "EUR"
  /\ field line 19 20 = lit "2"
  /\ field line 21 32 = put_value 21 32 account_number false
  /\ field line 34 40 = put_value 34 40 date_ddmmyy false
  /\ (str_eqb rec_type (lit "05") = false ->
      field line 48 79 = put_value 48 79 name false
      /\ field line 81 88 = put_value 81 88 ref false)
  /\ (str_eqb rec_type (lit "05") = true ->
      field line 45 48 = put_value 45 48 comp_type false
      /\ (amount_str = [] -> field line 48 118 = put_value 48 118 comp_info false))
  /\ (amount_str <> [] -> field line 90 104 = put_value 90 104 amount_str true)
  /\ field line 7 11 = repeat (chr " ") 4
  /\ field line 20 21 = repeat (chr " ") 1
  /\ field line 32 34 = repeat (chr " ") 2
  /\ field line 40 45 = repeat (chr " ") 5
  /\ field line 118 120 = repeat (chr " ") 2.
Proof.
  cbv zeta. unfold build_line, CFONB_WIDTH.
  destruct (str_eqb rec_type (lit "05")) eqn:E; destruct amount_str as [|c a];
    repeat match goal with
           | |- _ /\ _ => split
           | |- false = false -> _ => intros _
           | |- true = true -> _ => intros _
           | |- [] = [] -> _ => intros _
           | |- _ = _ -> _ => let H := fresh in intros H; try discriminate H;
                              try congruence
           | |- _ <> _ -> _ => let H := fresh in intros H; try congruence
           end;
    try read_field.
Qed.

(** X4 -- every field of a record reads back as the value given for it, cut to
    the width of the field and padded with spaces (on the left for the
    amount, on the right elsewhere); the label and reference fields are those
    of the records other than "05", which has the qualifier and the text
    instead; the positions of no field are spaces. *)
Theorem build_line_layout
  rec_type bank_code branch_code account_number
  date_ddmmyy amount_str name ref comp_type comp_info :
  let line := build_line rec_type bank_code branch_code account_number
                date_ddmmyy amount_str name ref comp_type comp_info in
  field line 0 2 = put_value 0 2 rec_type false
  /\ field line 2 7 = put_value 2 7 bank_code false
  /\ field line 11 16 = put_value 11 16 branch_code false
  /\ field line 16 19 = lit "EUR"
  /\ field line 19 20 = lit "2"
  /\ field line 21 32 = put_value 21 32 account_number false
  /\ field line 34 40 = put_value 34 40 date_ddmmyy false
  /\ (str_eqb rec_type (lit "05") = false ->
      field line 48 79 = put_value 48 79 name false
      /\ field line 81 88 = put_value 81 88 ref false)
  /\ (str_eqb rec_type (lit "05") = true ->
      field line 45 48 = put_value 45 48 comp_type false
      /\ (amount_str = [] -> field line 48 118 = put_value 48 118 comp_info false))
  /\ (amount_str <> [] -> field line 90 104 = put_value 90 104 amount_str true)
  /\ field line 7 11 = repeat (chr " ") 4
  /\ field line 20 21 = repeat (chr " ") 1
  /\ field line 32 34 = repeat (chr " ") 2
  /\ field line 40 45 = repeat (chr " ") 5
  /\ field line 118 120 = repeat (chr " ") 2.
Proof. apply build_line_fields. Qed.

Lemma build_line_layout_witness :
  field (build_line (lit "04") (lit "30004") (lit "02231") (lit "00010173554")
           (lit "020124") (lit "0000000001234E") (lit "RENT") (lit "0000001")
           [] []) 48 79
  = put_value 48 79 (lit "RENT") false.
Proof.
  destruct (build_line_layout (lit "04") (lit "30004") (lit "02231")
              (lit "00010173554") (lit "020124") (lit "0000000001234E")
              (lit "RENT") (lit "0000001") [] [])
    as (_ & _ & _ & _ & _ & _ & _ & H & _).
  apply H. reflexivity.
Defined.

(** ** Dates *)

Lemma str_eqb_eq a : forall b, str_eqb a b = true <-> a = b.
Proof.
  induction a as [|x a IH]; intros [|y b]; cbn; split; try congruence.
  - intros H. apply andb_prop in H. destruct H as [H1 H2].
    apply N.eqb_eq in H1. apply IH in H2. congruence.
  - intros [= -> ->]. apply andb_true_intro. split.
    + apply N.eqb_refl.
    + now apply IH.
Qed.

Lemma two_digits_small n :
  (n < 100)%N -> two_digits n = [(48 + n / 10)%N; (48 + n mod 10)%N].
Proof.
  intros H.
  assert (T : forallb (fun k => str_eqb (two_digits (N.of_nat k))
                                  [(48 + N.of_nat k / 10)%N;
                                   (48 + N.of_nat k mod 10)%N])
                      (seq 0 100) = true) by (vm_compute; reflexivity).
  rewrite forallb_forall in T.
  specialize (T (N.to_nat n)). rewrite N2Nat.id in T.
  apply str_eqb_eq, T, in_seq. lia.
Qed.

Lemma decimal_in_lt runs c v : decimal_in runs c = Some v -> (v < 10)%N.
Proof.
  induction runs as [|[a n] runs IH]; cbn [decimal_in]; [discriminate|].
  destruct ((a <=? c) && (c <? a + n))%N; [|exact IH].
  intros [= <-]. apply N.mod_lt. discriminate.
Qed.

Lemma unicode_decimal_lt c v : unicode_decimal c = Some v -> (v < 10)%N.
Proof. apply decimal_in_lt. Qed.

Lemma decimal_in_ascii runs c v :
  forallb (fun r => ((fst r =? 48) && (snd r =? 10) || (128 <=? fst r))%N) runs
  = true ->
  (c < 128)%N -> decimal_in runs c = Some v -> c = (48 + v)%N.
Proof.
  intros Hr Hc. induction runs as [|[a n] runs IH]; cbn [decimal_in];
    [discriminate|].
  cbn [forallb fst snd] in Hr. apply andb_prop in Hr. destruct Hr as [Ha Hr].
  destruct ((a <=? c) && (c <? a + n))%N eqn:E; [|now apply IH].
  intros [= <-]. apply andb_prop in E. destruct E as [E1 E2].
  apply N.leb_le in E1. apply N.ltb_lt in E2.
  apply orb_prop in Ha. destruct Ha as [Ha|Ha].
  - apply andb_prop in Ha. destruct Ha as [Ha Hn].
    apply N.eqb_eq in Ha, Hn. subst a n. rewrite N.mod_small; lia.
  - apply N.leb_le in Ha. lia.
Qed.

Lemma unicode_decimal_ascii c v :
  (c < 128)%N -> unicode_decimal c = Some v -> c = (48 + v)%N.
Proof. apply decimal_in_ascii. vm_compute. reflexivity. Qed.

Lemma unicode_decimal_digit c :
  is_ascii_digit c = true -> unicode_decimal c = Some (c - 48)%N.
Proof.
  unfold is_ascii_digit. intros H. apply andb_prop in H. destruct H as [H1 H2].
  apply N.leb_le in H1, H2.
  destruct (unicode_decimal c) as [v|] eqn:E.
  - apply unicode_decimal_ascii in E; [|lia]. f_equal. lia.
  - exfalso. revert E. unfold unicode_decimal, decimal_runs. cbn [decimal_in].
    replace ((48 <=? c) && (c <? 48 + 10))%N with true; [discriminate|].
    symmetry. apply andb_true_intro. split; [apply N.leb_le|apply N.ltb_lt]; lia.
Qed.

Lemma in_range_digit lo hi c :
  in_range lo hi c = true -> (lo <= c <= hi)%N.
Proof.
  unfold in_range. intros H. apply andb_prop in H. destruct H as [H1 H2].
  apply N.leb_le in H1, H2. lia.
Qed.

Lemma ascii_digit_of_decimal c v :
  unicode_decimal c = Some v -> ascii_digit_of c = (48 + v)%N.
Proof. unfold ascii_digit_of. now intros ->. Qed.

Lemma strptime_inv (s : pystr) (d : date) :
  strptime s = Ok d ->
  date_valid d = true
  /\ strftime_dmy d
     = map ascii_digit_of [nth 0 s 0%N; nth 1 s 0%N; nth 3 s 0%N; nth 4 s 0%N;
                           nth 8 s 0%N; nth 9 s 0%N]
  /\ (Forall (fun c => (c < 128)%N) s ->
      strftime_dmy d = [nth 0 s 0%N; nth 1 s 0%N; nth 3 s 0%N; nth 4 s 0%N;
                        nth 8 s 0%N; nth 9 s 0%N]).
Proof.
  intros H. unfold strptime in H.
  destruct s as [|d1 [|d2 [|s1 [|m1 [|m2 [|s2 [|y1 [|y2 [|y3 [|y4 [|? ?]]]]]]]]]]];
    try discriminate H.
  destruct (unicode_decimal d1) as [a|] eqn:Ea; [|discriminate H].
  destruct (unicode_decimal d2) as [b|] eqn:Eb; [|discriminate H].
  destruct (unicode_decimal m1) as [c|] eqn:Ec; [|discriminate H].
  destruct (unicode_decimal m2) as [e|] eqn:Ee; [|discriminate H].
  destruct (unicode_decimal y1) as [f|] eqn:Ef; [|discriminate H].
  destruct (unicode_decimal y2) as [g|] eqn:Eg; [|discriminate H].
  destruct (unicode_decimal y3) as [h|] eqn:Eh; [|discriminate H].
  destruct (unicode_decimal y4) as [i|] eqn:Ei; [|discriminate H].
  cbv zeta in H.
  match type of H with (if ?c then _ else _) = _ =>
    destruct c eqn:C; [|discriminate H] end.
  apply Ok_inj in H. subst d.
  repeat (apply andb_prop in C; destruct C as [C ?]).
  pose proof (unicode_decimal_lt _ _ Ea). pose proof (unicode_decimal_lt _ _ Eb).
  pose proof (unicode_decimal_lt _ _ Ec). pose proof (unicode_decimal_lt _ _ Ee).
  pose proof (unicode_decimal_lt _ _ Ef). pose proof (unicode_decimal_lt _ _ Eg).
  pose proof (unicode_decimal_lt _ _ Eh). pose proof (unicode_decimal_lt _ _ Ei).
  match goal with Hy : (1 <=? _)%N = true |- _ => apply N.leb_le in Hy end.
  match goal with Hy : (_ <=? days_in_month _ _)%N = true |- _ =>
    apply N.leb_le in Hy end.
  assert (Hday : (1 <= 10 * a + b)%N).
  { apply orb_prop in C. destruct C as [C|C];
      [apply orb_prop in C; destruct C as [C|C]|].
    - apply andb_prop in C. destruct C as [C1 C2]. apply N.eqb_eq in C1.
      subst d1. vm_compute in Ea. injection Ea as <-. lia.
    - apply in_range_digit in C.
      assert (E : unicode_decimal d1 = Some (d1 - 48)%N).
      { apply unicode_decimal_digit. unfold is_ascii_digit.
        change (chr "1") with 49%N in C. change (chr "2") with 50%N in C.
        apply andb_true_intro.
        split; apply N.leb_le; lia. }
      rewrite E in Ea. injection Ea as <-.
      change (chr "1") with 49%N in C. lia.
    - apply andb_prop in C. destruct C as [C1 C2]. apply in_range_digit in C2.
      assert (E : unicode_decimal d2 = Some (d2 - 48)%N).
      { apply unicode_decimal_digit. unfold is_ascii_digit.
        change (chr "1") with 49%N in C2. change (chr "9") with 57%N in C2.
        apply andb_true_intro.
        split; apply N.leb_le; lia. }
      rewrite E in Eb. injection Eb as <-.
      change (chr "1") with 49%N in C2. lia. }
  assert (Hmonth : (1 <= 10 * c + e <= 12)%N).
  { match goal with Hm : (_ || _) = true |- _ =>
      apply orb_prop in Hm; destruct Hm as [Hm|Hm];
      apply andb_prop in Hm; destruct Hm as [M1 M2] end.
    - apply N.eqb_eq in M1. subst m1. vm_compute in Ec. injection Ec as <-.
      apply in_range_digit in M2.
      assert (E : unicode_decimal m2 = Some (m2 - 48)%N).
      { apply unicode_decimal_digit. unfold is_ascii_digit.
        change (chr "0") with 48%N in M2. change (chr "2") with 50%N in M2.
        apply andb_true_intro.
        split; apply N.leb_le; lia. }
      rewrite E in Ee. injection Ee as <-.
      change (chr "2") with 50%N in M2. lia.
    - apply N.eqb_eq in M1. subst m1. vm_compute in Ec. injection Ec as <-.
      apply in_range_digit in M2.
      assert (E : unicode_decimal m2 = Some (m2 - 48)%N).
      { apply unicode_decimal_digit. unfold is_ascii_digit.
        change (chr "1") with 49%N in M2. change (chr "9") with 57%N in M2.
        apply andb_true_intro.
        split; apply N.leb_le; lia. }
      rewrite E in Ee. injection Ee as <-.
      change (chr "1") with 49%N in M2. change (chr "9") with 57%N in M2. lia. }
  assert (Hdim : (days_in_month (1000 * f + 100 * g + 10 * h + i) (10 * c + e)
                  <= 31)%N).
  { unfold days_in_month.
    repeat match goal with |- context [if ?x then _ else _] => destruct x end;
      lia. }
  assert (Hfmt : strftime_dmy
                   (mkdate (1000 * f + 100 * g + 10 * h + i) (10 * c + e)
                           (10 * a + b))
                 = [(48 + a)%N; (48 + b)%N; (48 + c)%N; (48 + e)%N;
                    (48 + h)%N; (48 + i)%N]).
  { unfold strftime_dmy. cbn [day month year].
    rewrite !two_digits_small by lia. cbn [app].
    repeat f_equal; lia. }
  split; [|split].
  - unfold date_valid. cbn [day month year].
    repeat (apply andb_true_intro; split); apply N.leb_le; lia.
  - rewrite Hfmt. cbn [map nth].
    now rewrite (ascii_digit_of_decimal _ _ Ea), (ascii_digit_of_decimal _ _ Eb),
      (ascii_digit_of_decimal _ _ Ec), (ascii_digit_of_decimal _ _ Ee),
      (ascii_digit_of_decimal _ _ Eh), (ascii_digit_of_decimal _ _ Ei).
  - intros Hs. rewrite Hfmt. cbn [nth].
    repeat match goal with
           | Hf : Forall _ (_ :: _) |- _ => inversion_clear Hf
           end.
    now rewrite (unicode_decimal_ascii d1 a), (unicode_decimal_ascii d2 b),
      (unicode_decimal_ascii m1 c), (unicode_decimal_ascii m2 e),
      (unicode_decimal_ascii y3 h), (unicode_decimal_ascii y4 i).
Qed.

(** X5 -- the date [strptime] reads from a cell is a date of the calendar, and
    [strftime] renders it as the two digits of its day, of its month and the
    last two of its year, as ASCII digits whatever the script of the cell;
    for an ASCII cell these are its own characters. *)
Theorem strptime_strftime (s : pystr) (d : date) :
  strptime s = Ok d ->
  date_valid d = true
  /\ strftime_dmy d
     = map ascii_digit_of [nth 0 s 0%N; nth 1 s 0%N; nth 3 s 0%N; nth 4 s 0%N;
                           nth 8 s 0%N; nth 9 s 0%N]
  /\ (Forall (fun c => (c < 128)%N) s ->
      strftime_dmy d = [nth 0 s 0%N; nth 1 s 0%N; nth 3 s 0%N; nth 4 s 0%N;
                        nth 8 s 0%N; nth 9 s 0%N]).
Proof. apply strptime_inv. Qed.

Lemma strptime_strftime_witness :
  exists d, strptime (lit "02/01/2024") = Ok d
            /\ strftime_dmy d = lit "020124".
Proof.
  exists (mkdate 2024 1 2). split; [reflexivity|].
  destruct (strptime_strftime (lit "02/01/2024") (mkdate 2024 1 2))
    as (_ & _ & H); [reflexivity|].
  apply H. repeat constructor.
Defined.

(** ** Rows before the first transaction *)

Section Rows.

Variable Decimal_ : pystr -> option Decimal.
Variables bank_code branch_code account_number : pystr.

Lemma parse_row_skipped st r :
  started st = false -> transaction_shaped r = false ->
  parse_row Decimal_ st r = Ok st.
Proof.
  unfold transaction_shaped, parse_row. intros Hs Ht.
  destruct r as [|c r]; [reflexivity|]. cbn [is_nil negb andb] in Ht.
  cbv zeta. rewrite Hs, Ht. reflexivity.
Qed.

Lemma parse_rows_skipped st pre :
  started st = false -> Forall (fun r => transaction_shaped r = false) pre ->
  parse_rows Decimal_ st pre = Ok st.
Proof.
  intros Hs. induction 1 as [|r pre Hr _ IH]; cbn [parse_rows]; [reflexivity|].
  rewrite parse_row_skipped by assumption. exact IH.
Qed.

Lemma parse_csv_skipped pre rows :
  Forall (fun r => transaction_shaped r = false) pre ->
  parse_csv_transactions Decimal_ (pre ++ rows)
  = parse_csv_transactions Decimal_ rows.
Proof.
  intros H. unfold parse_csv_transactions.
  rewrite parse_rows_app, parse_rows_skipped by (assumption || reflexivity).
  reflexivity.
Qed.

(** X6 -- the rows read before the first row whose first cell is a date have no
    effect on the result, whatever they hold: an account-summary row placed
    there does not set the opening balance, and an amount that cannot be
    read does not stop the conversion. *)
Theorem rows_before_first_date_ignored (pre rows : list row) mode :
  Forall (fun r => transaction_shaped r = false) pre ->
  parse_csv_transactions Decimal_ (pre ++ rows)
  = parse_csv_transactions Decimal_ rows
  /\ main Decimal_ bank_code branch_code account_number mode (pre ++ rows)
     = main Decimal_ bank_code branch_code account_number mode rows.
Proof.
  intros H. split; [now apply parse_csv_skipped|].
  unfold main, statement_lines. now rewrite parse_csv_skipped.
Qed.

(** X7 -- a file without any row whose first cell is a date makes [main] exit
    with "No transactions found" before anything is written. *)
Theorem no_dated_row_exits (rows : list row) mode :
  Forall (fun r => transaction_shaped r = false) rows ->
  main Decimal_ bank_code branch_code account_number mode rows
  = ([], Some SystemExit_NoTransactions).
Proof.
  intros H. unfold main, statement_lines, parse_csv_transactions.
  rewrite parse_rows_skipped by (assumption || reflexivity). reflexivity.
Qed.

End Rows.

Lemma rows_before_first_date_ignored_witness :
  let summary := [lit "Compte"; []; []; lit "12/12/2025"; []; lit "824,54"] in
  let tx := [lit "02/01/2024"; []; []; lit "Rent"; lit "-5,00"] in
  parse_csv_transactions Decimal_of_str ([summary] ++ [tx])
  = parse_csv_transactions Decimal_of_str [tx].
Proof.
  intros summary tx.
  destruct (rows_before_first_date_ignored Decimal_of_str [] [] []
              [summary] [tx] opening) as [H _]; [|exact H].
  constructor; [vm_compute; reflexivity|constructor].
Defined.

Lemma no_dated_row_exits_witness :
  main Decimal_of_str [] [] [] opening
       [[lit "Compte"; []; []; lit "12/12/2025"; []; lit "abc"]]
  = ([], Some SystemExit_NoTransactions).
Proof.
  apply no_dated_row_exits.
  constructor; [vm_compute; reflexivity|constructor].
Defined.

(** ** What reaches the output file *)

Lemma latin1_app a b : latin1 (a ++ b) = latin1 a && latin1 b.
Proof. apply forallb_app. Qed.

Lemma latin1_firstn n : forall s, latin1 s = true -> latin1 (firstn n s) = true.
Proof.
  unfold latin1. induction n as [|n IH]; intros [|c s]; cbn [firstn forallb];
    try reflexivity.
  intros H. apply andb_prop in H. destruct H as [-> H]. now apply IH.
Qed.

Lemma latin1_skipn n : forall s, latin1 s = true -> latin1 (skipn n s) = true.
Proof.
  unfold latin1. induction n as [|n IH]; intros [|c s]; cbn [skipn forallb];
    try reflexivity; try (intros H; exact H).
  intros H. apply andb_prop in H. destruct H as [_ H]. now apply IH.
Qed.

Lemma latin1_repeat c n : (c < 256)%N -> latin1 (repeat c n) = true.
Proof.
  intros H. unfold latin1. induction n as [|n IH]; cbn [repeat forallb];
    [reflexivity|].
  apply andb_true_intro. split; [now apply N.ltb_lt|exact IH].
Qed.

Lemma latin1_digits s :
  Forall (fun c => is_ascii_digit c = true) s -> latin1 s = true.
Proof.
  unfold latin1. induction 1 as [|c s Hc _ IH]; cbn [forallb]; [reflexivity|].
  apply andb_true_intro. split; [|exact IH].
  unfold is_ascii_digit in Hc. apply andb_prop in Hc. destruct Hc as [_ Hc].
  apply N.leb_le in Hc. apply N.ltb_lt. lia.
Qed.

Lemma latin1_slice_to s n : latin1 s = true -> latin1 (slice_to s n) = true.
Proof. intros H. unfold slice_to. destruct (n <? 0)%Z; now apply latin1_firstn. Qed.

Lemma latin1_slice s a b : latin1 s = true -> latin1 (slice s a b) = true.
Proof. intros H. unfold slice. now apply latin1_skipn, latin1_firstn. Qed.

Lemma latin1_ljust s w c :
  (c < 256)%N -> latin1 s = true -> latin1 (ljust s w c) = true.
Proof.
  intros Hc H. unfold ljust. now rewrite latin1_app, H, latin1_repeat.
Qed.

Lemma latin1_rjust s w c :
  (c < 256)%N -> latin1 s = true -> latin1 (rjust s w c) = true.
Proof.
  intros Hc H. unfold rjust. now rewrite latin1_app, H, latin1_repeat.
Qed.

Lemma latin1_put line start end_ value right :
  latin1 line = true -> latin1 value = true ->
  latin1 (put line start end_ value right) = true.
Proof.
  intros Hl Hv. unfold put. cbv zeta. rewrite !latin1_app.
  rewrite latin1_firstn, latin1_skipn by assumption.
  destruct right; [rewrite latin1_rjust|rewrite latin1_ljust];
    try reflexivity; now apply latin1_slice_to.
Qed.

Lemma latin1_build_line
  rec_type bank_code branch_code account_number
  date_ddmmyy amount_str name ref comp_type comp_info :
  latin1 rec_type = true -> latin1 bank_code = true ->
  latin1 branch_code = true -> latin1 account_number = true ->
  latin1 date_ddmmyy = true -> latin1 amount_str = true ->
  latin1 name = true -> latin1 ref = true ->
  latin1 comp_type = true -> latin1 comp_info = true ->
  latin1 (build_line rec_type bank_code branch_code account_number
            date_ddmmyy amount_str name ref comp_type comp_info) = true.
Proof.
  intros. unfold build_line. cbv zeta.
  destruct (str_eqb rec_type (lit "05")); destruct amount_str;
    repeat apply latin1_put; try assumption; reflexivity.
Qed.

Lemma latin1_encode amount decimals width s :
  cfonb_encode_amount amount decimals width = Ok s -> latin1 s = true.
Proof.
  intros H.
  destruct (encode_ok_inv _ _ _ _ H)
    as (nonneg & n & d & c & _ & _ & Hpos & _ & _ & _ & Hc & ->).
  rewrite latin1_app. apply andb_true_intro. split.
  - rewrite removelast_firstn_len. apply latin1_firstn, latin1_digits.
    apply rjust_zero_digits. now apply format_d_digits.
  - apply lookup_In in Hc.
    assert (T : forallb (fun kv => (snd kv <? 256)%N) (table nonneg) = true)
      by (destruct nonneg; reflexivity).
    rewrite forallb_forall in T. specialize (T _ Hc). cbn [snd] in T.
    unfold latin1. cbn [forallb]. now rewrite T.
Qed.

Lemma latin1_two_digits n : latin1 (two_digits n) = true.
Proof. apply latin1_digits, rjust_zero_digits, str_of_N_spec. Qed.

Lemma latin1_strftime d : latin1 (strftime_dmy d) = true.
Proof.
  unfold strftime_dmy. now rewrite !latin1_app, !latin1_two_digits.
Qed.

Lemma latin1_format_d z : latin1 (format_d z) = true.
Proof.
  unfold format_d. destruct (z <? 0)%Z.
  - change (latin1 (str_of_N (Z.to_N (- z))) = true).
    apply latin1_digits, str_of_N_spec.
  - apply latin1_digits, str_of_N_spec.
Qed.

Lemma latin1_replace_ok s : latin1 (latin1_replace s) = true.
Proof.
  unfold latin1, latin1_replace. induction s as [|c s IH]; cbn [map forallb];
    [reflexivity|].
  rewrite IH, andb_true_r. destruct (N.ltb_spec c 256) as [H|H].
  - now apply N.ltb_lt.
  - reflexivity.
Qed.

Lemma latin1_sanitize s : latin1 (sanitize_label s) = true.
Proof. apply latin1_replace_ok. Qed.

Lemma write_lines_all lines :
  Forall (fun l => length l = 120) lines ->
  Forall (fun l => latin1 l = true) lines ->
  write_lines lines = (map (fun l => l ++ [10%N]) lines, None).
Proof.
  induction 1 as [|l lines Hl _ IH]; intros Hall; [reflexivity|].
  inversion_clear Hall as [|? ? Hc Hrest].
  cbn [write_lines map]. unfold CFONB_WIDTH. rewrite Hl. cbn [Nat.eqb negb].
  unfold latin1 in Hc. rewrite Hc. now rewrite IH.
Qed.

Section Output.

Variable Decimal_ : pystr -> option Decimal.
Variables bank_code branch_code account_number : pystr.
Hypothesis bank_code_latin1 : latin1 bank_code = true.
Hypothesis branch_code_latin1 : latin1 branch_code = true.
Hypothesis account_number_latin1 : latin1 account_number = true.

Lemma latin1_transaction_lines seq tx ls :
  latin1 (tx_label tx) = true ->
  transaction_lines bank_code branch_code account_number seq tx = Ok ls ->
  Forall (fun l => latin1 l = true) ls.
Proof.
  intros Hl H. unfold transaction_lines in H. inv_bind H.
  apply latin1_encode in Hv.
  destruct (31 <? len (tx_label tx))%Z; apply Ok_inj in H; subst ls;
    repeat (apply Forall_cons;
            [apply latin1_build_line;
             first [assumption | reflexivity | apply latin1_strftime
                   | apply latin1_slice_to; assumption
                   | apply latin1_slice; assumption
                   | apply latin1_rjust; [reflexivity|apply latin1_format_d]]|]);
    apply Forall_nil.
Qed.

Lemma latin1_all_transaction_lines txs : forall seq ls,
  Forall (fun t => latin1 (tx_label t) = true) txs ->
  all_transaction_lines bank_code branch_code account_number seq txs = Ok ls ->
  Forall (fun l => latin1 l = true) ls.
Proof.
  induction txs as [|tx txs IH]; intros seq ls Hall H; cbn in H.
  - apply Ok_inj in H. subst ls. constructor.
  - inversion_clear Hall. inv_bind H. inv_bind H. apply Ok_inj in H. subst ls.
    apply Forall_app. split.
    + eapply latin1_transaction_lines; eassumption.
    + eapply IH; eassumption.
Qed.

Lemma parse_row_inv (P : transaction -> Prop) st r st' :
  (forall s d a raw, strptime s = Ok d -> P (mktx d a (sanitize_label raw))) ->
  Forall P (transactions st) ->
  parse_row Decimal_ st r = Ok st' -> Forall P (transactions st').
Proof.
  intros HP Hst H. unfold parse_row in H.
  destruct r as [|c r]; [apply Ok_inj in H; now subst st'|].
  cbv zeta in H. set (r' := pad_row (c :: r)) in *.
  destruct (negb (started st) && negb (DATE_RE_match (strip (cell r' 0))));
    [apply Ok_inj in H; now subst st'|].
  destruct (negb (DATE_RE_match (strip (cell r' 0)))
            && DATE_RE_match (strip (cell r' 3))).
  { inv_bind H. apply Ok_inj in H. now subst st'. }
  destruct (negb (DATE_RE_match (strip (cell r' 0))));
    [apply Ok_inj in H; now subst st'|].
  inv_bind H. destruct v as [a|]; [|apply Ok_inj in H; now subst st'].
  inv_bind H. apply Ok_inj in H. subst st'. cbn [transactions].
  apply Forall_app. split; [assumption|].
  constructor; [|constructor]. eapply HP; eassumption.
Qed.

Lemma parse_rows_inv (P : transaction -> Prop) rows : forall st st',
  (forall s d a raw, strptime s = Ok d -> P (mktx d a (sanitize_label raw))) ->
  Forall P (transactions st) ->
  parse_rows Decimal_ st rows = Ok st' -> Forall P (transactions st').
Proof.
  induction rows as [|r rows IH]; intros st st' HP Hst H; cbn [parse_rows] in H.
  - apply Ok_inj in H. now subst st'.
  - inv_bind H. eapply IH; [exact HP| |exact H].
    eapply parse_row_inv; eassumption.
Qed.

Lemma parse_csv_inv (P : transaction -> Prop) rows ob txs :
  (forall s d a raw, strptime s = Ok d -> P (mktx d a (sanitize_label raw))) ->
  parse_csv_transactions Decimal_ rows = Ok (ob, txs) -> Forall P txs.
Proof.
  intros HP H. unfold parse_csv_transactions in H. inv_bind H.
  apply Ok_inj in H. injection H as _ <-.
  eapply parse_rows_inv; [exact HP| |exact Hv]. constructor.
Qed.

Lemma latin1_statement_lines mode rows lines :
  statement_lines Decimal_ bank_code branch_code account_number mode rows
  = Ok lines ->
  Forall (fun l => latin1 l = true) lines.
Proof.
  unfold statement_lines. intros H. inv_bind H. destruct v as [ob txs].
  assert (Hl : Forall (fun t => latin1 (tx_label t) = true) txs).
  { eapply parse_csv_inv; [|exact Hv]. intros. apply latin1_sanitize. }
  destruct txs as [|t txs]; [discriminate|].
  inv_bind H. destruct v as [start_balance end_balance].
  inv_bind H. inv_bind H. inv_bind H. apply Ok_inj in H. subst lines.
  repeat match goal with
         | Hv : cfonb_encode_amount _ _ _ = Ok _ |- _ => apply latin1_encode in Hv
         end.
  apply Forall_app. split.
  { apply Forall_cons; [|apply Forall_nil].
    apply latin1_build_line;
      first [assumption | reflexivity | apply latin1_strftime]. }
  apply Forall_app. split.
  - eapply latin1_all_transaction_lines; [|eassumption].
    eapply Permutation_Forall; [apply sort_by_date_perm|exact Hl].
  - apply Forall_cons; [|apply Forall_nil].
    apply latin1_build_line;
      first [assumption | reflexivity | apply latin1_strftime].
Qed.

(** X8 -- when the three account fields are text the latin1 codec encodes, the
    output file holds every line of the statement, each followed by a
    newline, or nothing at all: what stops the conversion stops it before
    the first line is written, and the writing loop raises neither its
    line-length error nor an encoding error. *)
Theorem main_all_or_nothing mode rows :
  match statement_lines Decimal_ bank_code branch_code account_number mode rows
  with
  | Ok lines =>
      main Decimal_ bank_code branch_code account_number mode rows
      = (map (fun l => l ++ [10%N]) lines, None)
  | Raise e =>
      main Decimal_ bank_code branch_code account_number mode rows
      = ([], Some e)
  end.
Proof.
  unfold main.
  destruct (statement_lines Decimal_ bank_code branch_code account_number
              mode rows) as [lines|e] eqn:E; [|reflexivity].
  apply write_lines_all.
  - eapply statement_lines_length; exact E.
  - eapply latin1_statement_lines; exact E.
Qed.

End Output.

(** X9 -- every transaction read from the rows has a date of the calendar and a
    label the latin1 codec encodes. *)
Theorem parsed_transactions_well_formed Decimal_ rows ob txs :
  parse_csv_transactions Decimal_ rows = Ok (ob, txs) ->
  Forall (fun t => date_valid (tx_date t) = true
                   /\ latin1 (tx_label t) = true) txs.
Proof.
  apply parse_csv_inv. intros s d a raw H. cbn [tx_date tx_label]. split.
  - now apply strptime_inv in H.
  - apply latin1_sanitize.
Qed.

Lemma main_all_or_nothing_witness :
  exists lines,
    statement_lines Decimal_of_str (lit "30004") (lit "02231")
      (lit "00010173554") opening
      [[lit "02/01/2024"; []; []; lit "Rent"; lit "-5,00"]] = Ok lines
    /\ main Decimal_of_str (lit "30004") (lit "02231") (lit "00010173554")
         opening [[lit "02/01/2024"; []; []; lit "Rent"; lit "-5,00"]]
       = (map (fun l => l ++ [10%N]) lines, None).
Proof.
  pose proof (main_all_or_nothing Decimal_of_str (lit "30004") (lit "02231")
                (lit "00010173554") eq_refl eq_refl eq_refl opening
                [[lit "02/01/2024"; []; []; lit "Rent"; lit "-5,00"]]) as H.
  destruct (statement_lines Decimal_of_str (lit "30004") (lit "02231")
              (lit "00010173554") opening
              [[lit "02/01/2024"; []; []; lit "Rent"; lit "-5,00"]])
    as [lines|e] eqn:E.
  - exists lines. split; [reflexivity|exact H].
  - vm_compute in E. discriminate E.
Defined.

Lemma parsed_transactions_well_formed_witness :
  Forall (fun t => date_valid (tx_date t) = true /\ latin1 (tx_label t) = true)
         [mktx (mkdate 2024 1 2) (Fin true 500 (-2)) (lit "RENT")].
Proof.
  apply (parsed_transactions_well_formed Decimal_of_str
           [[lit "02/01/2024"; []; []; lit "Rent"; lit "-5,00"]] None).
  vm_compute. reflexivity.
Defined.

(** ** The records of a transaction *)

Lemma days_in_month_le y m : (days_in_month y m <= 31)%N.
Proof.
  unfold days_in_month.
  repeat match goal with |- context [if ?x then _ else _] => destruct x end; lia.
Qed.

Lemma strftime_length d : date_valid d = true -> length (strftime_dmy d) = 6.
Proof.
  unfold date_valid. intros H. repeat (apply andb_prop in H; destruct H as [H ?]).
  repeat match goal with Hx : (_ <=? _)%N = true |- _ => apply N.leb_le in Hx end.
  pose proof (days_in_month_le (year d) (month d)).
  unfold strftime_dmy. rewrite !two_digits_small by lia. reflexivity.
Qed.

Lemma str_of_N_length n k :
  (n < 10 ^ N.of_nat k)%N -> 1 <= k -> length (str_of_N n) <= k.
Proof.
  intros Hn Hk. destruct (str_of_N_spec n) as (_ & _ & _ & [H|H]); [lia|].
  destruct (Nat.le_gt_cases (length (str_of_N n)) k) as [|Hgt];
    [assumption|exfalso].
  assert (10 ^ N.of_nat k <= 10 ^ N.of_nat (length (str_of_N n) - 1))%N
    by (apply N.pow_le_mono_r; lia).
  lia.
Qed.

Lemma format_d_length z k :
  (0 <= z < 10 ^ Z.of_nat k)%Z -> 1 <= k -> length (format_d z) <= k.
Proof.
  intros Hz Hk. unfold format_d. destruct (Z.ltb_spec z 0); [lia|].
  apply str_of_N_length; [|assumption].
  rewrite <- (Z2N.id z) in Hz by lia.
  change 10%Z with (Z.of_N 10) in Hz. rewrite <- nat_N_Z, <- N2Z.inj_pow in Hz.
  lia.
Qed.

Lemma put_value_fits start end_ value :
  start <= end_ -> length value <= end_ - start ->
  put_value start end_ value false
  = ljust value (Z.of_nat (end_ - start)) (chr " ").
Proof.
  intros H Hl. unfold put_value. rewrite slice_to_all by (unfold len; lia).
  f_equal. lia.
Qed.

Lemma put_value_exact start end_ value right :
  start <= end_ -> length value = end_ - start ->
  put_value start end_ value right = value.
Proof.
  intros H Hl. unfold put_value. rewrite slice_to_all by (unfold len; lia).
  destruct right; [apply rjust_long|apply ljust_long]; unfold len; lia.
Qed.

Lemma slice_length_le s a b : a <= b -> length (slice s a b) <= b - a.
Proof.
  intros H. unfold slice. rewrite length_skipn, length_firstn. lia.
Qed.

Lemma transaction_lines_inv bank_code branch_code account_number seq tx ls :
  date_valid (tx_date tx) = true -> (0 <= seq < 10 ^ 7)%Z ->
  transaction_lines bank_code branch_code account_number seq tx = Ok ls ->
  exists amount_str l04,
    cfonb_encode_amount (tx_amount tx) 2 AMOUNT_WIDTH = Ok amount_str
    /\ record_code l04 = lit "04"
    /\ field l04 34 40 = strftime_dmy (tx_date tx)
    /\ field l04 48 79 = ljust (firstn 31 (tx_label tx)) 31 (chr " ")
    /\ field l04 81 88 = rjust (format_d seq) 7 (chr "0")
    /\ field l04 90 104 = amount_str
    /\ if has_long_label tx
       then exists l05,
           ls = [l04; l05]
           /\ record_code l05 = lit "05"
           /\ field l05 34 40 = strftime_dmy (tx_date tx)
           /\ field l05 45 48 = lit "LIB"
           /\ field l05 48 118
              = ljust (slice (tx_label tx) 31 101) 70 (chr " ")
       else ls = [l04].
Proof.
  intros Hd Hseq H. unfold transaction_lines in H. cbv zeta in H. inv_bind H.
  rename v into amount_str.
  assert (Ha : length amount_str = 14).
  { destruct (encode_keeps_digits _ _ _ _ Hv) as (n & d & sg & _ & _ & _ & L & _).
    unfold len, AMOUNT_WIDTH in L. lia. }
  set (ref := rjust (format_d seq) 7 (chr "0")) in *.
  assert (Hr : length ref = 7).
  { pose proof (format_d_length seq 7 Hseq ltac:(lia)) as Hf.
    pose proof (rjust_length (format_d seq) 7 (chr "0")) as E.
    unfold len in E. fold ref in E. lia. }
  pose proof (strftime_length _ Hd) as Hdate.
  set (l04 := build_line (lit "04") bank_code branch_code account_number
                (strftime_dmy (tx_date tx)) amount_str
                (slice_to (tx_label tx) 31) ref [] []) in *.
  exists amount_str, l04.
  destruct (build_line_fields (lit "04") bank_code branch_code account_number
              (strftime_dmy (tx_date tx)) amount_str
              (slice_to (tx_label tx) 31) ref [] [])
    as (F0 & _ & _ & _ & _ & _ & F34 & F48 & _ & F90 & _).
  cbv zeta in F0, F34, F48, F90. fold l04 in F0, F34, F48, F90.
  destruct (F48 eq_refl) as [Fname Fref].
  split; [exact Hv|]. split; [exact F0|].
  split; [rewrite F34; apply put_value_exact; lia|].
  split.
  { rewrite Fname. unfold slice_to. cbn [Z.ltb Z.compare Z.to_nat Pos.to_nat
                                         Pos.iter_op Nat.add].
    rewrite put_value_fits by (rewrite ?length_firstn; lia). reflexivity. }
  split; [rewrite Fref; apply put_value_exact; lia|].
  split.
  { rewrite F90 by (destruct amount_str; [discriminate Ha|discriminate]).
    apply put_value_exact; lia. }
  unfold has_long_label. destruct (31 <? len (tx_label tx))%Z.
  - eexists. split; [apply Ok_inj in H; symmetry; exact H|].
    destruct (build_line_fields (lit "05") bank_code branch_code account_number
                (strftime_dmy (tx_date tx)) [] [] [] (lit "LIB")
                (slice (tx_label tx) 31 (31 + 70)))
      as (G0 & _ & _ & _ & _ & _ & G34 & _ & G45 & _).
    cbv zeta in G0, G34, G45. destruct (G45 eq_refl) as [Gq Gi].
    split; [exact G0|].
    split; [rewrite G34; apply put_value_exact; lia|].
    split; [exact Gq|].
    rewrite (Gi eq_refl).
    pose proof (slice_length_le (tx_label tx) 31 (31 + 70) ltac:(lia)) as Hs.
    rewrite put_value_fits by lia. reflexivity.
  - apply Ok_inj in H. now subst ls.
Qed.

(** X10 -- the "04" record of a transaction carries its date, the first 31
    characters of its label, its sequence number on seven digits and its
    encoded amount; a "05" record follows exactly when the label is longer
    than 31 characters, with the qualifier LIB and the characters 31 to 101
    of the label, and nothing of the label beyond them is written. *)
Theorem transaction_records bank_code branch_code account_number seq tx ls :
  date_valid (tx_date tx) = true -> (0 <= seq < 10 ^ 7)%Z ->
  transaction_lines bank_code branch_code account_number seq tx = Ok ls ->
  exists amount_str l04,
    cfonb_encode_amount (tx_amount tx) 2 AMOUNT_WIDTH = Ok amount_str
    /\ record_code l04 = lit "04"
    /\ field l04 34 40 = strftime_dmy (tx_date tx)
    /\ field l04 48 79 = ljust (firstn 31 (tx_label tx)) 31 (chr " ")
    /\ field l04 81 88 = rjust (format_d seq) 7 (chr "0")
    /\ field l04 90 104 = amount_str
    /\ if has_long_label tx
       then exists l05,
           ls = [l04; l05]
           /\ record_code l05 = lit "05"
           /\ field l05 34 40 = strftime_dmy (tx_date tx)
           /\ field l05 45 48 = lit "LIB"
           /\ field l05 48 118
              = ljust (slice (tx_label tx) 31 101) 70 (chr " ")
       else ls = [l04].
Proof. apply transaction_lines_inv. Qed.

Lemma transaction_records_witness :
  exists amount_str l04,
    cfonb_encode_amount (Fin true 500 (-2)) 2 AMOUNT_WIDTH = Ok amount_str
    /\ field l04 81 88 = lit "0000003"
    /\ field l04 90 104 = amount_str.
Proof.
  destruct (transaction_records (lit "30004") (lit "02231") (lit "00010173554")
              3 (mktx (mkdate 2024 1 2) (Fin true 500 (-2)) (lit "RENT"))
              [build_line (lit "04") (lit "30004") (lit "02231")
                 (lit "00010173554") (lit "020124") (lit "0000000000050}")
                 (lit "RENT") (lit "0000003") [] []])
    as (amount_str & l04 & H1 & _ & _ & _ & H2 & H3 & _).
  - reflexivity.
  - lia.
  - vm_compute. reflexivity.
  - exists amount_str, l04. split; [exact H1|]. split; [exact H2|exact H3].
Defined.

(** ** The statement as a whole *)

Section Statement.

Variable Decimal_ : pystr -> option Decimal.
Variables bank_code branch_code account_number : pystr.

Let tlines := transaction_lines bank_code branch_code account_number.
Let alines := all_transaction_lines bank_code branch_code account_number.
Let ref_of (seq : Z) : pystr :=
  put_value 81 88 (rjust (format_d seq) 7 (chr "0")) false.

Lemma transaction_lines_shape seq tx ls :
  tlines seq tx = Ok ls ->
  exists l04 l05,
    ls = l04 :: (if has_long_label tx then [l05] else [])
    /\ record_code l04 = lit "04" /\ record_code l05 = lit "05"
    /\ field l04 81 88 = ref_of seq.
Proof.
  unfold tlines, transaction_lines. cbv zeta. intros H. inv_bind H.
  exists (build_line (lit "04") bank_code branch_code account_number
            (strftime_dmy (tx_date tx)) v (slice_to (tx_label tx) 31)
            (rjust (format_d seq) 7 (chr "0")) [] []),
         (build_line (lit "05") bank_code branch_code account_number
            (strftime_dmy (tx_date tx)) [] [] [] (lit "LIB")
            (slice (tx_label tx) 31 (31 + 70))).
  split.
  - unfold has_long_label. destruct (31 <? len (tx_label tx))%Z;
      apply Ok_inj in H; symmetry; exact H.
  - split; [|split].
    + apply (build_line_fields (lit "04")).
    + apply (build_line_fields (lit "05")).
    + destruct (build_line_fields (lit "04") bank_code branch_code
                  account_number (strftime_dmy (tx_date tx)) v
                  (slice_to (tx_label tx) 31)
                  (rjust (format_d seq) 7 (chr "0")) [] [])
        as (_ & _ & _ & _ & _ & _ & _ & F & _).
      destruct (F eq_refl) as [_ Fr]. exact Fr.
Qed.

Lemma all_transaction_lines_shape txs : forall seq ls,
  alines seq txs = Ok ls ->
  length ls = length txs + length (filter has_long_label txs)
  /\ Forall (fun l => record_code l = lit "04" \/ record_code l = lit "05") ls
  /\ map (fun l => field l 81 88) (records_04 ls)
     = map ref_of (zrange seq (length txs)).
Proof.
  induction txs as [|tx txs IH]; intros seq ls H; cbn in H.
  - apply Ok_inj in H. subst ls. repeat split. constructor.
  - inv_bind H. inv_bind H. apply Ok_inj in H. subst ls.
    rename v into l1, v0 into rest.
    apply transaction_lines_shape in Hv.
    destruct Hv as (l04 & l05 & -> & C4 & C5 & R).
    destruct (IH _ _ Hv0) as (L & C & N).
    assert (E4 : str_eqb (record_code l04) (lit "04") = true)
      by (rewrite C4; reflexivity).
    assert (E5 : str_eqb (record_code l05) (lit "04") = false)
      by (rewrite C5; reflexivity).
    unfold records_04 in *. cbn [length filter zrange map].
    destruct (has_long_label tx); cbn [app length filter map];
      rewrite E4, ?E5; cbn [map length]; rewrite N, R, L.
    + split; [lia|]. split; [|reflexivity].
      constructor; [now left|]. constructor; [now right|exact C].
    + split; [lia|]. split; [|reflexivity].
      constructor; [now left|exact C].
Qed.

Lemma statement_lines_inv mode rows lines :
  statement_lines Decimal_ bank_code branch_code account_number mode rows
  = Ok lines ->
  exists ob txs start_balance end_balance a01 body a07,
    parse_csv_transactions Decimal_ rows = Ok (ob, txs)
    /\ txs <> []
    /\ balances mode ob (sort_by_date txs) = Ok (start_balance, end_balance)
    /\ cfonb_encode_amount start_balance 2 AMOUNT_WIDTH = Ok a01
    /\ alines 1%Z (sort_by_date txs) = Ok body
    /\ cfonb_encode_amount end_balance 2 AMOUNT_WIDTH = Ok a07
    /\ lines
       = build_line (lit "01") bank_code branch_code account_number
           (strftime_dmy
              (tx_date (hd (mktx (mkdate 0 0 0) (Fin false 0 0) [])
                           (sort_by_date txs)))) a01 [] [] [] []
         :: body
         ++ [build_line (lit "07") bank_code branch_code account_number
               (strftime_dmy
                  (tx_date (last (sort_by_date txs)
                                 (mktx (mkdate 0 0 0) (Fin false 0 0) []))))
               a07 [] [] [] []].
Proof.
  unfold statement_lines. intros H. inv_bind H. destruct v as [ob txs].
  destruct txs as [|t txs]; [discriminate|].
  inv_bind H. destruct v as [start_balance end_balance].
  inv_bind H. inv_bind H. inv_bind H. apply Ok_inj in H. subst lines.
  exists ob, (t :: txs), start_balance, end_balance, v, v0, v1.
  repeat (split; [first [assumption | discriminate | reflexivity]|]).
  reflexivity.
Qed.

(** X11 -- a statement is one "01" record, the records of the transactions and
    one "07" record; the records of the transactions are "04" and "05"
    records, one "04" for each transaction read and one "05" more for each
    label longer than 31 characters; the "04" records are numbered from 1 in
    the order of the lines, the number being written on seven digits. *)
Theorem statement_shape mode rows lines :
  statement_lines Decimal_ bank_code branch_code account_number mode rows
  = Ok lines ->
  exists ob txs l01 body l07,
    parse_csv_transactions Decimal_ rows = Ok (ob, txs)
    /\ lines = l01 :: body ++ [l07]
    /\ record_code l01 = lit "01" /\ record_code l07 = lit "07"
    /\ Forall (fun l => record_code l = lit "04" \/ record_code l = lit "05")
              body
    /\ length body = length txs + length (filter has_long_label txs)
    /\ map (fun l => field l 81 88) (records_04 body)
       = map (fun seq => put_value 81 88 (rjust (format_d seq) 7 (chr "0")) false)
             (zrange 1 (length txs)).
Proof.
  intros H. apply statement_lines_inv in H.
  destruct H as (ob & txs & sb & eb & a01 & body & a07
                 & Hp & _ & _ & _ & Hb & _ & ->).
  apply all_transaction_lines_shape in Hb. destruct Hb as (L & C & N).
  pose proof (sort_by_date_perm txs) as P.
  exists ob, txs. eexists. exists body. eexists.
  split; [exact Hp|]. split; [reflexivity|].
  split; [apply (build_line_fields (lit "01"))|].
  split; [apply (build_line_fields (lit "07"))|].
  split; [exact C|].
  rewrite <- (Permutation_length P) in L, N.
  split; [|exact N].
  rewrite L. f_equal.
  clear -P. induction P; cbn [filter]; try reflexivity.
  - destruct (has_long_label x); cbn [length]; now rewrite IHP.
  - destruct (has_long_label x), (has_long_label y); reflexivity.
  - congruence.
Qed.

Lemma sort_by_date_sorted l : StronglySorted tx_le (sort_by_date l).
Proof.
  unfold sort_by_date. induction l as [|t l IH]; cbn [fold_right].
  - constructor.
  - now apply insert_by_date_sorted.
Qed.

Lemma sorted_hd_min l d t :
  StronglySorted tx_le l -> In t l -> tx_le (hd d l) t.
Proof.
  intros S Hin. destruct S as [|x l S F]; [contradiction|]. cbn [hd].
  destruct Hin as [<-|Hin]; [apply date_leb_refl|].
  rewrite Forall_forall in F. now apply F.
Qed.

Lemma sorted_last_max l d t :
  StronglySorted tx_le l -> In t l -> tx_le t (last l d).
Proof.
  intros S. revert t. induction S as [|x l S IH F]; intros t Hin;
    [contradiction|].
  destruct l as [|y l].
  - destruct Hin as [<-|[]]. apply date_leb_refl.
  - change (last (x :: y :: l) d) with (last (y :: l) d).
    destruct Hin as [<-|Hin]; [|now apply IH].
    unfold tx_le. eapply date_leb_trans; [|apply (IH y); now left].
    rewrite Forall_forall in F. apply F. now left.
Qed.

Lemma hd_In {A} (l : list A) d : l <> [] -> In (hd d l) l.
Proof. destruct l; [congruence|now left]. Qed.

Lemma last_In {A} (l : list A) d : l <> [] -> In (last l d) l.
Proof.
  induction l as [|x l IH]; [congruence|]. intros _.
  destruct l as [|y l]; [now left|]. right. apply IH. discriminate.
Qed.

(** X12 -- the "01" record carries the earliest date of the transactions read
    and the "07" record the latest, whatever the order of the rows. *)
Theorem statement_dates mode rows lines :
  statement_lines Decimal_ bank_code branch_code account_number mode rows
  = Ok lines ->
  exists ob txs first final,
    parse_csv_transactions Decimal_ rows = Ok (ob, txs)
    /\ In first txs /\ In final txs
    /\ (forall t, In t txs -> tx_le first t /\ tx_le t final)
    /\ field (hd [] lines) 34 40 = strftime_dmy (tx_date first)
    /\ field (last lines []) 34 40 = strftime_dmy (tx_date final).
Proof.
  intros H. apply statement_lines_inv in H.
  destruct H as (ob & txs & sb & eb & a01 & body & a07
                 & Hp & Hne & _ & _ & _ & _ & ->).
  pose proof (sort_by_date_perm txs) as P.
  pose proof (sort_by_date_sorted txs) as S.
  set (sorted := sort_by_date txs) in *.
  set (dflt := mktx (mkdate 0 0 0) (Fin false 0 0) []) in *.
  assert (Hs : sorted <> []).
  { intros E. rewrite E in P. apply Permutation_sym, Permutation_nil in P.
    contradiction. }
  assert (Hv : Forall (fun t => date_valid (tx_date t) = true) sorted).
  { eapply Permutation_Forall; [exact P|].
    eapply parse_csv_inv; [|exact Hp].
    intros s d a raw Hd. cbn [tx_date]. now apply strptime_inv in Hd. }
  rewrite Forall_forall in Hv.
  exists ob, txs, (hd dflt sorted), (last sorted dflt).
  split; [exact Hp|].
  split; [apply (Permutation_in _ (Permutation_sym P)), hd_In, Hs|].
  split; [apply (Permutation_in _ (Permutation_sym P)), last_In, Hs|].
  split.
  { intros t Ht. apply (Permutation_in _ P) in Ht.
    split; [now apply sorted_hd_min|now apply sorted_last_max]. }
  split.
  - cbn [hd].
    destruct (build_line_fields (lit "01") bank_code branch_code account_number
                (strftime_dmy (tx_date (hd dflt sorted))) a01 [] [] [] [])
      as (_ & _ & _ & _ & _ & _ & F & _).
    cbv zeta in F. rewrite F. apply put_value_exact; [lia|].
    apply strftime_length, Hv, hd_In, Hs.
  - rewrite app_comm_cons, last_last.
    destruct (build_line_fields (lit "07") bank_code branch_code account_number
                (strftime_dmy (tx_date (last sorted dflt))) a07 [] [] [] [])
      as (_ & _ & _ & _ & _ & _ & F & _).
    cbv zeta in F. rewrite F. apply put_value_exact; [lia|].
    apply strftime_length, Hv, last_In, Hs.
Qed.

End Statement.

Lemma statement_shape_witness :
  exists lines l01 body l07,
    statement_lines Decimal_of_str (lit "30004") (lit "02231")
      (lit "00010173554") opening
      [[lit "02/01/2024"; []; []; lit "Rent"; lit "-5,00"]] = Ok lines
    /\ lines = l01 :: body ++ [l07]
    /\ record_code l01 = lit "01" /\ record_code l07 = lit "07".
Proof.
  destruct (statement_lines Decimal_of_str (lit "30004") (lit "02231")
              (lit "00010173554") opening
              [[lit "02/01/2024"; []; []; lit "Rent"; lit "-5,00"]])
    as [lines|e] eqn:E; [|vm_compute in E; discriminate E].
  destruct (statement_shape _ _ _ _ _ _ _ E)
    as (ob & txs & l01 & body & l07 & _ & L & C1 & C7 & _).
  exists lines, l01, body, l07. repeat split; assumption.
Defined.

Lemma statement_dates_witness :
  exists lines first final,
    statement_lines Decimal_of_str (lit "30004") (lit "02231")
      (lit "00010173554") opening
      [[lit "05/01/2024"; []; []; lit "Rent"; lit "-5,00"];
       [lit "02/01/2024"; []; []; lit "Pay"; lit "7,00"]] = Ok lines
    /\ tx_le first final
    /\ field (hd [] lines) 34 40 = strftime_dmy (tx_date first)
    /\ field (last lines []) 34 40 = strftime_dmy (tx_date final).
Proof.
  destruct (statement_lines Decimal_of_str (lit "30004") (lit "02231")
              (lit "00010173554") opening
              [[lit "05/01/2024"; []; []; lit "Rent"; lit "-5,00"];
               [lit "02/01/2024"; []; []; lit "Pay"; lit "7,00"]])
    as [lines|e] eqn:E; [|vm_compute in E; discriminate E].
  destruct (statement_dates _ _ _ _ _ _ _ E)
    as (ob & txs & first & final & _ & _ & Hf & Hall & H1 & H7).
  exists lines, first, final.
  split; [reflexivity|]. split; [apply (Hall final Hf)|].
  split; assumption.
Defined.

(** ** The IBAN *)

Lemma slice_slice_from l a x y :
  slice (slice_from l a) x y = slice l (a + x) (a + y).
Proof.
  unfold slice, slice_from. rewrite firstn_skipn_comm, skipn_skipn.
  f_equal. lia.
Qed.

Lemma slice_length l a b : b <= length l -> length (slice l a b) = b - a.
Proof. intros H. unfold slice. rewrite length_skipn, length_firstn. lia. Qed.

Lemma slice_cat l a b c :
  a <= b <= c -> c <= length l -> slice l a b ++ slice l b c = slice l a c.
Proof.
  intros H Hc. unfold slice.
  rewrite <- (firstn_skipn b (firstn c l)) at 2.
  rewrite firstn_firstn, Nat.min_l by lia.
  rewrite skipn_app, length_firstn.
  replace (a - Nat.min b (length l)) with 0 by lia. reflexivity.
Qed.

Lemma is_nil_length {A} (s : list A) : 0 < length s -> is_nil s = false.
Proof. destruct s; cbn; [lia|reflexivity]. Qed.

Lemma isdigit_fields n :
  27 <= length n ->
  isdigit (slice n 4 9) && isdigit (slice n 9 14) && isdigit (slice n 14 25)
  && isdigit (slice n 25 27)
  = forallb (in_runs isdigit_runs) (slice n 4 27).
Proof.
  intros H.
  rewrite <- (slice_cat n 4 25 27), <- (slice_cat n 4 14 25),
    <- (slice_cat n 4 9 14) by lia.
  rewrite !forallb_app. unfold isdigit.
  rewrite !is_nil_length by (rewrite slice_length; lia). reflexivity.
Qed.

Lemma parse_iban_fr_inv (iban b br a k : pystr) :
  let n := upper (remove_char (chr " ") iban) in
  parse_iban_fr iban = inr (b, br, a, k)
  <-> startswith n (lit "FR") = true /\ 27 <= length n
      /\ forallb (in_runs isdigit_runs) (slice n 4 27) = true
      /\ b = slice n 4 9 /\ br = slice n 9 14 /\ a = slice n 14 25
      /\ k = slice n 25 27.
Proof.
  intros n. unfold parse_iban_fr. cbv zeta. fold n.
  rewrite !slice_slice_from.
  change (4 + 0) with 4. change (4 + 5) with 9. change (4 + 10) with 14.
  change (4 + 21) with 25. change (4 + 23) with 27.
  destruct (startswith n (lit "FR")); cbn [negb orb].
  - destruct (Nat.ltb_spec (length n) 27) as [Hl|Hl].
    + split; [discriminate|]. intros (_ & H & _). lia.
    + rewrite isdigit_fields by assumption.
      destruct (forallb (in_runs isdigit_runs) (slice n 4 27)).
      * split.
        -- intros [= <- <- <- <-]. repeat split; assumption.
        -- intros (_ & _ & _ & -> & -> & -> & ->). reflexivity.
      * split; [discriminate|]. intros (_ & _ & H & _). discriminate H.
  - split; [discriminate|]. intros (H & _). discriminate H.
Qed.

(** X13 -- [parse_iban_fr] accepts exactly the texts that, once the spaces are
    removed and the letters put in upper case, start with FR, have at least
    27 characters and have digits (of any script) from the fifth to the
    twenty-seventh; the fields are then the characters 4-9, 9-14, 14-25 and
    25-27.  The check digits and whatever follows the 27 characters are not
    looked at. *)
Theorem parse_iban_fr_spec (iban b br a k : pystr) :
  let n := upper (remove_char (chr " ") iban) in
  parse_iban_fr iban = inr (b, br, a, k)
  <-> startswith n (lit "FR") = true /\ 27 <= length n
      /\ forallb (in_runs isdigit_runs) (slice n 4 27) = true
      /\ b = slice n 4 9 /\ br = slice n 9 14 /\ a = slice n 14 25
      /\ k = slice n 25 27.
Proof. apply parse_iban_fr_inv. Qed.

Lemma latin1_slice_false s a b :
  latin1 (slice s a b) = false -> latin1 s = false.
Proof.
  intros H. destruct (latin1 s) eqn:E; [|reflexivity].
  now rewrite latin1_slice in H.
Qed.

(** X14 -- an IBAN whose bank code is written with digits outside Latin-1 is
    accepted by [parse_iban_fr], and the records are built, but the first
    line cannot be encoded: [main] stops in the writing loop before anything
    reaches the file. *)
Theorem non_latin1_iban_is_not_written
  Decimal_ iban b br a k mode rows lines :
  parse_iban_fr iban = inr (b, br, a, k) ->
  latin1 b = false ->
  statement_lines Decimal_ b br a mode rows = Ok lines ->
  main Decimal_ b br a mode rows = ([], Some UnicodeEncodeError).
Proof.
  intros Hp Hb Hs. unfold main. rewrite Hs.
  apply parse_iban_fr_inv in Hp. cbv zeta in Hp.
  destruct Hp as (_ & Hn & _ & Eb & _).
  assert (Lb : length b = 5) by (rewrite Eb, slice_length; lia).
  apply statement_lines_inv in Hs.
  destruct Hs as (ob & txs & sb & eb & a01 & body & a07
                  & _ & _ & _ & _ & _ & _ & ->).
  cbn [write_lines]. rewrite build_line_length. cbn [Nat.eqb negb CFONB_WIDTH].
  match goal with |- context [forallb ?f ?l] =>
    change (forallb f l) with (latin1 l);
    replace (latin1 l) with false; [reflexivity|] end.
  symmetry. apply (latin1_slice_false _ 2 7).
  match goal with |- latin1 (slice ?l 2 7) = false =>
    change (slice l 2 7) with (field l 2 7) end.
  destruct (build_line_fields (lit "01") b br a
              (strftime_dmy
                 (tx_date (hd (mktx (mkdate 0 0 0) (Fin false 0 0) [])
                              (sort_by_date txs)))) a01 [] [] [] [])
    as (_ & F & _).
  cbv zeta in F. rewrite F, put_value_exact by lia. exact Hb.
Qed.

Lemma parse_iban_fr_spec_witness :
  parse_iban_fr (lit "FR76 3000 4022 3100 0101 7355 454")
  = inr (lit "30004", lit "02231", lit "00010173554", lit "54").
Proof.
  apply parse_iban_fr_spec.
  repeat split; vm_compute; first [reflexivity | lia].
Defined.

Lemma non_latin1_iban_is_not_written_witness :
  main Decimal_of_str [1635; 1632; 1632; 1632; 1636]%N (lit "02231")
       (lit "00010173554") opening
       [[lit "02/01/2024"; []; []; lit "Rent"; lit "-5,00"]]
  = ([], Some UnicodeEncodeError).
Proof.
  assert (H : parse_iban_fr
                (lit "FR76" ++ [1635; 1632; 1632; 1632; 1636]%N
                 ++ lit "022310001017355454")
              = inr ([1635; 1632; 1632; 1632; 1636]%N, lit "02231",
                     lit "00010173554", lit "54"))
    by (vm_compute; reflexivity).
  destruct (statement_lines Decimal_of_str [1635; 1632; 1632; 1632; 1636]%N
              (lit "02231") (lit "00010173554") opening
              [[lit "02/01/2024"; []; []; lit "Rent"; lit "-5,00"]])
    as [lines|e] eqn:E; [|vm_compute in E; discriminate E].
  exact (non_latin1_iban_is_not_written Decimal_of_str _ _ _ _ _ opening _
           lines H eq_refl E).
Defined.

(** ** The builders of [csv_to_cfonb120.py] *)

Lemma pad_right_nat s n fill :
  (0 <= n)%Z -> length (pad_right s n fill) = Z.to_nat n.
Proof.
  intros H. pose proof (pad_right_length s n fill H) as E. unfold len in E. lia.
Qed.

Lemma pad_left_nat s n fill :
  (0 <= n)%Z -> length (pad_left s n fill) = Z.to_nat n.
Proof.
  intros H. pose proof (pad_left_length s n fill H) as E. unfold len in E. lia.
Qed.

Lemma pad_right_fits s n fill :
  (len s <= n)%Z ->
  pad_right (Some s) n fill = s ++ repeat fill (Z.to_nat (n - len s)).
Proof.
  intros H. unfold pad_right, str_or_empty.
  rewrite slice_to_all; [reflexivity|]. rewrite ljust_length; lia.
Qed.

Lemma pad_right_same s n fill : len s = n -> pad_right (Some s) n fill = s.
Proof.
  intros H. rewrite pad_right_fits by lia.
  replace (n - len s)%Z with 0%Z by lia. apply app_nil_r.
Qed.

Lemma slice_mid {A} (a b r : list A) n m :
  length a = n -> length b = m - n -> n <= m ->
  skipn n (firstn m (a ++ b ++ r)) = b.
Proof.
  intros Ha Hb H. rewrite app_assoc, firstn_app.
  rewrite firstn_all2 by (rewrite length_app; lia).
  replace (m - length (a ++ b)) with 0 by (rewrite length_app; lia).
  rewrite firstn_O, app_nil_r, skipn_app.
  rewrite skipn_all2 by lia. replace (n - length a) with 0 by lia.
  reflexivity.
Qed.

Lemma fold_digits t : forall acc,
  fold_left (fun a c => (10 * a + (c - 48))%N) t acc
  = (acc * 10 ^ N.of_nat (length t)
     + fold_left (fun a c => (10 * a + (c - 48))%N) t 0)%N.
Proof.
  induction t as [|c t IH]; intros acc; cbn [fold_left length].
  - change (10 ^ N.of_nat 0)%N with 1%N. lia.
  - rewrite (IH (10 * acc + (c - 48))%N), (IH (10 * 0 + (c - 48))%N).
    rewrite Nat2N.inj_succ, N.pow_succ_r'.
    set (P := (10 ^ N.of_nat (length t))%N). set (d := (c - 48)%N). ring.
Qed.

Lemma N_of_digits_split s t :
  N_of_digits (s ++ t)
  = (N_of_digits s * 10 ^ N.of_nat (length t) + N_of_digits t)%N.
Proof. rewrite N_of_digits_app_gen. apply fold_digits. Qed.

Lemma N_of_digits_lt s :
  Forall (fun c => is_ascii_digit c = true) s ->
  (N_of_digits s < 10 ^ N.of_nat (length s))%N.
Proof.
  induction 1 as [|c s Hc _ IH].
  - cbn. lia.
  - change (c :: s) with ([c] ++ s). rewrite N_of_digits_split.
    cbn [length app]. rewrite Nat2N.inj_succ, N.pow_succ_r'.
    unfold is_ascii_digit in Hc. apply andb_prop in Hc. destruct Hc as [H1 H2].
    apply N.leb_le in H1, H2.
    change (N_of_digits [c]) with (10 * 0 + (c - 48))%N.
    set (P := (10 ^ N.of_nat (length s))%N) in *. nia.
Qed.

Lemma digits_skipn k : forall s,
  Forall (fun c => is_ascii_digit c = true) s ->
  Forall (fun c => is_ascii_digit c = true) (skipn k s).
Proof.
  induction k as [|k IH]; intros s H; [exact H|].
  destruct H; [constructor|]. cbn [skipn]. now apply IH.
Qed.

Lemma slice_last_length s n : length (slice_last s n) = Nat.min n (length s).
Proof. unfold slice_last. rewrite length_skipn. lia. Qed.

(** The last [k] digits of a number are its remainder modulo [10^k]. *)
Lemma slice_last_digits s k :
  Forall (fun c => is_ascii_digit c = true) s ->
  N_of_digits (slice_last s k) = (N_of_digits s mod 10 ^ N.of_nat k)%N.
Proof.
  intros H. unfold slice_last.
  pose proof (N_of_digits_split (firstn (length s - k) s)
                (skipn (length s - k) s)) as E.
  rewrite firstn_skipn in E.
  pose proof (N_of_digits_lt _ (digits_skipn (length s - k) s H)) as L.
  rewrite length_skipn in E, L.
  destruct (Nat.le_gt_cases k (length s)) as [Hk|Hk].
  - replace (length s - (length s - k)) with k in E, L by lia.
    set (P := (10 ^ N.of_nat k)%N) in *.
    assert (P <> 0)%N by (apply N.pow_nonzero; discriminate).
    apply N.mod_unique with (q := N_of_digits (firstn (length s - k) s));
      [exact L|]. rewrite E. ring.
  - replace (length s - k) with 0 in * by lia. cbn [skipn firstn] in *.
    rewrite Nat.sub_0_r in L.
    symmetry. apply N.mod_small.
    eapply N.lt_le_trans; [exact L|]. apply N.pow_le_mono_r; lia.
Qed.

(** X15 -- the internal code is always four characters long and the counter
    advances by one; from a counter that is not negative the code is the
    next number modulo 10000, written on four digits: after 9999 the codes
    start again at 0000. *)
Theorem next_internal_code_spec (seq : Z) :
  let code := fst (next_internal_code seq) in
  snd (next_internal_code seq) = (seq + 1)%Z
  /\ length code = 4
  /\ ((0 <= seq)%Z ->
      Forall (fun c => is_ascii_digit c = true) code
      /\ N_of_digits code = Z.to_N ((seq + 1) mod 10000)).
Proof.
  cbv zeta. unfold next_internal_code. cbn [fst snd].
  split; [reflexivity|]. split; [now apply pad_left_nat|].
  intros Hs. unfold pad_left, str_or_empty.
  set (s := format_d (seq + 1)).
  assert (Hd : Forall (fun c => is_ascii_digit c = true) s)
    by (apply format_d_digits; lia).
  assert (Hn : N_of_digits s = Z.to_N (seq + 1)).
  { unfold s, format_d. destruct (Z.ltb_spec (seq + 1) 0); [lia|].
    apply str_of_N_spec. }
  pose proof (slice_last_length s 4) as Hl.
  rewrite slice_to_all by (rewrite rjust_length; unfold len; lia).
  split.
  - apply rjust_zero_digits. unfold slice_last. now apply digits_skipn.
  - rewrite N_of_digits_rjust, slice_last_digits, Hn by assumption.
    change (10 ^ N.of_nat 4)%N with 10000%N. lia.
Qed.

Lemma next_internal_code_spec_witness :
  N_of_digits (fst (next_internal_code 12344)) = 2345%N.
Proof.
  destruct (next_internal_code_spec 12344) as (_ & _ & H).
  destruct H as [_ H]; [lia|]. exact H.
Defined.

Ltac record_length :=
  rewrite ?length_app; rewrite ?pad_right_nat by lia;
  rewrite ?strftime_length by assumption; reflexivity.

Lemma build_05_line_length p code d q info :
  date_valid d = true -> length (build_05_line p code d q info) = 120.
Proof.
  intros H. unfold build_05_line. cbv zeta.
  (rewrite slice_to_all; [|unfold len]); record_length.
Qed.

Section SiblingBuilders.

Variable float : Type.
Variable write_amount : float -> Z -> pystr.

Lemma make_header_length p ob pd :
  opt_date_valid pd -> length (make_header float write_amount p ob pd) = 120.
Proof.
  intros H. unfold make_header. cbv zeta.
  destruct pd as [d|], ob as [b|]; cbn [opt_date_valid] in H;
    (rewrite slice_to_all; [|unfold len]); record_length.
Qed.

Lemma make_footer_length p ta nd :
  opt_date_valid nd -> length (make_footer float write_amount p ta nd) = 120.
Proof.
  intros H. unfold make_footer. cbv zeta.
  destruct nd as [d|], ta as [b|]; cbn [opt_date_valid] in H;
    (rewrite slice_to_all; [|unfold len]); record_length.
Qed.

Lemma build_04_line_length p tx seq :
  stx_valid tx = true ->
  length (fst (build_04_line float write_amount p tx seq)) = 120.
Proof.
  unfold stx_valid. intros H. apply andb_prop in H. destruct H as [H1 H2].
  unfold build_04_line, next_internal_code. cbv zeta. cbn [fst].
  (rewrite slice_to_all; [|unfold len]); record_length.
Qed.

(** X16 -- every record the builders of [csv_to_cfonb120.py] return is 120
    characters long, whatever the parameters, the texts and the rendering of
    the amount. *)
Theorem sibling_records_wide p :
  (forall ob pd, opt_date_valid pd ->
                 length (make_header float write_amount p ob pd) = 120)
  /\ (forall ta nd, opt_date_valid nd ->
                    length (make_footer float write_amount p ta nd) = 120)
  /\ (forall tx seq, stx_valid tx = true ->
                     length (fst (build_04_line float write_amount p tx seq))
                     = 120)
  /\ (forall code d q info, date_valid d = true ->
                            length (build_05_line p code d q info) = 120).
Proof.
  split; [intros; now apply make_header_length|].
  split; [intros; now apply make_footer_length|].
  split; [intros; now apply build_04_line_length|].
  intros; now apply build_05_line_length.
Qed.

End SiblingBuilders.

Lemma sibling_records_wide_witness :
  length (build_05_line (mkparams (lit "15589") (lit "00000") None 2
                                  (lit "98765432100"))
            (lit "0001") (mkdate 2024 1 2) (lit "LIB") (lit "RENT")) = 120.
Proof.
  destruct (sibling_records_wide Z (fun _ _ => [])
              (mkparams (lit "15589") (lit "00000") None 2 (lit "98765432100")))
    as (_ & _ & _ & H).
  apply H. reflexivity.
Defined.

(** ** The records of [convert] *)

Lemma slice_skip {A} (a r : list A) x y :
  length a <= x -> x <= y ->
  skipn x (firstn y (a ++ r))
  = skipn (x - length a) (firstn (y - length a) r).
Proof.
  intros Hx Hy. rewrite firstn_app, firstn_all2 by lia.
  rewrite skipn_app, skipn_all2 by lia. reflexivity.
Qed.

Lemma firstn_app_exact {A} (a r : list A) n :
  length a = n -> firstn n (a ++ r) = a.
Proof.
  intros H. rewrite firstn_app, firstn_all2 by lia.
  replace (n - length a) with 0 by lia. rewrite firstn_O. apply app_nil_r.
Qed.

Ltac peel_field :=
  unfold slice;
  repeat (lazymatch goal with
          | |- skipn (S ?x) (firstn ?y (?a ++ ?r)) = _ =>
              rewrite (slice_skip a r (S x) y)
                by (rewrite ?pad_right_nat by lia;
                    rewrite ?strftime_length by assumption; lia);
              rewrite ?pad_right_nat by lia;
              rewrite ?strftime_length by assumption;
              repeat match goal with
                     | |- context [Z.to_nat ?w] =>
                         let v := eval vm_compute in (Z.to_nat w) in
                         change (Z.to_nat w) with v
                     end;
              cbn [Nat.sub]
          end);
  cbn [skipn];
  apply firstn_app_exact; rewrite pad_right_nat by lia; reflexivity.

Lemma build_05_line_fields p code d q info :
  date_valid d = true ->
  slice (build_05_line p code d q info) 7 11 = pad_right (Some code) 4 SPACE
  /\ slice (build_05_line p code d q info) 45 48 = pad_right (Some q) 3 SPACE
  /\ slice (build_05_line p code d q info) 48 118
     = pad_right (Some info) 70 SPACE.
Proof.
  intros H. unfold build_05_line. cbv zeta.
  rewrite slice_to_all by (unfold len; record_length).
  split; [|split]; peel_field.
Qed.

Lemma next_internal_code_length seq : length (fst (next_internal_code seq)) = 4.
Proof. unfold next_internal_code. cbn [fst]. now apply pad_left_nat. Qed.

Lemma chunks_count s :
  length (split_into_chunks (Some s) 70) = pieces (length s) 70.
Proof.
  unfold split_into_chunks, str_or_empty, pieces.
  destruct (chunks_spec 70 ltac:(lia) (length s) s (le_n _)) as (_ & _ & H1 & H2).
  set (L := length (chunks (length s) s 70)) in *. clearbody L.
  apply Nat.div_unique with (r := length s + 70 - 1 - L * 70); lia.
Qed.

Lemma chunks_padded : forall fuel s,
  length s <= fuel ->
  exists k, k < 70
    /\ concat (map (fun c => pad_right (Some c) 70 SPACE) (chunks fuel s 70))
       = s ++ repeat SPACE k.
Proof.
  induction fuel as [|f IH]; intros s Hl.
  - destruct s; [|cbn in Hl; lia]. exists 0. split; [lia|reflexivity].
  - destruct s as [|c s]; [exists 0; split; [lia|reflexivity]|].
    cbn [chunks]. set (t := c :: s) in *.
    assert (Ht : 0 < length t) by (cbn; lia).
    cbn [map concat].
    destruct (Nat.le_gt_cases (length t) 70) as [Hle|Hgt].
    + rewrite skipn_all2 by exact Hle.
      replace (chunks f [] 70) with (@nil pystr) by (now destruct f).
      cbn [map concat]. rewrite app_nil_r, firstn_all2 by exact Hle.
      rewrite pad_right_fits by (unfold len; lia).
      exists (Z.to_nat (70 - len t)). split; [unfold len; lia|reflexivity].
    + destruct (IH (skipn 70 t)) as (k & Hk & E).
      { rewrite length_skipn. lia. }
      exists k. split; [exact Hk|].
      rewrite E, pad_right_same by (unfold len; rewrite length_firstn; lia).
      now rewrite app_assoc, firstn_skipn.
Qed.

Section SiblingTransaction.

Variable float : Type.
Variable write_amount : float -> Z -> pystr.

Lemma build_04_line_code p (tx : stx float) seq code :
  stx_valid tx = true -> s_internal_code _ tx = Some code ->
  slice (fst (build_04_line float write_amount p tx seq)) 7 11
  = pad_right (Some code) 4 SPACE
  /\ snd (build_04_line float write_amount p tx seq) = (seq + 1)%Z.
Proof.
  unfold stx_valid. intros H Hc. apply andb_prop in H. destruct H as [H1 H2].
  unfold build_04_line, next_internal_code. cbv zeta. cbn [fst snd].
  rewrite Hc. split; [|reflexivity].
  rewrite slice_to_all by (unfold len; record_length).
  peel_field.
Qed.

Lemma convert_tx_inv p (tx : stx float) seq :
  stx_valid tx = true ->
  let code := fst (next_internal_code seq) in
  let lines := fst (convert_tx float write_amount p tx seq) in
  snd (convert_tx float write_amount p tx seq) = (seq + 2)%Z
  /\ length lines = stx_line_count tx
  /\ Forall (fun l => length l = 120 /\ slice l 7 11 = code) lines
  /\ exists line04 libs refs k,
       lines = line04 :: libs ++ refs
       /\ k < 70
       /\ concat (map (fun l => slice l 48 118) libs)
          = str_or_empty (s_label _ tx) ++ repeat SPACE k
       /\ Forall (fun l => slice l 45 48 = lit "LIB") libs.
Proof.
  intros Hv. cbv zeta.
  pose proof Hv as Hv'. unfold stx_valid in Hv'. apply andb_prop in Hv'.
  destruct Hv' as [Hd _].
  pose proof (next_internal_code_length seq) as Hc.
  unfold convert_tx.
  destruct (next_internal_code seq) as [code seq1] eqn:En.
  assert (Es : seq1 = (seq + 1)%Z)
    by (unfold next_internal_code in En; now injection En as _ <-).
  cbn [fst] in Hc.
  set (tx' := mkstx float (operation_date _ tx) (value_date _ tx) (s_label _ tx)
                (s_amount _ tx) (s_reference _ tx) (Some code)
                (s_operation_code _ tx)).
  assert (Hv1 : stx_valid tx' = true) by exact Hv.
  destruct (build_04_line_code p tx' seq1 code Hv1 eq_refl) as [C4 S4].
  pose proof (build_04_line_length float write_amount p tx' seq1 Hv1) as L4.
  destruct (build_04_line float write_amount p tx' seq1) as [line04 seq2].
  cbn [fst snd] in *.
  set (label := str_or_empty (s_label _ tx)).
  set (libs := map (build_05_line p code (operation_date _ tx) (lit "LIB"))
                   (split_into_chunks (Some label) 70)).
  set (refs := match s_reference _ tx with
               | Some (c :: r) =>
                   map (build_05_line p code (operation_date _ tx) (lit "REF"))
                       (split_into_chunks (Some (c :: r)) 70)
               | _ => []
               end).
  assert (Hcode : pad_right (Some code) 4 SPACE = code)
    by (apply pad_right_same; unfold len; lia).
  assert (H05 : forall q info,
             length (build_05_line p code (operation_date _ tx) q info) = 120
             /\ slice (build_05_line p code (operation_date _ tx) q info) 7 11
                = code).
  { intros q info. split; [now apply build_05_line_length|].
    destruct (build_05_line_fields p code (operation_date _ tx) q info Hd)
      as (F & _). now rewrite F. }
  split; [lia|]. split; [|split].
  - cbn [length]. rewrite length_app. unfold libs, refs, stx_line_count.
    rewrite length_map, chunks_count. fold label.
    destruct (s_reference _ tx) as [[|c r]|]; cbn [str_or_empty].
    + cbn [length]. unfold pieces. cbn. lia.
    + rewrite length_map, chunks_count. lia.
    + cbn [length]. unfold pieces. cbn. lia.
  - constructor; [split; [exact L4|now rewrite C4]|].
    apply Forall_app. split.
    + unfold libs. apply Forall_forall. intros l Hl.
      apply in_map_iff in Hl. destruct Hl as (c & <- & _). apply H05.
    + unfold refs.
      destruct (s_reference _ tx) as [[|c r]|]; [constructor| |constructor].
      apply Forall_forall. intros l Hl.
      apply in_map_iff in Hl. destruct Hl as (c' & <- & _). apply H05.
  - destruct (chunks_padded (length label) label (le_n _)) as (k & Hk & E).
    exists line04, libs, refs, k.
    split; [reflexivity|]. split; [exact Hk|]. split.
    + rewrite <- E. unfold libs, split_into_chunks, str_or_empty.
      rewrite map_map. f_equal. apply map_ext. intros c.
      now destruct (build_05_line_fields p code (operation_date _ tx)
                      (lit "LIB") c Hd) as (_ & _ & F).
    + unfold libs. apply Forall_forall. intros l Hl.
      apply in_map_iff in Hl. destruct Hl as (c & <- & _).
      destruct (build_05_line_fields p code (operation_date _ tx)
                  (lit "LIB") c Hd) as (_ & F & _).
      rewrite F. reflexivity.
Qed.

(** X17 -- a transaction takes two internal codes from the counter, the second
    one being thrown away; its "04" record and its "05" records all carry
    the first of the two, and are 120 characters long; the "05" records of
    the label carry the qualifier LIB and, end to end, the whole label,
    padded with spaces. *)
Theorem convert_tx_records p (tx : stx float) seq :
  stx_valid tx = true ->
  let code := fst (next_internal_code seq) in
  let lines := fst (convert_tx float write_amount p tx seq) in
  snd (convert_tx float write_amount p tx seq) = (seq + 2)%Z
  /\ length lines = stx_line_count tx
  /\ Forall (fun l => length l = 120 /\ slice l 7 11 = code) lines
  /\ exists line04 libs refs k,
       lines = line04 :: libs ++ refs
       /\ k < 70
       /\ concat (map (fun l => slice l 48 118) libs)
          = str_or_empty (s_label _ tx) ++ repeat SPACE k
       /\ Forall (fun l => slice l 45 48 = lit "LIB") libs.
Proof. apply convert_tx_inv. Qed.

End SiblingTransaction.

Section SiblingConvert.

Variable float : Type.
Variable write_amount : float -> Z -> pystr.
Variable fadd : float -> float -> float.
Variable fzero : float.





End SiblingConvert.

Lemma convert_tx_records_witness :
  snd (convert_tx Z (fun _ _ => [])
         (mkparams (lit "15589") (lit "00000") None 2 (lit "98765432100"))
         (mkstx Z (mkdate 2024 1 2) (mkdate 2024 1 2) (Some (lit "RENT")) 0%Z
                (Some (lit "REF1")) None None) 0)
  = 2%Z.
Proof.
  destruct (convert_tx_records Z (fun _ _ => [])
              (mkparams (lit "15589") (lit "00000") None 2 (lit "98765432100"))
              (mkstx Z (mkdate 2024 1 2) (mkdate 2024 1 2) (Some (lit "RENT"))
                     0%Z (Some (lit "REF1")) None None) 0)
    as (H & _); [reflexivity|exact H].
Defined.

